(** * System-optimal solver (so_solver.py): a shallow embedding

    The development follows the layout of [so_solver.py]:
    - the Python built-ins the program leans on (string methods, [float],
      insertion-ordered dictionaries, exceptions);
    - the interface of the expression library ([py_expression_eval]);
    - [Node], [Edge] and [generateGraph] (the network parser);
    - [SOSolver]: variable and constraint generation, the cost
      linearizer [_get_cost_function_parameters], [solve];
    - the properties of the specification, one theorem each. *)

From Stdlib Require Import String Ascii List ZArith Bool Lia.
From Stdlib Require Import Floats.SpecFloat Numbers.DecimalString.
Import ListNotations.
Open Scope string_scope.
Open Scope Z_scope.

(** ** Exceptions and the error monad *)

(** The exceptions the program can raise.  The two [Exception(...)]
    raised by [generateGraph] carry the data their message is built
    from: the parameter list (line 113) and the line number and text
    (line 148).  [DOcplexException] and [CplexSolverError] are raised by
    [add_constraint]. *)
Inductive exn : Type :=
| ValueError
| KeyError (key : string)
| IndexError
| AttributeError
| ZeroDivisionError
| OverflowError
| DOcplexException
| CplexSolverError
| ExcManyParameters (params : list string)
| ExcNotCompliant (lineid : nat) (line : string)
| ExprError (msg : string).

Inductive result (A : Type) : Type :=
| Ok (a : A)
| Raise (e : exn).
Arguments Ok {A} a.
Arguments Raise {A} e.

Definition bind {A B : Type} (r : result A) (k : A -> result B) : result B :=
  match r with
  | Ok a => k a
  | Raise e => Raise e
  end.

Declare Scope py_scope.
Delimit Scope py_scope with py.
Notation "x <- c ;; k" := (bind c (fun x => k))
  (at level 61, c at next level, right associativity) : py_scope.
Notation "' p <- c ;; k" := (bind c (fun x => let p := x in k))
  (at level 61, p pattern, c at next level, right associativity) : py_scope.
Open Scope py_scope.

Fixpoint mapM {A B : Type} (f : A -> result B) (l : list A) : result (list B) :=
  match l with
  | [] => Ok []
  | a :: l' => b <- f a ;; bs <- mapM f l' ;; Ok (b :: bs)
  end.

(** ** Python strings *)

Module PyStr.

(** [str.isspace] on one ASCII character. *)
Definition isspace (c : ascii) : bool :=
  let n := N_of_ascii c in
  ((9 <=? n) && (n <=? 13) || (28 <=? n) && (n <=? 32))%N.

Definition isdigit (c : ascii) : bool :=
  let n := N_of_ascii c in ((48 <=? n) && (n <=? 57))%N.

Definition lower (c : ascii) : ascii :=
  let n := N_of_ascii c in
  if ((65 <=? n) && (n <=? 90))%N then ascii_of_N (n + 32) else c.

(** [s.find(sub)]: lowest index of an occurrence, [-1] when there is none. *)
Fixpoint find_from (sub s : string) (i : Z) : Z :=
  if prefix sub s then i
  else match s with
       | EmptyString => -1
       | String _ s' => find_from sub s' (i + 1)
       end.

Definition find (sub s : string) : Z := find_from sub s 0.

(** [s.replace(old, new)]: leftmost non-overlapping occurrences.  [skip]
    counts the characters of a matched occurrence still to be dropped. *)
Fixpoint replace_go (old new : string) (skip : nat) (s : string) : string :=
  match s with
  | EmptyString => EmptyString
  | String c s' =>
      match skip with
      | S k => replace_go old new k s'
      | O => if prefix old s
             then new ++ replace_go old new (Nat.pred (String.length old)) s'
             else String c (replace_go old new O s')
      end
  end.

Fixpoint intersperse (new s : string) : string :=
  match s with
  | EmptyString => new
  | String c s' => new ++ String c (intersperse new s')
  end.

Definition replace (old new s : string) : string :=
  match old with
  | EmptyString => intersperse new s
  | _ => replace_go old new O s
  end.

(** [s.split(sep)] for a one-character separator: never empty. *)
Fixpoint split (sep : ascii) (s : string) : list string :=
  match s with
  | EmptyString => [EmptyString]
  | String c s' =>
      match split sep s' with
      | [] => [EmptyString]
      | p :: ps => if Ascii.eqb c sep then EmptyString :: p :: ps
                   else String c p :: ps
      end
  end.

(** [s.split()]: maximal runs of non-whitespace characters. *)
Fixpoint split_ws_go (cur s : string) : list string :=
  match s with
  | EmptyString => if String.eqb cur "" then [] else [cur]
  | String c s' =>
      if isspace c
      then (if String.eqb cur "" then split_ws_go "" s'
            else cur :: split_ws_go "" s')
      else split_ws_go (cur ++ String c "") s'
  end.

Definition split_ws (s : string) : list string := split_ws_go "" s.

(** [s.rstrip()] and [s.lstrip()]. *)
Fixpoint rstrip (s : string) : string :=
  match s with
  | EmptyString => EmptyString
  | String c s' =>
      let r := rstrip s' in
      if String.eqb r "" && isspace c then EmptyString else String c r
  end.

Fixpoint lstrip (s : string) : string :=
  match s with
  | EmptyString => EmptyString
  | String c s' => if isspace c then lstrip s' else s
  end.

Definition strip (s : string) : string := rstrip (lstrip s).

(** Slices [s[a:b]] with Python's treatment of negative and
    out-of-range bounds. *)
Definition clamp (len i : Z) : Z :=
  let i := if i <? 0 then i + len else i in
  Z.max 0 (Z.min len i).

Definition slice (s : string) (a b : Z) : string :=
  let len := Z.of_nat (String.length s) in
  let a := clamp len a in
  let b := clamp len b in
  substring (Z.to_nat a) (Z.to_nat (b - a)) s.

(** [s[:b]] *)
Definition slice_to (s : string) (b : Z) : string := slice s 0 b.

(** [os.path.basename]: what follows the last slash. *)
Definition basename (p : string) : string :=
  last (split "/" p) "".

End PyStr.

(** [l[i]] on a Python list, for a non-negative literal index. *)
Definition index {A : Type} (l : list A) (i : nat) : result A :=
  match nth_error l i with
  | Some a => Ok a
  | None => Raise IndexError
  end.

(** ** Python numbers *)

(** A Python [float] is an IEEE-754 binary64 value. *)
Definition prec : Z := 53.
Definition emax : Z := 1024.
Definition pyfloat : Type := spec_float.

Inductive pynum : Type :=
| PyInt (z : Z)
| PyFloat (x : pyfloat).

Module PyFloat.

Definition zero : pyfloat := S754_zero false.
Definition one : pyfloat := S754_finite false 4503599627370496 (-52).

Definition is_zero (x : pyfloat) : bool :=
  match x with S754_zero _ => true | _ => false end.

Definition is_finite (x : pyfloat) : bool :=
  match x with S754_zero _ | S754_finite _ _ _ => true | _ => false end.

Definition add : pyfloat -> pyfloat -> pyfloat := SFadd prec emax.
Definition sub : pyfloat -> pyfloat -> pyfloat := SFsub prec emax.
Definition mul : pyfloat -> pyfloat -> pyfloat := SFmul prec emax.
Definition neg : pyfloat -> pyfloat := SFopp.

(** [x / y] on floats raises on a zero divisor, whatever [x] is. *)
Definition div (x y : pyfloat) : result pyfloat :=
  if is_zero y then Raise ZeroDivisionError else Ok (SFdiv prec emax x y).

(** The binary64 value nearest to [(-1)^neg * m * 10^e] (ties to even).
    The mantissas handed to [binary_round] and [SFdiv] are exact
    integers, so only one rounding takes place. *)
Definition of_decimal (neg : bool) (m : N) (e : Z) : pyfloat :=
  match m with
  | N0 => S754_zero neg
  | Npos p =>
      if 0 <=? e
      then binary_round prec emax neg (p * Z.to_pos (10 ^ e)) 0
      else SFdiv prec emax (S754_finite neg p 0)
                           (S754_finite false (Z.to_pos (10 ^ (- e))) 0)
  end.

(** [float(n)] for an [int]. *)
Definition of_int (z : Z) : result pyfloat :=
  match binary_normalize prec emax z 0 false with
  | S754_infinity _ => Raise OverflowError
  | x => Ok x
  end.

(** *** [float(s)] for a string

    [[sign] (digits [. [digits]] | . digits) [(e|E) [sign] digits]], or
    [inf], [infinity], [nan] in any case, surrounded by optional
    whitespace; single underscores may separate digits. *)

Definition digit_val (c : ascii) : N := (N_of_ascii c - 48)%N.

(** Reads a [digitpart].  [acc] is the number read so far, [cnt] how many
    digits it has, [st] tells whether the previous character was a digit
    ([true]) or an underscore ([false]). *)
Fixpoint digits_go (acc : N) (cnt : nat) (st : bool) (s : string)
  : option (N * nat * string) :=
  match s with
  | EmptyString => if st then Some (acc, cnt, s) else None
  | String c s' =>
      if PyStr.isdigit c
      then digits_go (10 * acc + digit_val c)%N (S cnt) true s'
      else if Ascii.eqb c "_"
           then (if st then
                   match s' with
                   | String d _ => if PyStr.isdigit d
                                   then digits_go acc cnt false s'
                                   else None
                   | EmptyString => None
                   end
                 else None)
           else if st then Some (acc, cnt, s) else None
  end.

(** A possibly empty [digitpart] continuing the number [acc]. *)
Definition digitpart_opt (acc : N) (s : string) : option (N * nat * string) :=
  match s with
  | String c _ => if PyStr.isdigit c then digits_go acc 0 false s
                  else Some (acc, O, s)
  | EmptyString => Some (acc, O, s)
  end.

Definition sign_opt (s : string) : bool * string :=
  match s with
  | String "-" s' => (true, s')
  | String "+" s' => (false, s')
  | _ => (false, s)
  end.

Definition exponent_opt (s : string) : option (Z * string) :=
  match s with
  | String c s' =>
      if Ascii.eqb (PyStr.lower c) "e"
      then let '(neg, s1) := sign_opt s' in
           match s1 with
           | String d _ =>
               if PyStr.isdigit d
               then match digits_go 0 0 false s1 with
                    | Some (n, _, rest) =>
                        Some (if neg then - Z.of_N n else Z.of_N n, rest)
                    | None => None
                    end
               else None
           | EmptyString => None
           end
      else Some (0, s)
  | EmptyString => Some (0, s)
  end.

Definition lower_string (s : string) : string :=
  string_of_list_ascii (map PyStr.lower (list_ascii_of_string s)).

Definition of_string (s : string) : result pyfloat :=
  let '(neg, body) := sign_opt (PyStr.strip s) in
  let low := lower_string body in
  if String.eqb low "inf" || String.eqb low "infinity"
  then Ok (S754_infinity neg)
  else if String.eqb low "nan" then Ok S754_nan
  else
    match digitpart_opt 0 body with
    | None => Raise ValueError
    | Some (ip, icnt, rest) =>
        let frac :=
          match rest with
          | String "." rest' =>
              match digitpart_opt ip rest' with
              | Some (m, fcnt, rest'') => Some (m, fcnt, rest'')
              | None => None
              end
          | _ => Some (ip, O, rest)
          end in
        match frac with
        | None => Raise ValueError
        | Some (m, fcnt, rest'') =>
            if Nat.eqb (icnt + fcnt) 0 then Raise ValueError
            else match exponent_opt rest'' with
                 | Some (e, EmptyString) =>
                     Ok (of_decimal neg m (e - Z.of_nat fcnt))
                 | _ => Raise ValueError
                 end
        end
    end.

End PyFloat.

(** Arithmetic on Python numbers, as far as the program uses it. *)
Module PyNum.

Definition is_zero (a : pynum) : bool :=
  match a with
  | PyInt z => z =? 0
  | PyFloat x => PyFloat.is_zero x
  end.

(** [float(a)] *)
Definition to_float (a : pynum) : result pyfloat :=
  match a with
  | PyInt z => PyFloat.of_int z
  | PyFloat x => Ok x
  end.

(** Whether [a] is a finite number: neither an infinity nor [nan]. *)
Definition is_finite (a : pynum) : bool :=
  match a with
  | PyInt _ => true
  | PyFloat x => PyFloat.is_finite x
  end.

(** [-a] *)
Definition neg (a : pynum) : pynum :=
  match a with
  | PyInt z => PyInt (- z)
  | PyFloat x => PyFloat (PyFloat.neg x)
  end.

(** [a + b] *)
Definition add (a b : pynum) : result pynum :=
  match a, b with
  | PyInt x, PyInt y => Ok (PyInt (x + y))
  | _, _ => x <- to_float a ;; y <- to_float b ;; Ok (PyFloat (PyFloat.add x y))
  end.

(** [a / b] (true division).  Two [int]s are divided exactly and
    rounded once. *)
Definition truediv (a b : pynum) : result pynum :=
  if is_zero b then Raise ZeroDivisionError
  else match a, b with
       | PyInt x, PyInt y =>
           let neg := xorb (x <? 0) (y <? 0) in
           match x with
           | Z0 => Ok (PyFloat (S754_zero neg))
           | _ => match SFdiv prec emax
                          (S754_finite neg (Z.to_pos (Z.abs x)) 0)
                          (S754_finite false (Z.to_pos (Z.abs y)) 0) with
                  | S754_infinity _ => Raise OverflowError
                  | q => Ok (PyFloat q)
                  end
           end
       | _, _ => x <- to_float a ;; y <- to_float b ;;
                 q <- PyFloat.div x y ;; Ok (PyFloat q)
       end.

(** [sum(l)]: starts from the [int] 0 and adds from the left. *)
Fixpoint sum_from (acc : pynum) (l : list pynum) : result pynum :=
  match l with
  | [] => Ok acc
  | a :: l' => acc' <- add acc a ;; sum_from acc' l'
  end.

Definition sum (l : list pynum) : result pynum := sum_from (PyInt 0) l.

End PyNum.

(** ** Python dictionaries and the object store *)

(** A [dict] with string keys, in insertion order: assigning to a key
    that is present keeps its position. *)
Module Dict.

Definition t (A : Type) : Type := list (string * A).

Definition empty {A : Type} : t A := [].

Fixpoint get {A : Type} (d : t A) (k : string) : option A :=
  match d with
  | [] => None
  | (k', v) :: d' => if String.eqb k' k then Some v else get d' k
  end.

Fixpoint set {A : Type} (d : t A) (k : string) (v : A) : t A :=
  match d with
  | [] => [(k, v)]
  | (k', v') :: d' =>
      if String.eqb k' k then (k', v) :: d' else (k', v') :: set d' k v
  end.

Definition keys {A : Type} (d : t A) : list string := map fst d.
Definition values {A : Type} (d : t A) : list A := map snd d.

(** [d[k]] *)
Definition getitem {A : Type} (d : t A) (k : string) : result A :=
  match get d k with
  | Some v => Ok v
  | None => Raise (KeyError k)
  end.

(** [dict(pairs)] *)
Definition of_pairs {A : Type} (l : list (string * A)) : t A :=
  fold_left (fun d kv => set d (fst kv) (snd kv)) l empty.

End Dict.

(** The parameter dictionaries are Python objects held by reference: an
    [Edge] stores the address of its [params], the store maps addresses
    to the dictionaries' current contents. *)
Module Store.

Definition loc : Type := nat.
Definition t : Type := list (Dict.t pynum).

Definition empty : t := [].

Definition alloc (h : t) (d : Dict.t pynum) : t * loc := ((h ++ [d])%list, List.length h).

Definition read (h : t) (l : loc) : Dict.t pynum := nth l h Dict.empty.

Fixpoint write (h : t) (l : loc) (d : Dict.t pynum) : t :=
  match h, l with
  | [], _ => []
  | _ :: h', O => d :: h'
  | d' :: h', S l' => d' :: write h' l' d
  end.

(** [h[l][k] = v] *)
Definition setitem (h : t) (l : loc) (k : string) (v : pynum) : t :=
  write h l (Dict.set (read h l) k v).

End Store.

(** ** The expression library

    [py_expression_eval] is used through five operations only; the
    program is embedded over any implementation of them. *)
Class ExprLib : Type := {
  Expression : Type;
  (** [Parser().parse(text)] *)
  parse : string -> result Expression;
  (** [expr.variables()]: the free variables in order of first occurrence *)
  variables : Expression -> list string;
  (** [expr.evaluate(values)] *)
  evaluate : Expression -> Dict.t pynum -> result pynum;
  (** [expr.substitute(variable, value)] for a [float] value *)
  substitute : Expression -> string -> pyfloat -> result Expression;
  (** [expr.toString()] *)
  toString : Expression -> string
}.

(** ** Nodes, edges and the network parser *)

Record Node : Type := {
  n_name : string;
  n_dist : Z;
  n_prev : option string;
  n_flag : Z
}.

(** [Node(name)] *)
Definition Node_init (name : string) : Node :=
  {| n_name := name; n_dist := 1000000; n_prev := None; n_flag := 0 |}.

Section Graph.

Context {lib : ExprLib}.

(** An entry of [F]: the list [[params[0], constants, function]]. *)
Record CostFunction : Type := {
  cf_param : string;
  cf_constants : list string;
  cf_expr : Expression
}.

Record Edge : Type := {
  e_name : string;
  e_start : string;
  e_end : string;
  e_function : CostFunction;
  e_params : Store.loc;
  e_var : string;
  e_flow : pynum;
  e_cost : pynum;
  e_aux_flow : pynum
}.

Definition set_flow (e : Edge) (v : pynum) : Edge :=
  {| e_name := e_name e; e_start := e_start e; e_end := e_end e;
     e_function := e_function e; e_params := e_params e; e_var := e_var e;
     e_flow := v; e_cost := e_cost e; e_aux_flow := e_aux_flow e |}.

Definition set_cost (e : Edge) (v : pynum) : Edge :=
  {| e_name := e_name e; e_start := e_start e; e_end := e_end e;
     e_function := e_function e; e_params := e_params e; e_var := e_var e;
     e_flow := e_flow e; e_cost := v; e_aux_flow := e_aux_flow e |}.

(** [Edge.update_cost]: writes the flow into the edge's parameter
    dictionary (in the store) and re-evaluates the cost. *)
Definition update_cost (e : Edge) (h : Store.t) : result (Edge * Store.t) :=
  let h' := Store.setitem h (e_params e) (e_var e) (e_flow e) in
  c <- evaluate (cf_expr (e_function e)) (Store.read h' (e_params e)) ;;
  Ok (set_cost e c, h').

(** [Edge(start, end, function, param_values, variable)] *)
Definition Edge_init (start end_ : string) (function : CostFunction)
    (param_values : Store.loc) (variable : string) (h : Store.t)
  : result (Edge * Store.t) :=
  update_cost
    {| e_name := start ++ "-" ++ end_; e_start := start; e_end := end_;
       e_function := function; e_params := param_values; e_var := variable;
       e_flow := PyInt 0; e_cost := PyInt 0; e_aux_flow := PyInt 0 |} h.

(** The local variables of [generateGraph], with the store. *)
Record pstate : Type := {
  V : list Node;
  E : list Edge;
  F : Dict.t CostFunction;
  OD : Dict.t pynum;
  heap : Store.t
}.

Definition pstate_init : pstate :=
  {| V := []; E := []; F := Dict.empty; OD := Dict.empty; heap := Store.empty |}.

Fixpoint list_remove (x : string) (l : list string) : list string :=
  match l with
  | [] => []
  | y :: l' => if String.eqb y x then l' else y :: list_remove x l'
  end.

(** [zip(constants, map(float, values))]: [map] is lazy, so a value is
    converted only when [zip] pairs it with a constant. *)
Fixpoint zip_float (constants values : list string)
  : result (list (string * pynum)) :=
  match constants, values with
  | c :: cs, v :: vs =>
      x <- PyFloat.of_string v ;;
      rest <- zip_float cs vs ;;
      Ok ((c, PyFloat x) :: rest)
  | _, _ => Ok []
  end.

(** What is left of a line once trailing blanks and the comment are
    removed (lines 98-102). *)
Definition clean_line (line : string) : string :=
  let line := PyStr.rstrip line in
  let hash_pos := PyStr.find "#" line in
  if hash_pos >? -1 then PyStr.slice_to line hash_pos else line.

(** The [function] branch (lines 109-125). *)
Definition do_function (taglist : list string) (st : pstate) : result pstate :=
  t2 <- index taglist 2 ;;
  let params := PyStr.split "," (PyStr.slice t2 1 (-1)) in
  if (1 <? List.length params)%nat then Raise (ExcManyParameters params)
  else
    t3 <- index taglist 3 ;;
    function <- parse t3 ;;
    let constants := variables function in
    p0 <- index params 0 ;;
    let constants :=
      if existsb (String.eqb p0) constants then list_remove p0 constants
      else constants in
    t1 <- index taglist 1 ;;
    Ok {| V := V st; E := E st;
          F := Dict.set (F st) t1
                 {| cf_param := p0; cf_constants := constants;
                    cf_expr := function |};
          OD := OD st; heap := heap st |}.

(** The [node] branch (lines 127-128). *)
Definition do_node (taglist : list string) (st : pstate) : result pstate :=
  t1 <- index taglist 1 ;;
  Ok {| V := (V st ++ [Node_init t1])%list; E := E st; F := F st; OD := OD st;
        heap := heap st |}.

(** The [dedge]/[edge] branch (lines 130-141).  [param_values] is one
    dictionary object; both edges of an [edge] line receive it. *)
Definition do_edge (flow : pynum) (taglist : list string) (st : pstate)
  : result pstate :=
  t4 <- index taglist 4 ;;
  function <- Dict.getitem (F st) t4 ;;
  pairs <- zip_float (cf_constants function) (skipn 5 taglist) ;;
  let '(h, param_values) := Store.alloc (heap st) (Dict.of_pairs pairs) in
  let h := Store.setitem h param_values (cf_param function) flow in
  t2 <- index taglist 2 ;;
  t3 <- index taglist 3 ;;
  '(e1, h) <- Edge_init t2 t3 function param_values (cf_param function) h ;;
  t0 <- index taglist 0 ;;
  if String.eqb t0 "edge" then
    '(e2, h) <- Edge_init t3 t2 function param_values (cf_param function) h ;;
    Ok {| V := V st; E := (E st ++ [e1; e2])%list; F := F st; OD := OD st; heap := h |}
  else
    Ok {| V := V st; E := (E st ++ [e1])%list; F := F st; OD := OD st; heap := h |}.

(** The [od] branch (lines 143-145). *)
Definition do_od (taglist : list string) (st : pstate) : result pstate :=
  t2 <- index taglist 2 ;;
  t3 <- index taglist 3 ;;
  if negb (String.eqb t2 t3) then
    t4 <- index taglist 4 ;;
    x <- PyFloat.of_string t4 ;;
    t1 <- index taglist 1 ;;
    Ok {| V := V st; E := E st; F := F st;
          OD := Dict.set (OD st) t1 (PyFloat x); heap := heap st |}
  else Ok st.

(** The body of the loop over the lines of the file (lines 96-149). *)
Definition process_line (flow : pynum) (lineid : nat) (raw : string)
    (st : pstate) : result pstate :=
  let line := clean_line raw in
  let taglist := PyStr.split_ws line in
  match taglist with
  | [] => Ok st
  | t0 :: _ =>
      if String.eqb t0 "function" then do_function taglist st
      else if String.eqb t0 "node" then do_node taglist st
      else if String.eqb t0 "dedge" || String.eqb t0 "edge"
           then do_edge flow taglist st
      else if String.eqb t0 "od" then do_od taglist st
      else Raise (ExcNotCompliant lineid line)
  end.

(** The loop; [lineid] counts the lines read so far. *)
Fixpoint parse_lines (flow : pynum) (lineid : nat) (lines : list string)
    (st : pstate) : result pstate :=
  match lines with
  | [] => Ok st
  | raw :: rest =>
      st' <- process_line flow (S lineid) raw st ;;
      parse_lines flow (S lineid) rest st'
  end.

(** [generateGraph(graph_file, flow)], on the lines of the file.  Besides
    [V], [E] and [OD] the result holds the store the edges point into. *)
Definition generateGraph (lines : list string) (flow : pynum)
  : result (list Node * list Edge * Dict.t pynum * Store.t) :=
  st <- parse_lines flow 0 lines pstate_init ;;
  Ok (V st, E st, OD st, heap st).

End Graph.

(** ** The optimisation model

    What the program hands to the solver backend ([docplex]): continuous
    variables, constraints [lhs rel rhs] with an optional label, and an
    objective to minimise.  Expressions are kept as the program writes
    them; [ESum ts] is [sum(...)] over the variables [ts]. *)

Record Var : Type := { var_index : nat; var_name : string }.

Inductive expr : Type :=
| ENum (c : pynum)
| EVar (v : Var)
| ESum (ts : list Var)
| EAdd (a b : expr)
| ESub (a b : expr)
| EMul (a b : expr)
| EPow (a : expr) (n : Z).

Inductive relop : Type := RelEq | RelLe | RelGe.

Record Constraint : Type := {
  ct_lhs : expr;
  ct_rel : relop;
  ct_rhs : expr;
  ct_name : option string
}.

Record Model : Type := {
  m_name : string;
  m_float_precision : Z;
  m_vars : list Var;
  m_constraints : list Constraint;
  m_objective : option expr
}.

(** A solution returned by the backend; [objective_value] is
    [solution.get_objective_value()]. *)
Record Solution : Type := { objective_value : pynum }.

(** What the program prints or writes. *)
Inductive event : Type :=
| Print (text : string)
| PrintDisplay (solution : Solution)
| PrintSystemOptimum (value : pynum)
| WriteFile (path : string) (m : Model).

(** [model.continuous_var(name=...)] *)
Definition continuous_var (m : Model) (name : string) : Model * Var :=
  let v := {| var_index := List.length (m_vars m); var_name := name |} in
  ({| m_name := m_name m; m_float_precision := m_float_precision m;
      m_vars := (m_vars m ++ [v])%list;
      m_constraints := m_constraints m; m_objective := m_objective m |}, v).

(** [model.add_constraint(ct, name)] *)
Definition add_constraint (m : Model) (c : Constraint) : Model :=
  {| m_name := m_name m; m_float_precision := m_float_precision m;
     m_vars := m_vars m;
     m_constraints := (m_constraints m ++ [c])%list;
     m_objective := m_objective m |}.

(** [model.minimize(e)] *)
Definition minimize (m : Model) (e : expr) : Model :=
  {| m_name := m_name m; m_float_precision := m_float_precision m;
     m_vars := m_vars m; m_constraints := m_constraints m;
     m_objective := Some e |}.

Fixpoint foldM {A S : Type} (f : S -> A -> result S) (l : list A) (s : S)
  : result S :=
  match l with
  | [] => Ok s
  | a :: l' => s' <- f s a ;; foldM f l' s'
  end.

(** ** The cost linearizer on the rendered text (lines 245-269)

    After line 254 [m] and [n] are strings, except that [n] is the
    float [0.0] when the text has no [+]. *)
Inductive strnum : Type :=
| SStr (s : string)
| SFloat (x : pyfloat).

(** [v.find(sub)]: a [float] has no such method. *)
Definition sn_find (sub : string) (v : strnum) : result Z :=
  match v with
  | SStr s => Ok (PyStr.find sub s)
  | SFloat _ => Raise AttributeError
  end.

Definition sn_replace (old new : string) (v : strnum) : result string :=
  match v with
  | SStr s => Ok (PyStr.replace old new s)
  | SFloat _ => Raise AttributeError
  end.

(** [float(v)] *)
Definition sn_float (v : strnum) : result pyfloat :=
  match v with
  | SStr s => PyFloat.of_string s
  | SFloat x => Ok x
  end.

Definition cost_parameters_of_text (var f : string) : result (pynum * pynum) :=
  (* constant function *)
  if PyStr.find var f =? -1 then
    x <- PyFloat.of_string f ;; Ok (PyInt 0, PyFloat x)
  else
    let f := PyStr.replace ")" "" (PyStr.replace "(" "" f) in
    '(m, n) <- (if PyStr.find "+" f =? -1 then Ok (SStr f, SFloat PyFloat.zero)
                else match PyStr.split "+" f with
                     | [m; n] => Ok (SStr m, SStr n)
                     | _ => Raise ValueError
                     end) ;;
    (* m multiplies the variable, n is the constant *)
    i <- sn_find var m ;;
    let '(m, n) := if i =? -1 then (n, m) else (m, n) in
    j <- sn_find "*" m ;;
    m <- (if j =? -1 then
            (* f/m *)
            t <- sn_replace var "" m ;;
            d <- PyFloat.of_string (PyStr.replace "/" "" t) ;;
            PyFloat.div PyFloat.one d
          else
            (* f*m *)
            t <- sn_replace var "" m ;;
            PyFloat.of_string (PyStr.replace "*" "" t)) ;;
    n <- sn_float n ;;
    Ok (PyFloat m, PyFloat n).

(** ** SOSolver *)

Section Solver.

Context {lib : ExprLib}.

(** The attributes of an [SOSolver] object, followed by the two pieces
    of the environment its methods touch: the store holding the edges'
    parameter dictionaries and the output written so far. *)
Record SOSolver : Type := {
  nodes : list Node;
  edges : list Edge;
  od_matrix : Dict.t pynum;
  name : string;
  model : Model;
  phi_vars : Dict.t Var;
  x_vars : Dict.t Var;
  l_vars : Dict.t Var;
  system_optimum : pynum;
  sum_flows : pynum;
  store : Store.t;
  out : list event
}.

Definition with_model (s : SOSolver) (m : Model) : SOSolver :=
  {| nodes := nodes s; edges := edges s; od_matrix := od_matrix s;
     name := name s; model := m; phi_vars := phi_vars s;
     x_vars := x_vars s; l_vars := l_vars s;
     system_optimum := system_optimum s; sum_flows := sum_flows s;
     store := store s; out := out s |}.

Definition with_phi_vars (s : SOSolver) (d : Dict.t Var) : SOSolver :=
  {| nodes := nodes s; edges := edges s; od_matrix := od_matrix s;
     name := name s; model := model s; phi_vars := d;
     x_vars := x_vars s; l_vars := l_vars s;
     system_optimum := system_optimum s; sum_flows := sum_flows s;
     store := store s; out := out s |}.

Definition with_x_vars (s : SOSolver) (d : Dict.t Var) : SOSolver :=
  {| nodes := nodes s; edges := edges s; od_matrix := od_matrix s;
     name := name s; model := model s; phi_vars := phi_vars s;
     x_vars := d; l_vars := l_vars s;
     system_optimum := system_optimum s; sum_flows := sum_flows s;
     store := store s; out := out s |}.

Definition with_l_vars (s : SOSolver) (d : Dict.t Var) : SOSolver :=
  {| nodes := nodes s; edges := edges s; od_matrix := od_matrix s;
     name := name s; model := model s; phi_vars := phi_vars s;
     x_vars := x_vars s; l_vars := d;
     system_optimum := system_optimum s; sum_flows := sum_flows s;
     store := store s; out := out s |}.

Definition with_system_optimum (s : SOSolver) (v : pynum) : SOSolver :=
  {| nodes := nodes s; edges := edges s; od_matrix := od_matrix s;
     name := name s; model := model s; phi_vars := phi_vars s;
     x_vars := x_vars s; l_vars := l_vars s;
     system_optimum := v; sum_flows := sum_flows s;
     store := store s; out := out s |}.

Definition emit (s : SOSolver) (evs : list event) : SOSolver :=
  {| nodes := nodes s; edges := edges s; od_matrix := od_matrix s;
     name := name s; model := model s; phi_vars := phi_vars s;
     x_vars := x_vars s; l_vars := l_vars s;
     system_optimum := system_optimum s; sum_flows := sum_flows s;
     store := store s; out := (out s ++ evs)%list |}.

(** [SOSolver(nodes, edges, od_matrix, name)], in the store [h]. *)
Definition SOSolver_init (nodes_ : list Node) (edges_ : list Edge)
    (od_matrix_ : Dict.t pynum) (name_ : string) (h : Store.t)
  : result SOSolver :=
  n <- index (PyStr.split "." (PyStr.basename name_)) 0 ;;
  total <- PyNum.sum (Dict.values od_matrix_) ;;
  Ok {| nodes := nodes_; edges := edges_; od_matrix := od_matrix_;
        name := n;
        model := {| m_name := n; m_float_precision := 6; m_vars := [];
                    m_constraints := []; m_objective := None |};
        phi_vars := Dict.empty; x_vars := Dict.empty; l_vars := Dict.empty;
        system_optimum := PyInt (-1);
        sum_flows := total;
        store := h; out := [] |}.

(** The new variable is registered in the model and returned. *)
Definition new_var (s : SOSolver) (vname : string) : SOSolver * Var :=
  let '(m, v) := continuous_var (model s) vname in (with_model s m, v).

Definition post (s : SOSolver) (c : Constraint) : SOSolver :=
  with_model s (add_constraint (model s) c).

(** The body of the inner loop of [_generate_vars] (line 183). *)
Definition generate_x_var (e : Edge) (varName : string) (s : SOSolver)
    (k : string) : SOSolver :=
  let '(s, x) := new_var s ("x_" ++ varName ++ "_{" ++ k ++ "}") in
  with_x_vars s (Dict.set (x_vars s) (e_name e ++ k) x).

(** The body of the loop of [_generate_vars] for one edge. *)
Definition generate_vars_edge (s : SOSolver) (e : Edge) : SOSolver :=
  let varName := PyStr.replace "-" "" (e_name e) in
  let '(s, phi) := new_var s ("phi_" ++ varName) in
  let s := with_phi_vars s (Dict.set (phi_vars s) (e_name e) phi) in
  let '(s, l) := new_var s ("l_" ++ varName) in
  let s := with_l_vars s (Dict.set (l_vars s) (e_name e) l) in
  fold_left (generate_x_var e varName) (Dict.keys (od_matrix s)) s.

Definition _generate_vars (s : SOSolver) : SOSolver :=
  fold_left generate_vars_edge (edges s) s.

(** The inner loop of lines 190-196: the edges leaving and arriving
    at node [n]. *)
Definition leaving_arriving (n : Node) (es : list Edge)
  : list Edge * list Edge :=
  fold_left
    (fun '(leaving, arriving) edge =>
       if String.eqb (e_start edge) (n_name n)
       then ((leaving ++ [edge])%list, arriving)
       else if String.eqb (e_end edge) (n_name n)
            then (leaving, (arriving ++ [edge])%list)
            else (leaving, arriving))
    es ([], []).

(** Lines 198-203. *)
Definition node_demand (od : Dict.t pynum) (k : string) (n : Node)
  : result pynum :=
  o <- index (PyStr.split "|" k) 0 ;;
  if String.eqb (n_name n) o then
    d <- Dict.getitem od k ;; Ok (PyNum.neg d)
  else
    d <- index (PyStr.split "|" k) 1 ;;
    if String.eqb (n_name n) d then Dict.getitem od k
    else Ok (PyInt 0).

(** Lines 205-206.  When no edge arrives at the node and none leaves
    it, both sums are the [int] 0 and the argument of [add_constraint]
    is the Python [bool] [0 == demand]: [True] adds nothing, [False] is
    refused with [DOcplexException].  Otherwise the argument is a
    constraint, which is added. *)
Definition flow_conservation_node (k : string) (s : SOSolver) (n : Node)
  : result SOSolver :=
  let '(leaving, arriving) := leaving_arriving n (edges s) in
  demand <- node_demand (od_matrix s) k n ;;
  ys <- mapM (fun y => Dict.getitem (x_vars s) (e_name y ++ k)) arriving ;;
  xs <- mapM (fun x => Dict.getitem (x_vars s) (e_name x ++ k)) leaving ;;
  match ys, xs with
  | [], [] =>
      if PyNum.is_zero demand then Ok s else Raise DOcplexException
  | _, _ =>
      Ok (post s {| ct_lhs := ESub (ESum ys) (ESum xs); ct_rel := RelEq;
                    ct_rhs := ENum demand;
                    ct_name := Some (n_name n ++ k) |})
  end.

Definition _generate_flow_conservation_constraint (s : SOSolver)
  : result SOSolver :=
  foldM (fun s k => foldM (flow_conservation_node k) (nodes s) s)
        (Dict.keys (od_matrix s)) s.

Definition total_flow_edge (s : SOSolver) (e : Edge) : result SOSolver :=
  somatorio <- mapM (fun k => Dict.getitem (x_vars s) (e_name e ++ k))
                    (Dict.keys (od_matrix s)) ;;
  l <- Dict.getitem (l_vars s) (e_name e) ;;
  Ok (post s {| ct_lhs := EVar l; ct_rel := RelEq;
                ct_rhs := ESum somatorio; ct_name := None |}).

Definition _generate_total_flow_constraint (s : SOSolver) : result SOSolver :=
  foldM total_flow_edge (edges s) s.

Definition nonnegative (v : Var) : Constraint :=
  {| ct_lhs := EVar v; ct_rel := RelGe; ct_rhs := ENum (PyInt 0);
     ct_name := None |}.

Definition domain_edge (s : SOSolver) (e : Edge) : result SOSolver :=
  l <- Dict.getitem (l_vars s) (e_name e) ;;
  let s := post s (nonnegative l) in
  phi <- Dict.getitem (phi_vars s) (e_name e) ;;
  let s := post s (nonnegative phi) in
  foldM (fun s k =>
           x <- Dict.getitem (x_vars s) (e_name e ++ k) ;;
           Ok (post s (nonnegative x)))
        (Dict.keys (od_matrix s)) s.

Definition _generate_domain_constraint (s : SOSolver) : result SOSolver :=
  foldM domain_edge (edges s) s.

(** Lines 239-243: the constants are replaced one by one by the float
    of their value, and the result is rendered. *)
Definition render (h : Store.t) (edge : Edge) : result string :=
  f <- foldM (fun f var =>
                v <- Dict.getitem (Store.read h (e_params edge)) var ;;
                x <- PyNum.to_float v ;;
                substitute f var x)
             (cf_constants (e_function edge))
             (cf_expr (e_function edge)) ;;
  Ok (toString f).

Definition _get_cost_function_parameters (h : Store.t) (edge : Edge)
  : result (pynum * pynum) :=
  f <- render h edge ;;
  cost_parameters_of_text (e_var edge) f.

(** The constraint [m*(l ** 2) + l*n <= phi]. *)
Definition cost_constraint (m n : pynum) (l phi : Var) : Constraint :=
  {| ct_lhs := EAdd (EMul (ENum m) (EPow (EVar l) 2)) (EMul (EVar l) (ENum n));
     ct_rel := RelLe; ct_rhs := EVar phi; ct_name := None |}.

(** The body of the loop of [_generate_cost_constraint].  The solver
    refuses a constraint whose slope or intercept is not a finite
    number: [add_constraint] then raises [CplexSolverError]. *)
Definition cost_constraint_edge (s : SOSolver) (e : Edge) : result SOSolver :=
  '(m, n) <- _get_cost_function_parameters (store s) e ;;
  l <- Dict.getitem (l_vars s) (e_name e) ;;
  phi <- Dict.getitem (phi_vars s) (e_name e) ;;
  if PyNum.is_finite m && PyNum.is_finite n
  then Ok (post s (cost_constraint m n l phi))
  else Raise CplexSolverError.

Definition _generate_cost_constraint (s : SOSolver) : result SOSolver :=
  foldM cost_constraint_edge (edges s) s.

Definition _generate_objective_function (s : SOSolver) : SOSolver :=
  with_model s (minimize (model s) (ESum (Dict.values (phi_vars s)))).

(** Lines 273-278 of [solve]: the model is assembled. *)
Definition build (s : SOSolver) : result SOSolver :=
  let s := _generate_vars s in
  let s := _generate_objective_function s in
  s <- _generate_cost_constraint s ;;
  s <- _generate_total_flow_constraint s ;;
  s <- _generate_flow_conservation_constraint s ;;
  _generate_domain_constraint s.

Section Solve.

(** [self.model.solve()]: the backend returns a solution or [None]. *)
Variable backend : Model -> option Solution.

Definition solve (verbose generate_lp : bool) (s : SOSolver)
  : result SOSolver :=
  s <- build s ;;
  match backend (model s) with
  | Some solution =>
      so <- PyNum.truediv (objective_value solution) (sum_flows s) ;;
      let s := with_system_optimum s so in
      let s := if verbose
               then emit s [PrintDisplay solution; PrintSystemOptimum so]
               else s in
      let s := if generate_lp
               then emit s [WriteFile (name s ++ ".lp") (model s)]
               else s in
      Ok s
  | None => Ok (emit s [Print "Error calculating System Optimum!"])
  end.

End Solve.

Definition get_system_optimum (s : SOSolver) : pynum := system_optimum s.

End Solver.

(** ** A reference implementation of the expression library

    Infix arithmetic as [py_expression_eval] reads it: numbers, names,
    [+ - * /], unary minus and parentheses.  It is used to run the
    embedding on concrete network files; every theorem that is not an
    example holds for any [ExprLib]. *)
Module RefLib.

(** *** [str] of numbers *)

Definition str_of_N (n : N) : string :=
  match n with
  | N0 => "0"
  | _ => DecimalString.NilEmpty.string_of_uint (N.to_uint n)
  end.

Definition str_of_Z (z : Z) : string :=
  if z <? 0 then "-" ++ str_of_N (Z.abs_N z) else str_of_N (Z.abs_N z).

Fixpoint zeros (n : nat) : string :=
  match n with O => "" | S n' => String "0" (zeros n') end.

(** [floor(log10(num/den))] for positive [num], [den]. *)
Definition floor_log10 (num den : Z) : Z :=
  let t := Z.of_nat (String.length (str_of_N (Z.to_N num)))
           - Z.of_nat (String.length (str_of_N (Z.to_N den))) in
  let le10 (t : Z) := if 0 <=? t then 10 ^ t * den <=? num
                      else den <=? num * 10 ^ (- t) in
  if le10 t then t else t - 1.

(** The shortest decimal [c * 10^k] that [float] reads back as [x], the
    nearest to [x] among those of its length; [p] digits are tried
    first, [fuel] more lengths after it. *)
Fixpoint shortest (x : pyfloat) (num den e10 : Z) (p : Z) (fuel : nat)
  : N * Z :=
  let k := e10 - p + 1 in
  let '(n', d') := if 0 <=? k then (num, den * 10 ^ k)
                   else (num * 10 ^ (- k), den) in
  let q := n' / d' in
  let r := n' mod d' in
  let back (c : Z) :=
    match PyFloat.of_decimal false (Z.to_N c) k, x with
    | S754_finite _ m1 e1, S754_finite _ m2 e2 =>
        Pos.eqb m1 m2 && (e1 =? e2)
    | _, _ => false
    end in
  let up := (d' <? 2 * r) || ((d' =? 2 * r) && Z.odd q) in
  let best := if up then q + 1 else q in
  let other := if up then q else q + 1 in
  match fuel with
  | O => (Z.to_N best, k)
  | S fuel' =>
      if back best then (Z.to_N best, k)
      else if negb (r =? 0) && back other then (Z.to_N other, k)
      else shortest x num den e10 (p + 1) fuel'
  end.

Fixpoint rstrip_zeros (s : string) : string :=
  match s with
  | EmptyString => EmptyString
  | String c s' =>
      let r := rstrip_zeros s' in
      if String.eqb r "" && Ascii.eqb c "0" then EmptyString else String c r
  end.

(** [repr] of a positive finite float from its digits and the position
    of the decimal point. *)
Definition format_short (ds : string) (decpt : Z) : string :=
  let n := Z.of_nat (String.length ds) in
  if (-4 <? decpt) && (decpt <=? 16) then
    if decpt <=? 0 then "0." ++ zeros (Z.to_nat (- decpt)) ++ ds
    else if n <=? decpt then ds ++ zeros (Z.to_nat (decpt - n)) ++ ".0"
    else substring 0 (Z.to_nat decpt) ds ++ "."
         ++ substring (Z.to_nat decpt) (Z.to_nat (n - decpt)) ds
  else
    let e := decpt - 1 in
    let es := str_of_N (Z.abs_N e) in
    substring 0 1 ds
    ++ (if 1 <? n then "." ++ substring 1 (Z.to_nat (n - 1)) ds else "")
    ++ "e" ++ (if e <? 0 then "-" else "+")
    ++ (if (String.length es <? 2)%nat then "0" ++ es else es).

(** [str(x)] for a float. *)
Definition str_of_float (x : pyfloat) : string :=
  match x with
  | S754_nan => "nan"
  | S754_infinity s => if s then "-inf" else "inf"
  | S754_zero s => if s then "-0.0" else "0.0"
  | S754_finite s m e =>
      let '(num, den) := if 0 <=? e then (Zpos m * 2 ^ e, 1)
                         else (Zpos m, 2 ^ (- e)) in
      let e10 := floor_log10 num den in
      let '(c, k) := shortest x num den e10 1 16 in
      let all := str_of_N c in
      let decpt := Z.of_nat (String.length all) + k in
      (if s then "-" else "") ++ format_short (rstrip_zeros all) decpt
  end.

Definition str_of_num (a : pynum) : string :=
  match a with
  | PyInt z => str_of_Z z
  | PyFloat x => str_of_float x
  end.

(** *** Expressions *)

Inductive ast : Type :=
| Num (c : pynum)
| Sym (x : string)
| Neg (a : ast)
| Bin (op : ascii) (a b : ast).

Inductive tok : Type :=
| TNum (c : pynum)
| TId (x : string)
| TOp (c : ascii)
| TLParen
| TRParen.

Definition isalpha (c : ascii) : bool :=
  let n := N_of_ascii (PyStr.lower c) in
  ((97 <=? n) && (n <=? 122))%N || Ascii.eqb c "_".

Fixpoint span (p : ascii -> bool) (s : string) : string * string :=
  match s with
  | EmptyString => (EmptyString, EmptyString)
  | String c s' =>
      if p c then let '(a, b) := span p s' in (String c a, b)
      else (EmptyString, s)
  end.

(** The exponent of a number, when one follows. *)
Definition lex_exponent (s : string) : string * string :=
  match s with
  | String c s' =>
      if Ascii.eqb (PyStr.lower c) "e" then
        let '(sg, s1) := match s' with
                         | String "+" t => ("+", t)
                         | String "-" t => ("-", t)
                         | _ => ("", s')
                         end in
        let '(ds, rest) := span PyStr.isdigit s1 in
        if String.eqb ds "" then ("", s)
        else (String c (sg ++ ds), rest)
      else ("", s)
  | EmptyString => ("", s)
  end.

Definition number_of_text (t : string) : result pynum :=
  let '(ds, rest) := span PyStr.isdigit t in
  if String.eqb rest "" then
    match PyFloat.digits_go 0 0 false ds with
    | Some (n, _, _) => Ok (PyInt (Z.of_N n))
    | None => Raise ValueError
    end
  else x <- PyFloat.of_string t ;; Ok (PyFloat x).

Fixpoint lex (fuel : nat) (s : string) : result (list tok) :=
  match fuel with
  | O => Raise (ExprError "parse error")
  | S fuel' =>
      match s with
      | EmptyString => Ok []
      | String c s' =>
          if PyStr.isspace c then lex fuel' s'
          else if Ascii.eqb c "(" then ts <- lex fuel' s' ;; Ok (TLParen :: ts)
          else if Ascii.eqb c ")" then ts <- lex fuel' s' ;; Ok (TRParen :: ts)
          else if Ascii.eqb c "+" || Ascii.eqb c "-" || Ascii.eqb c "*"
                  || Ascii.eqb c "/"
               then ts <- lex fuel' s' ;; Ok (TOp c :: ts)
          else if PyStr.isdigit c || Ascii.eqb c "." then
            let '(body, rest) :=
              span (fun d => PyStr.isdigit d || Ascii.eqb d ".") s in
            let '(ex, rest) := lex_exponent rest in
            n <- number_of_text (body ++ ex) ;;
            ts <- lex fuel' rest ;; Ok (TNum n :: ts)
          else if isalpha c then
            let '(x, rest) :=
              span (fun d => isalpha d || PyStr.isdigit d) s in
            ts <- lex fuel' rest ;; Ok (TId x :: ts)
          else Raise (ExprError "parse error")
      end
  end.

(** The binary operators of a level: [+ -] bind least, [/] most. *)
Definition op_at (lvl : nat) (c : ascii) : bool :=
  match lvl with
  | 0%nat => Ascii.eqb c "+" || Ascii.eqb c "-"
  | 1%nat => Ascii.eqb c "*"
  | 2%nat => Ascii.eqb c "/"
  | _ => false
  end.

Fixpoint parse_at (fuel lvl : nat) (ts : list tok) : option (ast * list tok) :=
  match fuel with
  | O => None
  | S fuel' =>
      if (lvl <? 3)%nat then
        match parse_at fuel' (S lvl) ts with
        | Some (a, ts') => parse_more fuel' lvl a ts'
        | None => None
        end
      else
        match ts with
        | TOp "-" :: ts' =>
            match parse_at fuel' lvl ts' with
            | Some (a, ts'') => Some (Neg a, ts'')
            | None => None
            end
        | TNum c :: ts' => Some (Num c, ts')
        | TId x :: ts' => Some (Sym x, ts')
        | TLParen :: ts' =>
            match parse_at fuel' 0 ts' with
            | Some (a, TRParen :: ts'') => Some (a, ts'')
            | _ => None
            end
        | _ => None
        end
  end
with parse_more (fuel lvl : nat) (lhs : ast) (ts : list tok)
  : option (ast * list tok) :=
  match fuel with
  | O => None
  | S fuel' =>
      match ts with
      | TOp c :: ts' =>
          if op_at lvl c then
            match parse_at fuel' (S lvl) ts' with
            | Some (b, ts'') => parse_more fuel' lvl (Bin c lhs b) ts''
            | None => None
            end
          else Some (lhs, ts)
      | _ => Some (lhs, ts)
      end
  end.

Definition parse_text (text : string) : result ast :=
  ts <- lex (S (String.length text)) text ;;
  match parse_at (5 * S (List.length ts)) 0 ts with
  | Some (a, []) => Ok a
  | _ => Raise (ExprError "parse error")
  end.

Fixpoint leaves (a : ast) : list string :=
  match a with
  | Num _ => []
  | Sym x => [x]
  | Neg a => leaves a
  | Bin _ a b => (leaves a ++ leaves b)%list
  end.

Definition free_variables (a : ast) : list string :=
  fold_left (fun acc x => if existsb (String.eqb x) acc then acc
                          else (acc ++ [x])%list)
            (leaves a) [].

Definition num_sub (a b : pynum) : result pynum :=
  PyNum.add a (PyNum.neg b).

Definition num_mul (a b : pynum) : result pynum :=
  match a, b with
  | PyInt x, PyInt y => Ok (PyInt (x * y))
  | _, _ => x <- PyNum.to_float a ;; y <- PyNum.to_float b ;;
            Ok (PyFloat (PyFloat.mul x y))
  end.

Fixpoint eval (a : ast) (values : Dict.t pynum) : result pynum :=
  match a with
  | Num c => Ok c
  | Sym x => match Dict.get values x with
             | Some v => Ok v
             | None => Raise (ExprError ("undefined variable: " ++ x))
             end
  | Neg a => v <- eval a values ;; Ok (PyNum.neg v)
  | Bin op a b =>
      x <- eval a values ;;
      y <- eval b values ;;
      if Ascii.eqb op "+" then PyNum.add x y
      else if Ascii.eqb op "-" then num_sub x y
      else if Ascii.eqb op "*" then num_mul x y
      else PyNum.truediv x y
  end.

Fixpoint subst (a : ast) (x : string) (by_ : ast) : ast :=
  match a with
  | Num c => Num c
  | Sym y => if String.eqb y x then by_ else Sym y
  | Neg a => Neg (subst a x by_)
  | Bin op a b => Bin op (subst a x by_) (subst b x by_)
  end.

Fixpoint to_string (a : ast) : string :=
  match a with
  | Num c => str_of_num c
  | Sym x => x
  | Neg a => "(-" ++ to_string a ++ ")"
  | Bin op a b => "(" ++ to_string a ++ String op (to_string b) ++ ")"
  end.

#[export] Instance lib : ExprLib := {|
  Expression := ast;
  parse := parse_text;
  variables := free_variables;
  evaluate := eval;
  substitute := fun a x v => by_ <- parse_text (str_of_float v) ;;
                              Ok (subst a x by_);
  toString := to_string
|}.

End RefLib.

(** ** Concrete networks

    Network files, line by line, run through the reference library. *)
Module Examples.

Import RefLib.

(** [generateGraph(file, flow=0.0)] followed by
    [SOSolver(v, e, od, name=file)], as the script does. *)
Definition solver_of (lines : list string) (file : string) : result SOSolver :=
  '(v, e, od, h) <- generateGraph lines (PyFloat PyFloat.zero) ;;
  SOSolver_init v e od file h.

(** Two nodes, a demand between them and no edge. *)
Definition net_disconnected : list string :=
  ["node A"; "node B"; "od A|B A B 10"].

(** The same with a demand of zero. *)
Definition net_no_demand : list string :=
  ["node A"; "node B"; "od A|B A B 0"].

Definition backend_none (m : Model) : option Solution := None.

Definition backend_zero (m : Model) : option Solution :=
  Some {| objective_value := PyFloat PyFloat.zero |}.

(** An undirected edge between two nodes, cost [2*f+1]. *)
Definition net_undirected : list string :=
  ["function fn (f) 2*f+1"; "node A"; "node B"; "edge AB A B fn"].

(** A directed edge between nodes that are declared nowhere. *)
Definition net_undeclared_nodes : list string :=
  ["function fn (f) 2*f+1"; "dedge AB A B fn"].

(** A directed edge whose cost function is declared after it. *)
Definition net_late_function : list string :=
  ["node A"; "node B"; "dedge AB A B fn"; "function fn (f) 2*f+1"].

(** Two-parameter functions, on line 1 and on line 2. *)
Definition net_two_params_first : list string :=
  ["function fa (a,b) a*f"].

Definition net_two_params_second : list string :=
  ["node A"; "function fb (a,b) b+f # other"; "node B"].

(** An [od] line whose name is not of the form origin|destination, and
    one whose end points coincide. *)
Definition net_od_names : list string :=
  ["od trip A B 5"; "od loop C C 7"].

Definition five : pyfloat := S754_finite false 5629499534213120 (-50).

(** The cost function [2*f+1] as the parser stores it, and the state of
    [generateGraph] after the first three lines of [net_undirected]. *)
Definition fn_2f1 : @CostFunction lib :=
  @Build_CostFunction lib "f" []
    (Bin "+" (Bin "*" (Num (PyInt 2)) (Sym "f")) (Num (PyInt 1))).

Definition st_two_nodes : @pstate lib :=
  @Build_pstate lib [Node_init "A"; Node_init "B"] [] [("fn", fn_2f1)] [] [].

(** A constant cost function, a constant one written as a sum, and an
    affine one with a large slope. *)
Definition net_constant : list string :=
  ["function c (f) k"; "dedge AB A B c 5"].

Definition net_constant_sum : list string :=
  ["function c (f) a+b"; "dedge AB A B c 2 3"].

Definition net_large_slope : list string :=
  ["function fn (f) m*f+n"; "node A"; "node B"; "dedge AB A B fn 1e20 3"].

(** Scenario A of the specification: one edge A->B with cost [2*f+1]
    and a demand of 10 from A to B. *)
Definition net_affine : list string :=
  ["function fn (f) m*f+n"; "node A"; "node B"; "dedge AB A B fn 2 1";
   "od A|B A B 10"].

Definition no_solver : SOSolver :=
  {| nodes := []; edges := []; od_matrix := []; name := "";
     model := {| m_name := ""; m_float_precision := 6; m_vars := [];
                 m_constraints := []; m_objective := None |};
     phi_vars := []; x_vars := []; l_vars := [];
     system_optimum := PyInt (-1); sum_flows := PyInt 0;
     store := []; out := [] |}.

(** The solver a network file leads to. *)
Definition the_solver (lines : list string) : SOSolver :=
  match solver_of lines "nets/example.net" with
  | Ok s => s
  | Raise _ => no_solver
  end.

Definition two : pyfloat := S754_finite false 4503599627370496 (-51).

(** Scenario A with a self-loop on the origin added. *)
Definition net_self_loop : list string :=
  ["function fn (f) 2*f+1"; "node A"; "node B"; "dedge AA A A fn";
   "dedge AB A B fn"; "od A|B A B 10"].

(** Two nodes, an edge between them and a demand whose name is not of
    the form origin|destination. *)
Definition net_od_trip : list string :=
  ["function fn (f) 2*f+1"; "node A"; "node B"; "dedge AB A B fn";
   "od trip A B 5"].

(** A demand from A to B where the only edge runs from B to A: the
    model is assembled and has no solution. *)
Definition net_wrong_way : list string :=
  ["function fn (f) 2*f+1"; "node A"; "node B"; "dedge BA B A fn";
   "od A|B A B 10"].

Definition ten : pyfloat := S754_finite false 5629499534213120 (-49).

(** A good edge followed by one whose slope is written [1e20]. *)
Definition net_second_edge_bad : list string :=
  ["function fn (f) 2*f+1"; "function g (f) m*f+n"; "node A"; "node B";
   "dedge AB A B fn"; "dedge BA B A g 1e20 3"; "od A|B A B 10"].

End Examples.

(** ** Reading the network file: what a line declares *)

(** Whether a line is a [function] line naming [fname]. *)
Definition declares_function (fname raw : string) : bool :=
  match PyStr.split_ws (clean_line raw) with
  | t0 :: t1 :: _ => String.eqb t0 "function" && String.eqb t1 fname
  | _ => false
  end.

(** The entry an [od] line with distinct end points puts in the OD
    mapping: its name and the float of its demand. *)
Definition od_entry (raw : string) : option (string * pynum) :=
  match PyStr.split_ws (clean_line raw) with
  | t0 :: name :: o :: d :: dem :: _ =>
      if String.eqb t0 "od" && negb (String.eqb o d) then
        match PyFloat.of_string dem with
        | Ok x => Some (name, PyFloat x)
        | Raise _ => None
        end
      else None
  | _ => None
  end.

Definition od_key (raw : string) : option string :=
  option_map fst (od_entry raw).

Definition od_put (od : Dict.t pynum) (raw : string) : Dict.t pynum :=
  match od_entry raw with
  | Some (k, v) => Dict.set od k v
  | None => od
  end.

(** ** The model builder: the formulation the constraints are compared with *)

Section Formulation.

Context {lib : ExprLib}.

(** The attributes that no method of the builder assigns. *)
Definition same_env (s s' : SOSolver) : Prop :=
  nodes s' = nodes s /\ edges s' = edges s /\ od_matrix s' = od_matrix s /\
  name s' = name s /\ system_optimum s' = system_optimum s /\
  sum_flows s' = sum_flows s /\ store s' = store s /\ out s' = out s.

Definition same_vars (s s' : SOSolver) : Prop :=
  phi_vars s' = phi_vars s /\ x_vars s' = x_vars s /\ l_vars s' = l_vars s.

(** Only the model differs. *)
Definition only_model (s s' : SOSolver) : Prop :=
  same_env s s' /\ same_vars s s'.

(** The variable tables hold an entry for every edge, and for every
    edge and OD key; this is what [_generate_vars] establishes. *)
Definition vars_ready (s : SOSolver) : Prop :=
  forall e, In e (edges s) ->
    Dict.get (phi_vars s) (e_name e) <> None /\
    Dict.get (l_vars s) (e_name e) <> None /\
    forall k, In k (Dict.keys (od_matrix s)) ->
      Dict.get (x_vars s) (e_name e ++ k) <> None.

(** The edges of the node-arc formulation at node [n]. *)
Definition arriving_at (n : string) (es : list Edge) : list Edge :=
  filter (fun e => String.eqb (e_end e) n) es.

Definition leaving_from (n : string) (es : list Edge) : list Edge :=
  filter (fun e => String.eqb (e_start e) n) es.

Definition is_self_loop (e : Edge) : bool :=
  String.eqb (e_start e) (e_end e).

(** Whether some edge starts or ends at the node named [n]. *)
Definition touched (n : string) (es : list Edge) : bool :=
  existsb (fun e => String.eqb (e_start e) n || String.eqb (e_end e) n) es.

(** Edges of the same name have the same end points, so that the
    variables of the edges arriving at a node are not those of the edges
    leaving it.  (True of the edges of a file whose node names hold no
    dash.) *)
Definition names_tell_arcs (es : list Edge) : bool :=
  forallb
    (fun e1 =>
       forallb
         (fun e2 =>
            implb (String.eqb (e_name e1) (e_name e2))
                  (String.eqb (e_start e1) (e_start e2)
                   && String.eqb (e_end e1) (e_end e2)))
         es)
    es.

(** The right-hand side of the formulation for the pair
    ([origin], [destination]) with demand [d], at node [n]. *)
Definition formulation_rhs (origin destination : string) (d : pynum)
    (n : string) : pynum :=
  if String.eqb n origin then PyNum.neg d
  else if String.eqb n destination then d
  else PyInt 0.

(** [x_{e,k}] for the edges [es]: the variables stored under
    [e.name + k]. *)
Definition x_of (s : SOSolver) (k : string) (es : list Edge) (xs : list Var)
  : Prop :=
  Forall2 (fun e x => Dict.get (x_vars s) (e_name e ++ k) = Some x) es xs.

(** The flow-conservation constraint of the formulation for the OD key
    [k] at node [n]. *)
Definition conservation_of (s : SOSolver) (k : string) (n : Node)
    (ct : Constraint) : Prop :=
  exists origin destination rest demand ys xs,
    PyStr.split "|" k = origin :: destination :: rest /\
    Dict.get (od_matrix s) k = Some demand /\
    x_of s k (arriving_at (n_name n) (edges s)) ys /\
    x_of s k (leaving_from (n_name n) (edges s)) xs /\
    ct = {| ct_lhs := ESub (ESum ys) (ESum xs);
            ct_rel := RelEq;
            ct_rhs := ENum (formulation_rhs origin destination demand (n_name n));
            ct_name := Some (n_name n ++ k) |}.

(** The number on the right-hand side of a constraint. *)
Definition rhs_number (ct : Constraint) : pynum :=
  match ct_rhs ct with
  | ENum c => c
  | _ => PyInt 0
  end.

Definition finite_number (a : pynum) : bool :=
  match a with
  | PyInt _ => true
  | PyFloat x => PyFloat.is_finite x
  end.

(** The cost-epigraph constraint [m*l^2 + l*n <= phi] of edge [e]. *)
Definition epigraph_of (s : SOSolver) (e : Edge) (ct : Constraint) : Prop :=
  exists m n l phi,
    _get_cost_function_parameters (store s) e = Ok (m, n) /\
    Dict.get (l_vars s) (e_name e) = Some l /\
    Dict.get (phi_vars s) (e_name e) = Some phi /\
    ct = {| ct_lhs := EAdd (EMul (ENum m) (EPow (EVar l) 2))
                           (EMul (EVar l) (ENum n));
            ct_rel := RelLe;
            ct_rhs := EVar phi;
            ct_name := None |}.

End Formulation.

(** A slope and an intercept the solver accepts in a constraint. *)
Definition finite_parameters (mn : pynum * pynum) : bool :=
  PyNum.is_finite (fst mn) && PyNum.is_finite (snd mn).

(** Telling the constraint families apart in the assembled model. *)
Definition is_epigraph (ct : Constraint) : bool :=
  match ct_rel ct with RelLe => true | _ => false end.

Definition is_labelled (ct : Constraint) : bool :=
  match ct_name ct with Some _ => true | None => false end.

(** Neither an epigraph constraint nor a labelled one. *)
Definition plain (ct : Constraint) : Prop :=
  is_epigraph ct = false /\ is_labelled ct = false.

(** [s'] has the constraints of [s] followed by new ones that all
    satisfy [P]. *)
Definition adds (P : Constraint -> Prop) (m m' : Model) : Prop :=
  exists extra,
    m_constraints m' = (m_constraints m ++ extra)%list /\ Forall P extra.

(** Zero as [sum] leaves it: the [int] 0 or the float [+0.0]. *)
Definition zeroish (a : pynum) : Prop :=
  a = PyInt 0 \/ a = PyFloat (S754_zero false).

(** ** Further parts of the program, and what its results are compared with *)

Section Script.

Context {lib : ExprLib}.

(** [Edge.__repr__] (lines 70-71). *)
Definition Edge_repr (e : Edge) : string := e_start e ++ "-" ++ e_end e.

(** The edge [Edge(start, end, function, param_values, variable)]
    leaves behind when the evaluation of its cost gives [c]. *)
Definition edge_at (start end_ : string) (function : CostFunction)
    (param_values : Store.loc) (c : pynum) : Edge :=
  {| e_name := start ++ "-" ++ end_; e_start := start; e_end := end_;
     e_function := function; e_params := param_values;
     e_var := cf_param function;
     e_flow := PyInt 0; e_cost := c; e_aux_flow := PyInt 0 |}.

(** What holds of an edge [generateGraph] returns, in the store [h]
    returned with it: its name, its flow and the entry of the flow
    parameter in its dictionary are as [Edge.__init__] leaves them, and
    its cost is its cost function evaluated on that dictionary. *)
Definition edge_ok (h : Store.t) (e : Edge) : Prop :=
  e_name e = Edge_repr e /\ e_flow e = PyInt 0 /\ e_aux_flow e = PyInt 0 /\
  e_var e = cf_param (e_function e) /\
  (e_params e < List.length h)%nat /\
  Dict.get (Store.read h (e_params e)) (e_var e) = Some (PyInt 0) /\
  evaluate (cf_expr (e_function e)) (Store.read h (e_params e))
  = Ok (e_cost e).

(** The end points of an edge. *)
Definition arc (e : Edge) : string * string := (e_start e, e_end e).

Variable backend : Model -> option Solution.

(** The script (lines 302-317) run on the file [file] whose lines are
    [lines]; [lp] is the [-lp] flag. *)
Definition main (file : string) (lines : list string) (lp : bool)
  : result SOSolver :=
  '(v, e, od, h) <- generateGraph lines (PyFloat PyFloat.zero) ;;
  so <- SOSolver_init v e od file h ;;
  solve backend true lp so.

End Script.

Section Families.

Context {lib : ExprLib}.

(** [x_{e,k}] for the OD keys [ks]: the variables stored under
    [e.name + k]. *)
Definition x_along (s : SOSolver) (e : Edge) (ks : list string)
    (xs : list Var) : Prop :=
  Forall2 (fun k x => Dict.get (x_vars s) (e_name e ++ k) = Some x) ks xs.

(** The total-flow constraint [l_e == sum over k of x_{e,k}] of edge [e]. *)
Definition total_flow_of (s : SOSolver) (e : Edge) (ct : Constraint) : Prop :=
  exists l xs,
    Dict.get (l_vars s) (e_name e) = Some l /\
    x_along s e (Dict.keys (od_matrix s)) xs /\
    ct = {| ct_lhs := EVar l; ct_rel := RelEq; ct_rhs := ESum xs;
            ct_name := None |}.

(** The domain constraints of edge [e]: [l_e >= 0], [phi_e >= 0] and
    [x_{e,k} >= 0] for every OD key, in this order. *)
Definition domain_of (s : SOSolver) (e : Edge) (cts : list Constraint)
  : Prop :=
  exists l phi xs,
    Dict.get (l_vars s) (e_name e) = Some l /\
    Dict.get (phi_vars s) (e_name e) = Some phi /\
    x_along s e (Dict.keys (od_matrix s)) xs /\
    cts = nonnegative l :: nonnegative phi :: map nonnegative xs.

(** The names of the variables [_generate_vars] creates for edge [e]. *)
Definition var_names_of (ks : list string) (e : Edge) : list string :=
  let varName := PyStr.replace "-" "" (e_name e) in
  ("phi_" ++ varName) :: ("l_" ++ varName) ::
  map (fun k => "x_" ++ varName ++ "_{" ++ k ++ "}") ks.

End Families.

(** The constraints grow by [c], variables and objective stay. *)
Definition grows_by (c : nat) (m m' : Model) : Prop :=
  List.length (m_constraints m') = (List.length (m_constraints m) + c)%nat /\
  m_vars m' = m_vars m /\ m_objective m' = m_objective m.

(** ** Linear cost functions as text *)

(** Whether the character [c] occurs in [s]. *)
Fixpoint mentions (c : ascii) (s : string) : bool :=
  match s with
  | EmptyString => false
  | String d s' => Ascii.eqb d c || mentions c s'
  end.

(** [s] without the characters [c]. *)
Fixpoint without (c : ascii) (s : string) : string :=
  match s with
  | EmptyString => EmptyString
  | String d s' => if Ascii.eqb d c then without c s' else String d (without c s')
  end.

Definition strip_parens (s : string) : string := without ")" (without "(" s).

(** The term of a linear cost function that holds the flow parameter
    [var], with the literal [m]: [m*var], [var*m] or [var/m]. *)
Inductive slope_form : Type := Literal_times | Times_literal | Over_literal.

Definition slope_text (form : slope_form) (var m : string) : string :=
  match form with
  | Literal_times => m ++ "*" ++ var
  | Times_literal => var ++ "*" ++ m
  | Over_literal => var ++ "/" ++ m
  end.

(** The slope that goes with the literal's value [x]. *)
Definition slope_value (form : slope_form) (x : pyfloat) : result pyfloat :=
  match form with
  | Over_literal => PyFloat.div PyFloat.one x
  | _ => Ok x
  end.

(** Where the constant term stands, if there is one. *)
Inductive layout : Type :=
| Slope_only
| Slope_plus (n : string)
| Plus_slope (n : string).

Definition linear_text (form : slope_form) (var m : string) (l : layout)
  : string :=
  match l with
  | Slope_only => slope_text form var m
  | Slope_plus n => slope_text form var m ++ "+" ++ n
  | Plus_slope n => n ++ "+" ++ slope_text form var m
  end.

Definition intercept_value (l : layout) : result pyfloat :=
  match l with
  | Slope_only => Ok PyFloat.zero
  | Slope_plus n | Plus_slope n => PyFloat.of_string n
  end.

(** A literal that can stand beside a parameter starting with [c]: it
    mentions neither [c] nor an operator. *)
Definition plain_literal (c : ascii) (s : string) : bool :=
  negb (mentions c s) && negb (mentions "+" s) && negb (mentions "*" s)
  && negb (mentions "/" s).

Definition plain_layout (c : ascii) (l : layout) : bool :=
  match l with
  | Slope_only => true
  | Slope_plus n | Plus_slope n => plain_literal c n
  end.

(** A Python [float]. *)
Definition is_float (a : pynum) : bool :=
  match a with PyFloat _ => true | PyInt _ => false end.

(** The keys of a dictionary into which [ks] are inserted one after
    the other: a key that is present keeps its place. *)
Definition add_key (l : list string) (k : string) : list string :=
  if existsb (String.eqb k) l then l else (l ++ [k])%list.

Definition distinct (ks : list string) : list string :=
  fold_left add_key ks [].

Section Declarations.

Context {lib : ExprLib}.

(** The name and the cost function a [function] line declares: the
    parameter, the other variables of the expression in order of
    occurrence, and the parsed expression. *)
Definition function_of_line (raw : string) : option (string * CostFunction) :=
  match PyStr.split_ws (clean_line raw) with
  | t0 :: t1 :: t2 :: t3 :: _ =>
      if String.eqb t0 "function" then
        match PyStr.split "," (PyStr.slice t2 1 (-1)), parse t3 with
        | [p0], Ok f =>
            Some (t1,
                  {| cf_param := p0;
                     cf_constants :=
                       if existsb (String.eqb p0) (variables f)
                       then list_remove p0 (variables f) else variables f;
                     cf_expr := f |})
        | _, _ => None
        end
      else None
  | _ => None
  end.

End Declarations.

(** The node a [node] line declares. *)
Definition node_of_line (raw : string) : list string :=
  match PyStr.split_ws (clean_line raw) with
  | t0 :: t1 :: _ => if String.eqb t0 "node" then [t1] else []
  | _ => []
  end.

(** The arcs (start, end) a [dedge] or [edge] line declares. *)
Definition arcs_of_line (raw : string) : list (string * string) :=
  match PyStr.split_ws (clean_line raw) with
  | t0 :: _ :: a :: b :: _ =>
      if String.eqb t0 "dedge" then [(a, b)]
      else if String.eqb t0 "edge" then [(a, b); (b, a)]
      else []
  | _ => []
  end.

(** The keywords a line of a network file may start with. *)
Definition keywords : list string := ["function"; "node"; "dedge"; "edge"; "od"].

(** * Properties *)

(** ** The error monad *)

Lemma bind_Ok {A B : Type} (c : result A) (k : A -> result B) (b : B) :
  bind c k = Ok b -> exists a, c = Ok a /\ k a = Ok b.
Proof.
  destruct c as [a|e]; simpl; intros H; [exists a; auto | discriminate].
Qed.

(** Splits a hypothesis [x <- c ;; k = Ok b] into its two halves. *)
Ltac bind_inv H :=
  let a := fresh "a" in
  let Ha := fresh "Ha" in
  apply bind_Ok in H; destruct H as (a & Ha & H).

Lemma foldM_app {A S : Type} (f : S -> A -> result S) (l1 l2 : list A) (s : S) :
  foldM f (l1 ++ l2)%list s = (s' <- foldM f l1 s ;; foldM f l2 s').
Proof.
  revert s; induction l1 as [|a l1 IH]; intros s; simpl; [reflexivity|].
  destruct (f s a); simpl; auto.
Qed.

(** A relation that every step of a loop respects holds across the loop. *)
Lemma foldM_preserves {A S : Type} (R : S -> S -> Prop)
    (f : S -> A -> result S) :
  (forall s, R s s) ->
  (forall s1 s2 s3, R s1 s2 -> R s2 s3 -> R s1 s3) ->
  (forall s a s', f s a = Ok s' -> R s s') ->
  forall l s s', foldM f l s = Ok s' -> R s s'.
Proof.
  intros Hrefl Htrans Hstep l; induction l as [|a l IH]; intros s s' H; simpl in H.
  - injection H as <-; apply Hrefl.
  - bind_inv H. eapply Htrans; [eapply Hstep; eassumption | eauto].
Qed.

Lemma fold_left_preserves {A S : Type} (R : S -> S -> Prop) (f : S -> A -> S) :
  (forall s, R s s) ->
  (forall s1 s2 s3, R s1 s2 -> R s2 s3 -> R s1 s3) ->
  (forall s a, R s (f s a)) ->
  forall l s, R s (fold_left f l s).
Proof.
  intros Hrefl Htrans Hstep l; induction l as [|a l IH]; intros s; simpl.
  - apply Hrefl.
  - eapply Htrans; [apply Hstep | apply IH].
Qed.

Lemma mapM_length {A B : Type} (f : A -> result B) (l : list A) (bs : list B) :
  mapM f l = Ok bs -> List.length bs = List.length l.
Proof.
  revert bs; induction l as [|a l IH]; intros bs H; simpl in H.
  - injection H as <-; reflexivity.
  - bind_inv H. bind_inv H. injection H as <-. simpl. f_equal. eauto.
Qed.

(** ** Dictionaries and the store *)

Lemma Dict_get_set_eq {A : Type} (d : Dict.t A) (k : string) (v : A) :
  Dict.get (Dict.set d k v) k = Some v.
Proof.
  induction d as [|[k' v'] d IH]; simpl.
  - rewrite String.eqb_refl; reflexivity.
  - destruct (String.eqb k' k) eqn:Hk; simpl; rewrite Hk; auto.
Qed.

Lemma Dict_get_set_neq {A : Type} (d : Dict.t A) (k k' : string) (v : A) :
  k <> k' -> Dict.get (Dict.set d k v) k' = Dict.get d k'.
Proof.
  intros Hne; induction d as [|[k0 v0] d IH]; simpl.
  - destruct (String.eqb k k') eqn:Hk; [apply String.eqb_eq in Hk; contradiction | reflexivity].
  - destruct (String.eqb k0 k) eqn:Hk; simpl.
    + apply String.eqb_eq in Hk; subst k0.
      destruct (String.eqb k k') eqn:Hk'; [apply String.eqb_eq in Hk'; contradiction | reflexivity].
    + destruct (String.eqb k0 k'); auto.
Qed.

Lemma Dict_get_set_some {A : Type} (d : Dict.t A) (k k' : string) (v : A) :
  Dict.get d k' <> None -> Dict.get (Dict.set d k v) k' <> None.
Proof.
  intros H. destruct (String.eqb k k') eqn:Hk.
  - apply String.eqb_eq in Hk; subst; rewrite Dict_get_set_eq; discriminate.
  - apply String.eqb_neq in Hk. rewrite Dict_get_set_neq; auto.
Qed.

Lemma Store_read_write (h : Store.t) (l : Store.loc) (d : Dict.t pynum) :
  (l < List.length h)%nat -> Store.read (Store.write h l d) l = d.
Proof.
  revert l; induction h as [|d0 h IH]; intros l Hl; simpl in Hl; [lia|].
  destruct l as [|l]; simpl; [reflexivity|].
  apply IH; lia.
Qed.

Lemma Store_write_length (h : Store.t) (l : Store.loc) (d : Dict.t pynum) :
  List.length (Store.write h l d) = List.length h.
Proof.
  revert l; induction h as [|d0 h IH]; intros l; simpl; [destruct l; reflexivity|].
  destruct l; simpl; auto.
Qed.

(** Writing through an address is seen through every copy of it. *)
Lemma Store_setitem_get (h : Store.t) (l : Store.loc) (k : string) (v : pynum) :
  (l < List.length h)%nat ->
  Dict.get (Store.read (Store.setitem h l k v) l) k = Some v.
Proof.
  intros Hl. unfold Store.setitem. rewrite Store_read_write by assumption.
  apply Dict_get_set_eq.
Qed.

(** ** What the model builder leaves alone *)

Section SolverFacts.

Context {lib : ExprLib}.

Lemma same_env_refl (s : SOSolver) : same_env s s.
Proof. repeat split. Qed.

Lemma same_env_trans (s1 s2 s3 : SOSolver) :
  same_env s1 s2 -> same_env s2 s3 -> same_env s1 s3.
Proof.
  unfold same_env; intros (A1 & A2 & A3 & A4 & A5 & A6 & A7 & A8)
                          (B1 & B2 & B3 & B4 & B5 & B6 & B7 & B8).
  repeat split; congruence.
Qed.

Lemma only_model_refl (s : SOSolver) : only_model s s.
Proof. repeat split. Qed.

Lemma only_model_trans (s1 s2 s3 : SOSolver) :
  only_model s1 s2 -> only_model s2 s3 -> only_model s1 s3.
Proof.
  intros [E1 (A1 & A2 & A3)] [E2 (B1 & B2 & B3)]; split.
  - eapply same_env_trans; eassumption.
  - repeat split; congruence.
Qed.

Lemma only_model_post (s : SOSolver) (c : Constraint) : only_model s (post s c).
Proof. repeat split. Qed.

Lemma post_constraints (s : SOSolver) (c : Constraint) :
  m_constraints (model (post s c)) = (m_constraints (model s) ++ [c])%list.
Proof. reflexivity. Qed.

Lemma same_env_generate_vars_edge (s : SOSolver) (e : Edge) :
  same_env s (generate_vars_edge s e).
Proof.
  unfold generate_vars_edge, new_var, continuous_var; simpl.
  eapply same_env_trans; [| apply fold_left_preserves with (R := same_env)].
  - repeat split.
  - apply same_env_refl.
  - apply same_env_trans.
  - intros s0 k; repeat split.
Qed.

Lemma same_env_generate_vars (s : SOSolver) : same_env s (_generate_vars s).
Proof.
  unfold _generate_vars.
  apply fold_left_preserves with (R := same_env).
  - apply same_env_refl.
  - apply same_env_trans.
  - apply same_env_generate_vars_edge.
Qed.

Lemma only_model_cost_edge (s s' : SOSolver) (e : Edge) :
  cost_constraint_edge s e = Ok s' -> only_model s s'.
Proof.
  unfold cost_constraint_edge; intros H.
  bind_inv H. destruct a as [m n]. bind_inv H. bind_inv H.
  destruct (PyNum.is_finite m && PyNum.is_finite n); [|discriminate].
  injection H as <-. apply only_model_post.
Qed.

Lemma only_model_total_flow_edge (s s' : SOSolver) (e : Edge) :
  total_flow_edge s e = Ok s' -> only_model s s'.
Proof.
  unfold total_flow_edge; intros H.
  bind_inv H. bind_inv H. injection H as <-. apply only_model_post.
Qed.

Lemma only_model_flow_conservation_node (k : string) (s s' : SOSolver) (n : Node) :
  flow_conservation_node k s n = Ok s' -> only_model s s'.
Proof.
  unfold flow_conservation_node; intros H.
  destruct (leaving_arriving n (edges s)) as [leaving arriving].
  bind_inv H. bind_inv H. bind_inv H.
  destruct a0 as [|y ys]; [destruct a1 as [|x xs]|].
  - destruct (PyNum.is_zero a); [|discriminate].
    injection H as <-. apply only_model_refl.
  - injection H as <-. apply only_model_post.
  - injection H as <-. apply only_model_post.
Qed.

Lemma only_model_domain_edge (s s' : SOSolver) (e : Edge) :
  domain_edge s e = Ok s' -> only_model s s'.
Proof.
  unfold domain_edge; intros H.
  bind_inv H. bind_inv H.
  apply foldM_preserves with (R := only_model) in H.
  - eapply only_model_trans; [apply (only_model_post s (nonnegative a))|].
    eapply only_model_trans; [| exact H]. apply only_model_post.
  - apply only_model_refl.
  - apply only_model_trans.
  - intros s0 k s1 H1. bind_inv H1. injection H1 as <-. apply only_model_post.
Qed.

Lemma only_model_cost (s s' : SOSolver) :
  _generate_cost_constraint s = Ok s' -> only_model s s'.
Proof.
  apply foldM_preserves with (R := only_model);
    [apply only_model_refl | apply only_model_trans
    | intros s0 e s1; apply only_model_cost_edge].
Qed.

Lemma only_model_total_flow (s s' : SOSolver) :
  _generate_total_flow_constraint s = Ok s' -> only_model s s'.
Proof.
  apply foldM_preserves with (R := only_model);
    [apply only_model_refl | apply only_model_trans
    | intros s0 e s1; apply only_model_total_flow_edge].
Qed.

Lemma only_model_flow_conservation (s s' : SOSolver) :
  _generate_flow_conservation_constraint s = Ok s' -> only_model s s'.
Proof.
  apply foldM_preserves with (R := only_model);
    [apply only_model_refl | apply only_model_trans |].
  intros s0 k s1. apply foldM_preserves with (R := only_model);
    [apply only_model_refl | apply only_model_trans
    | intros s2 n s3; apply only_model_flow_conservation_node].
Qed.

Lemma only_model_domain (s s' : SOSolver) :
  _generate_domain_constraint s = Ok s' -> only_model s s'.
Proof.
  apply foldM_preserves with (R := only_model);
    [apply only_model_refl | apply only_model_trans
    | intros s0 e s1; apply only_model_domain_edge].
Qed.

Lemma same_env_build (s s' : SOSolver) : build s = Ok s' -> same_env s s'.
Proof.
  unfold build; intros H.
  bind_inv H. bind_inv H. bind_inv H.
  apply only_model_cost in Ha. apply only_model_total_flow in Ha0.
  apply only_model_flow_conservation in Ha1. apply only_model_domain in H.
  eapply same_env_trans; [apply same_env_generate_vars|].
  eapply same_env_trans; [| apply H].
  eapply same_env_trans; [| apply Ha1].
  eapply same_env_trans; [| apply Ha0].
  eapply same_env_trans; [| apply Ha].
  repeat split.
Qed.

(** [sum] of demands that are all zero is zero. *)
Lemma sum_from_zero (l : list pynum) (acc : pynum) :
  acc = PyInt 0 \/ acc = PyFloat (S754_zero false) ->
  Forall (fun v => PyNum.is_zero v = true) l ->
  exists t, PyNum.sum_from acc l = Ok t /\ PyNum.is_zero t = true.
Proof.
  intros Hacc Hl; revert acc Hacc.
  induction Hl as [|a l Ha Hl IH]; intros acc Hacc; simpl.
  - exists acc; split; [reflexivity | destruct Hacc; subst; reflexivity].
  - assert (Hstep : exists acc', PyNum.add acc a = Ok acc' /\
              (acc' = PyInt 0 \/ acc' = PyFloat (S754_zero false))).
    { destruct a as [z|x]; simpl in Ha.
      - apply Z.eqb_eq in Ha; subst z.
        destruct Hacc; subst acc; eexists; (split; [reflexivity|]); auto.
      - destruct x as [sg| | |]; try discriminate.
        destruct Hacc; subst acc; destruct sg;
          eexists; (split; [reflexivity|]); auto. }
    destruct Hstep as (acc' & Hadd & Hacc'). rewrite Hadd; simpl. auto.
Qed.

Lemma SOSolver_init_zero (nodes_ : list Node) (edges_ : list Edge)
    (od : Dict.t pynum) (name_ : string) (h : Store.t) :
  Forall (fun v => PyNum.is_zero v = true) (Dict.values od) ->
  exists s, SOSolver_init nodes_ edges_ od name_ h = Ok s /\
            PyNum.is_zero (sum_flows s) = true.
Proof.
  intros Hz. unfold SOSolver_init.
  destruct (sum_from_zero (Dict.values od) (PyInt 0)) as (t & Ht & Hzero); auto.
  assert (Hsplit : exists n, index (PyStr.split "." (PyStr.basename name_)) 0 = Ok n).
  { generalize (PyStr.basename name_) as b; intros b.
    destruct b as [|c b]; simpl; [eexists; reflexivity|].
    destruct (PyStr.split "." b); simpl; [eexists; reflexivity|].
    destruct (Ascii.eqb c "."); eexists; reflexivity. }
  destruct Hsplit as (n & Hn). rewrite Hn; simpl.
  unfold PyNum.sum. rewrite Ht; simpl. eexists; split; [reflexivity | exact Hzero].
Qed.

End SolverFacts.

(** ** The network parser *)

Section ParserFacts.

Context {lib : ExprLib}.

Lemma parse_lines_app (flow : pynum) (pre post : list string) (k : nat)
    (st : pstate) :
  parse_lines flow k (pre ++ post)%list st =
  (st' <- parse_lines flow k pre st ;;
   parse_lines flow (k + List.length pre) post st').
Proof.
  revert k st; induction pre as [|raw pre IH]; intros k st; simpl.
  - rewrite Nat.add_0_r; reflexivity.
  - destruct (process_line flow (S k) raw st) as [st1|e]; simpl; [|reflexivity].
    rewrite IH. rewrite Nat.add_succ_r. reflexivity.
Qed.

Lemma update_cost_fields (e e' : Edge) (h h' : Store.t) :
  update_cost e h = Ok (e', h') ->
  e' = set_cost e (e_cost e') /\
  h' = Store.setitem h (e_params e) (e_var e) (e_flow e).
Proof.
  unfold update_cost; intros H. bind_inv H. injection H as <- <-.
  split; reflexivity.
Qed.

Lemma Store_setitem_length (h : Store.t) (l : Store.loc) (k : string) (v : pynum) :
  List.length (Store.setitem h l k v) = List.length h.
Proof. unfold Store.setitem. apply Store_write_length. Qed.

(** What a successful [dedge]/[edge] line does. *)
Lemma do_edge_Ok (flow : pynum) (taglist : list string) (st st' : pstate) :
  do_edge flow taglist st = Ok st' ->
  exists t0 t2 t3 t4 function e1 tail,
    nth_error taglist 0 = Some t0 /\ nth_error taglist 2 = Some t2 /\
    nth_error taglist 3 = Some t3 /\ nth_error taglist 4 = Some t4 /\
    Dict.get (F st) t4 = Some function /\
    E st' = (E st ++ e1 :: tail)%list /\
    V st' = V st /\ F st' = F st /\ OD st' = OD st /\
    e_start e1 = t2 /\ e_end e1 = t3 /\ e_function e1 = function /\
    e_params e1 = List.length (heap st) /\ e_var e1 = cf_param function /\
    (e_params e1 < List.length (heap st'))%nat /\
    if String.eqb t0 "edge"
    then exists e2, tail = [e2] /\ e_start e2 = t3 /\ e_end e2 = t2 /\
                    e_function e2 = function /\ e_params e2 = e_params e1 /\
                    e_var e2 = e_var e1
    else tail = [].
Proof.
  unfold do_edge; intros H.
  bind_inv H. rename a into t4, Ha into H4.
  bind_inv H. rename a into function, Ha into HF.
  bind_inv H. rename a into pairs.
  unfold Store.alloc in H.
  bind_inv H. rename a into t2, Ha0 into H2.
  bind_inv H. rename a into t3, Ha0 into H3.
  bind_inv H. destruct a as [e1 h1]. rename Ha0 into He1.
  bind_inv H. rename a into t0, Ha0 into H0.
  unfold index in H0, H2, H3, H4.
  destruct (nth_error taglist 0) as [t0'|] eqn:N0; [injection H0 as ->|discriminate].
  destruct (nth_error taglist 2) as [t2'|] eqn:N2; [injection H2 as ->|discriminate].
  destruct (nth_error taglist 3) as [t3'|] eqn:N3; [injection H3 as ->|discriminate].
  destruct (nth_error taglist 4) as [t4'|] eqn:N4; [injection H4 as ->|discriminate].
  unfold Dict.getitem in HF.
  destruct (Dict.get (F st) t4) as [fn|] eqn:G; [injection HF as ->|discriminate].
  unfold Edge_init in He1. apply update_cost_fields in He1.
  destruct He1 as [He1 Hh1]. simpl in Hh1.
  assert (Hlen1 : List.length h1 = S (List.length (heap st))).
  { subst h1. rewrite !Store_setitem_length, length_app. simpl. lia. }
  destruct (String.eqb t0 "edge") eqn:Hedge.
  - bind_inv H. destruct a as [e2 h2]. rename Ha0 into He2.
    injection H as <-.
    unfold Edge_init in He2. apply update_cost_fields in He2.
    destruct He2 as [He2 Hh2]. simpl in Hh2.
    exists t0, t2, t3, t4, function, e1, [e2].
    rewrite Hedge. rewrite He1, He2. simpl.
    repeat (split; [reflexivity || assumption|]).
    split.
    + subst h2. rewrite Store_setitem_length. lia.
    + exists e2. rewrite He2. simpl. repeat split; reflexivity.
  - injection H as <-.
    exists t0, t2, t3, t4, function, e1, [].
    rewrite Hedge. rewrite He1. simpl.
    repeat (split; [reflexivity || assumption|]).
    split; [lia | reflexivity].
Qed.

(** The cost functions a line leaves in [F]. *)
Lemma process_line_F (flow : pynum) (lineid : nat) (raw fname : string)
    (st st' : pstate) :
  process_line flow lineid raw st = Ok st' ->
  declares_function fname raw = false ->
  Dict.get (F st') fname = Dict.get (F st) fname.
Proof.
  unfold process_line, declares_function; intros H Hd.
  destruct (PyStr.split_ws (clean_line raw)) as [|t0 tl] eqn:Htag.
  - injection H as <-; reflexivity.
  - destruct (String.eqb t0 "function") eqn:T0.
    + unfold do_function in H. bind_inv H.
      destruct (1 <? _)%nat; [discriminate|].
      bind_inv H. bind_inv H. bind_inv H. bind_inv H. injection H as <-. simpl.
      destruct tl as [|t1 tl]; [discriminate|].
      simpl in Ha3. injection Ha3 as <-. simpl in Hd.
      apply String.eqb_neq in Hd. apply Dict_get_set_neq; assumption.
    + destruct (String.eqb t0 "node").
      { unfold do_node in H. bind_inv H. injection H as <-. reflexivity. }
      destruct (String.eqb t0 "dedge" || String.eqb t0 "edge").
      { apply do_edge_Ok in H.
        destruct H as (? & ? & ? & ? & ? & ? & ? & _ & _ & _ & _ & _ & _ & _ & HF & _).
        rewrite HF; reflexivity. }
      destruct (String.eqb t0 "od"); [|discriminate].
      unfold do_od in H. bind_inv H. bind_inv H.
      destruct (negb (String.eqb a a0)).
      * bind_inv H. bind_inv H. bind_inv H. injection H as <-. reflexivity.
      * injection H as <-. reflexivity.
Qed.

Lemma parse_lines_F (flow : pynum) (fname : string) (lines : list string)
    (k : nat) (st st' : pstate) :
  parse_lines flow k lines st = Ok st' ->
  forallb (fun l => negb (declares_function fname l)) lines = true ->
  Dict.get (F st') fname = Dict.get (F st) fname.
Proof.
  revert k st; induction lines as [|raw lines IH]; intros k st H Hall; simpl in *.
  - injection H as <-; reflexivity.
  - apply andb_prop in Hall. destruct Hall as [Hd Hall].
    apply negb_true_iff in Hd.
    bind_inv H. rewrite (IH _ _ H Hall).
    eapply process_line_F; eassumption.
Qed.

(** The OD mapping after a line. *)
Lemma process_line_OD (flow : pynum) (lineid : nat) (raw : string)
    (st st' : pstate) :
  process_line flow lineid raw st = Ok st' ->
  OD st' = od_put (OD st) raw.
Proof.
  unfold process_line, od_put, od_entry; intros H.
  destruct (PyStr.split_ws (clean_line raw)) as [|t0 tl] eqn:Htag.
  - injection H as <-; reflexivity.
  - destruct (String.eqb t0 "function") eqn:T0.
    { apply String.eqb_eq in T0; subst t0.
      unfold do_function in H. bind_inv H.
      destruct (1 <? _)%nat; [discriminate|].
      bind_inv H. bind_inv H. bind_inv H. bind_inv H. injection H as <-. simpl.
      destruct tl as [|? [|? [|? [|? ?]]]]; reflexivity. }
    destruct (String.eqb t0 "node") eqn:T1.
    { apply String.eqb_eq in T1; subst t0.
      unfold do_node in H. bind_inv H. injection H as <-. simpl.
      destruct tl as [|? [|? [|? [|? ?]]]]; reflexivity. }
    destruct (String.eqb t0 "dedge" || String.eqb t0 "edge") eqn:T2.
    { apply do_edge_Ok in H.
      destruct H as (? & ? & ? & ? & ? & ? & ? & _ & _ & _ & _ & _ & _ & _ & _ & HOD & _).
      rewrite HOD.
      assert (Hod : String.eqb t0 "od" = false).
      { apply orb_prop in T2. destruct T2 as [T|T];
          apply String.eqb_eq in T; subst t0; reflexivity. }
      rewrite Hod. simpl.
      destruct tl as [|? [|? [|? [|? ?]]]]; reflexivity. }
    destruct (String.eqb t0 "od") eqn:T3; [|discriminate].
    unfold do_od in H. bind_inv H. bind_inv H.
    destruct tl as [|name [|o [|d tl]]]; try discriminate.
    simpl in Ha, Ha0. injection Ha as <-. injection Ha0 as <-.
    simpl. destruct (negb (String.eqb o d)).
    + bind_inv H. bind_inv H. bind_inv H. injection H as <-.
      destruct tl as [|dem tl]; [discriminate|].
      simpl in Ha, Ha1. injection Ha as <-. injection Ha1 as <-.
      rewrite Ha0. reflexivity.
    + injection H as <-. destruct tl; reflexivity.
Qed.

Lemma parse_lines_OD (flow : pynum) (lines : list string) (k : nat)
    (st st' : pstate) :
  parse_lines flow k lines st = Ok st' ->
  OD st' = fold_left od_put lines (OD st).
Proof.
  revert k st; induction lines as [|raw lines IH]; intros k st H; simpl in *.
  - injection H as <-; reflexivity.
  - bind_inv H. rewrite (IH _ _ H). f_equal.
    eapply process_line_OD; eassumption.
Qed.

End ParserFacts.

(** Folding [od_put]: keys stay, the last writer wins, and every entry
    was put by a line. *)
Lemma od_fold_keeps (lines : list string) (od : Dict.t pynum) (k : string) :
  Dict.get od k <> None -> Dict.get (fold_left od_put lines od) k <> None.
Proof.
  revert od; induction lines as [|raw lines IH]; intros od H; simpl; [assumption|].
  apply IH. unfold od_put. destruct (od_entry raw) as [[k' v']|]; [|assumption].
  apply Dict_get_set_some; assumption.
Qed.

Lemma od_fold_last (lines : list string) (od : Dict.t pynum) (k : string) :
  Forall (fun l => od_key l <> Some k) lines ->
  Dict.get (fold_left od_put lines od) k = Dict.get od k.
Proof.
  intros Hall; revert od; induction Hall as [|raw lines Hraw Hall IH]; intros od; simpl.
  - reflexivity.
  - rewrite IH. unfold od_put. unfold od_key in Hraw.
    destruct (od_entry raw) as [[k' v']|]; [|reflexivity].
    apply Dict_get_set_neq. simpl in Hraw. congruence.
Qed.

Lemma od_fold_origin (lines : list string) (od : Dict.t pynum) (k : string)
    (v : pynum) :
  Dict.get (fold_left od_put lines od) k = Some v ->
  Dict.get od k = Some v \/ exists raw, In raw lines /\ od_entry raw = Some (k, v).
Proof.
  revert od; induction lines as [|raw lines IH]; intros od H; simpl in *; [auto|].
  destruct (IH _ H) as [H1 | (raw' & Hin & He)].
  - unfold od_put in H1. destruct (od_entry raw) as [[k' v']|] eqn:He; [|auto].
    destruct (String.eqb k' k) eqn:Hk.
    + apply String.eqb_eq in Hk; subst k'.
      rewrite Dict_get_set_eq in H1. injection H1 as ->.
      right; exists raw; auto.
    + apply String.eqb_neq in Hk. rewrite Dict_get_set_neq in H1 by assumption.
      auto.
  - right; exists raw'; auto.
Qed.

Lemma od_entry_Some (raw k : string) (v : pynum) :
  od_entry raw = Some (k, v) ->
  exists o d dem rest x,
    PyStr.split_ws (clean_line raw) = "od" :: k :: o :: d :: dem :: rest /\
    o <> d /\ PyFloat.of_string dem = Ok x /\ v = PyFloat x.
Proof.
  unfold od_entry.
  destruct (PyStr.split_ws (clean_line raw)) as [|t0 [|name [|o [|d [|dem rest]]]]];
    try discriminate.
  destruct (String.eqb t0 "od") eqn:T0; [|discriminate].
  destruct (String.eqb o d) eqn:Hod; [discriminate|]. simpl.
  destruct (PyFloat.of_string dem) as [x|] eqn:Hx; [|discriminate].
  intros H; injection H as <- <-.
  apply String.eqb_eq in T0; subst t0. apply String.eqb_neq in Hod.
  exists o, d, dem, rest, x. auto.
Qed.

(** ** The claims about the network parser *)

Section ParserClaims.

Context {lib : ExprLib}.

(** C8, as the code has it.  A [function] line whose parameter list
    (the third token without its first and last character) holds a
    comma makes parsing fail at once, whatever follows, and no graph is
    returned; when the lines before it parse, the exception raised is
    the one built from the declared parameters alone: it holds neither
    the line number nor the line's text. *)
Theorem many_parameters_abort :
  forall (flow : pynum) (pre : list string) (raw : string)
         (post : list string) (fname t2 : string) (rest : list string),
    PyStr.split_ws (clean_line raw) = "function" :: fname :: t2 :: rest ->
    (1 < List.length (PyStr.split "," (PyStr.slice t2 1 (-1))))%nat ->
    exists e,
      generateGraph (pre ++ raw :: post) flow = Raise e /\
      forall st, parse_lines flow 0 pre pstate_init = Ok st ->
                 e = ExcManyParameters (PyStr.split "," (PyStr.slice t2 1 (-1))).
Proof.
  intros flow pre raw post fname t2 rest Htag Hlen.
  unfold generateGraph. rewrite parse_lines_app.
  destruct (parse_lines flow 0 pre pstate_init) as [st|e] eqn:Hpre; simpl.
  - unfold process_line. rewrite Htag. simpl. unfold do_function. simpl.
    apply Nat.ltb_lt in Hlen. rewrite Hlen. simpl.
    eexists; split; [reflexivity|]. intros st0 _; reflexivity.
  - exists e; split; [reflexivity|]. intros st0 H; discriminate.
Qed.

(** C9, as the code has it.  A [dedge] or [edge] line that names a cost
    function declared on no earlier line makes parsing fail and no graph
    is returned; when the lines before it parse, the failure is the
    [KeyError] of the lookup in [F].  (The start and end node names
    are not looked up at all.) *)
Theorem undeclared_function_fails :
  forall (flow : pynum) (pre : list string) (raw : string)
         (post : list string) (tag t1 t2 t3 fname : string)
         (rest : list string),
    PyStr.split_ws (clean_line raw) = tag :: t1 :: t2 :: t3 :: fname :: rest ->
    tag = "dedge" \/ tag = "edge" ->
    forallb (fun l => negb (declares_function fname l)) pre = true ->
    exists e,
      generateGraph (pre ++ raw :: post) flow = Raise e /\
      forall st, parse_lines flow 0 pre pstate_init = Ok st ->
                 e = KeyError fname.
Proof.
  intros flow pre raw post tag t1 t2 t3 fname rest Htag Hkind Hpre.
  unfold generateGraph. rewrite parse_lines_app.
  destruct (parse_lines flow 0 pre pstate_init) as [st|e] eqn:Hparse; simpl.
  - pose proof (parse_lines_F flow fname pre 0 pstate_init st Hparse Hpre) as HF.
    simpl in HF.
    assert (Hline : process_line flow (S (List.length pre)) raw st
                    = Raise (KeyError fname)).
    { unfold process_line. rewrite Htag.
      destruct Hkind; subst tag; simpl; unfold do_edge; simpl;
        unfold Dict.getitem; rewrite HF; reflexivity. }
    rewrite Hline. simpl.
    eexists; split; [reflexivity|]. intros st0 _; reflexivity.
  - exists e; split; [reflexivity|]. intros st0 H; discriminate.
Qed.

(** C3, as the code has it.  After a successful parse the OD mapping is
    keyed by the NAME token of the [od] lines (the second token), not by
    a string built from origin and destination.  Every [od] line with
    distinct origin and destination has its name among the keys, and
    the value is the line's demand unless a later such line has the
    same name; conversely every entry comes from an [od] line with
    distinct origin and destination, so a line with equal end points
    contributes none. *)
Theorem od_mapping_keyed_by_name :
  forall (flow : pynum) (lines : list string) (V_ : list Node)
         (E_ : list Edge) (OD_ : Dict.t pynum) (h : Store.t),
    generateGraph lines flow = Ok (V_, E_, OD_, h) ->
    (forall pre raw post name o d dem rest,
        lines = (pre ++ raw :: post)%list ->
        PyStr.split_ws (clean_line raw) = "od" :: name :: o :: d :: dem :: rest ->
        o <> d ->
        Dict.get OD_ name <> None /\
        (Forall (fun l => od_key l <> Some name) post ->
         exists x, PyFloat.of_string dem = Ok x /\
                   Dict.get OD_ name = Some (PyFloat x))) /\
    (forall k v,
        Dict.get OD_ k = Some v ->
        exists raw o d dem rest x,
          In raw lines /\
          PyStr.split_ws (clean_line raw) = "od" :: k :: o :: d :: dem :: rest /\
          o <> d /\ PyFloat.of_string dem = Ok x /\ v = PyFloat x).
Proof.
  intros flow lines V_ E_ OD_ h H.
  unfold generateGraph in H. bind_inv H. injection H as <- <- <- <-.
  rename a into st.
  pose proof (parse_lines_OD flow lines 0 pstate_init st Ha) as HOD.
  simpl in HOD. split.
  - intros pre raw post name o d dem rest Hlines Htag Hod.
    subst lines.
    (* the line itself succeeded, so its demand is a float literal *)
    rewrite parse_lines_app in Ha. bind_inv Ha. rename a into st1.
    simpl in Ha. bind_inv Ha. rename a into st2.
    assert (Hx : exists x, PyFloat.of_string dem = Ok x).
    { revert Ha1. unfold process_line. rewrite Htag. simpl. unfold do_od. simpl.
      apply String.eqb_neq in Hod. rewrite Hod. simpl.
      destruct (PyFloat.of_string dem) as [x|]; [eexists; reflexivity|discriminate]. }
    destruct Hx as (x & Hx).
    assert (He : od_entry raw = Some (name, PyFloat x)).
    { unfold od_entry. rewrite Htag. simpl.
      apply String.eqb_neq in Hod. rewrite Hod. simpl. rewrite Hx. reflexivity. }
    rewrite HOD, fold_left_app. simpl.
    assert (Hput : Dict.get (od_put (fold_left od_put pre Dict.empty) raw) name
                   = Some (PyFloat x)).
    { unfold od_put. rewrite He. apply Dict_get_set_eq. }
    split.
    + apply od_fold_keeps. rewrite Hput. discriminate.
    + intros Hlast. exists x. split; [exact Hx|].
      rewrite od_fold_last by assumption. exact Hput.
  - intros k v Hget. rewrite HOD in Hget.
    apply od_fold_origin in Hget. destruct Hget as [Hget | (raw & Hin & He)].
    + discriminate.
    + apply od_entry_Some in He.
      destruct He as (o & d & dem & rest & x & Htag & Hod & Hx & Hv).
      exists raw, o, d, dem, rest, x. auto.
Qed.

(** C5, as the code has it.  An [edge] line that parses appends exactly
    two directed edges, start->end and end->start, with the same cost
    function and the SAME parameter dictionary: both hold the address of
    one object.  Writing the flow entry through the first edge, as
    [update_cost] does, is therefore seen through the second. *)
Theorem edge_line_shares_parameters :
  forall (flow : pynum) (lineid : nat) (raw : string) (st st' : pstate)
         (t1 a b fn : string) (rest : list string),
    PyStr.split_ws (clean_line raw) = "edge" :: t1 :: a :: b :: fn :: rest ->
    process_line flow lineid raw st = Ok st' ->
    exists e1 e2,
      E st' = (E st ++ [e1; e2])%list /\
      e_start e1 = a /\ e_end e1 = b /\ e_start e2 = b /\ e_end e2 = a /\
      e_function e1 = e_function e2 /\
      e_params e1 = e_params e2 /\
      forall (v : pynum) (e1' : Edge) (h' : Store.t),
        update_cost (set_flow e1 v) (heap st') = Ok (e1', h') ->
        Dict.get (Store.read h' (e_params e2)) (e_var e2) = Some v.
Proof.
  intros flow lineid raw st st' t1 a b fn rest Htag H.
  unfold process_line in H. rewrite Htag in H. simpl in H.
  apply do_edge_Ok in H.
  destruct H as (t0 & t2 & t3 & t4 & function & e1 & tail & N0 & N2 & N3 & N4
                 & HF & HE & _ & _ & _ & Hs1 & He1 & Hf1 & Hp1 & Hv1 & Hlt & Htail).
  simpl in N0, N2, N3, N4.
  injection N0 as <-. injection N2 as <-. injection N3 as <-. injection N4 as <-.
  simpl in Htail. destruct Htail as (e2 & -> & Hs2 & He2 & Hf2 & Hp2 & Hv2).
  exists e1, e2. repeat (split; [assumption || congruence|]).
  intros v e1' h' Hup. apply update_cost_fields in Hup.
  destruct Hup as [_ ->]. simpl.
  rewrite Hp2, Hv2. apply Store_setitem_get. assumption.
Qed.

End ParserClaims.

(** ** The cost linearizer *)

Section LinearizerClaims.

Context {lib : ExprLib}.

(** C7, as the code has it.  When the rendered cost function of an edge
    does not contain the flow parameter and is, as a whole, a float
    literal, the linearizer returns the slope 0 and the float of that
    literal.  (Nothing is evaluated: any other text is handed to
    [float] as it is.) *)
Theorem constant_literal_parameters :
  forall (h : Store.t) (edge : Edge) (f : string) (x : pyfloat),
    render h edge = Ok f ->
    PyStr.find (e_var edge) f = -1 ->
    PyFloat.of_string f = Ok x ->
    _get_cost_function_parameters h edge = Ok (PyInt 0, PyFloat x).
Proof.
  intros h edge f x Hr Hfind Hx.
  unfold _get_cost_function_parameters. rewrite Hr; simpl.
  unfold cost_parameters_of_text. rewrite Hfind. simpl. rewrite Hx. reflexivity.
Qed.

End LinearizerClaims.

(** ** The model builder *)

Section BuilderFacts.

Context {lib : ExprLib}.

(** *** [_generate_vars] fills the variable tables *)

Lemma generate_x_var_tables (e : Edge) (vn : string) (s : SOSolver) (k : string) :
  phi_vars (generate_x_var e vn s k) = phi_vars s /\
  l_vars (generate_x_var e vn s k) = l_vars s /\
  od_matrix (generate_x_var e vn s k) = od_matrix s /\
  Dict.get (x_vars (generate_x_var e vn s k)) (e_name e ++ k) <> None /\
  forall key, Dict.get (x_vars s) key <> None ->
              Dict.get (x_vars (generate_x_var e vn s k)) key <> None.
Proof.
  unfold generate_x_var, new_var, continuous_var; simpl.
  repeat (split; [reflexivity|]). split.
  - rewrite Dict_get_set_eq; discriminate.
  - intros key H. apply Dict_get_set_some; assumption.
Qed.

Lemma generate_x_vars_tables (e : Edge) (vn : string) (ks : list string)
    (s : SOSolver) :
  let s' := fold_left (generate_x_var e vn) ks s in
  phi_vars s' = phi_vars s /\ l_vars s' = l_vars s /\
  od_matrix s' = od_matrix s /\
  (forall k, In k ks -> Dict.get (x_vars s') (e_name e ++ k) <> None) /\
  (forall key, Dict.get (x_vars s) key <> None ->
               Dict.get (x_vars s') key <> None).
Proof.
  revert s; induction ks as [|k ks IH]; intros s; simpl.
  - repeat split; auto; intros k [].
  - destruct (generate_x_var_tables e vn s k) as (P & L & O & Xk & Xmono).
    destruct (IH (generate_x_var e vn s k)) as (P' & L' & O' & Xin & Xmono').
    simpl in *.
    repeat split; try congruence.
    + intros k' [<- | Hin]; [apply Xmono'; exact Xk | apply Xin; exact Hin].
    + intros key H. apply Xmono', Xmono, H.
Qed.

Lemma generate_vars_edge_tables (s : SOSolver) (e : Edge) :
  let s' := generate_vars_edge s e in
  Dict.get (phi_vars s') (e_name e) <> None /\
  Dict.get (l_vars s') (e_name e) <> None /\
  (forall k, In k (Dict.keys (od_matrix s)) ->
             Dict.get (x_vars s') (e_name e ++ k) <> None) /\
  (forall key, Dict.get (phi_vars s) key <> None ->
               Dict.get (phi_vars s') key <> None) /\
  (forall key, Dict.get (l_vars s) key <> None ->
               Dict.get (l_vars s') key <> None) /\
  (forall key, Dict.get (x_vars s) key <> None ->
               Dict.get (x_vars s') key <> None).
Proof.
  unfold generate_vars_edge, new_var, continuous_var; simpl.
  match goal with
  | |- context [fold_left (generate_x_var e ?vn) ?ks ?s1] =>
      destruct (generate_x_vars_tables e vn ks s1) as (P & L & O & Xin & Xmono)
  end.
  simpl in *. rewrite P, L.
  split; [rewrite Dict_get_set_eq; discriminate|].
  split; [rewrite Dict_get_set_eq; discriminate|].
  split; [exact Xin|].
  split; [intros key H; apply Dict_get_set_some; exact H|].
  split; [intros key H; apply Dict_get_set_some; exact H|].
  exact Xmono.
Qed.

Lemma generate_vars_tables (es : list Edge) (s : SOSolver) :
  let s' := fold_left generate_vars_edge es s in
  (forall e, In e es ->
     Dict.get (phi_vars s') (e_name e) <> None /\
     Dict.get (l_vars s') (e_name e) <> None /\
     forall k, In k (Dict.keys (od_matrix s)) ->
               Dict.get (x_vars s') (e_name e ++ k) <> None) /\
  (forall key, Dict.get (phi_vars s) key <> None ->
               Dict.get (phi_vars s') key <> None) /\
  (forall key, Dict.get (l_vars s) key <> None ->
               Dict.get (l_vars s') key <> None) /\
  (forall key, Dict.get (x_vars s) key <> None ->
               Dict.get (x_vars s') key <> None).
Proof.
  revert s; induction es as [|e es IH]; intros s; simpl.
  - split; [intros e []|]. auto.
  - destruct (generate_vars_edge_tables s e) as (P & L & X & Pm & Lm & Xm).
    destruct (IH (generate_vars_edge s e)) as (Hin & Pm' & Lm' & Xm').
    destruct (same_env_generate_vars_edge s e) as (_ & _ & Hod & _).
    simpl in *. rewrite Hod in Hin.
    split; [|auto].
    intros e' [<- | He'].
    + split; [apply Pm', P|]. split; [apply Lm', L|].
      intros k Hk. apply Xm', X, Hk.
    + apply Hin, He'.
Qed.

Lemma generate_vars_ready (s : SOSolver) : vars_ready (_generate_vars s).
Proof.
  unfold vars_ready, _generate_vars.
  destruct (generate_vars_tables (edges s) s) as (Hin & _).
  destruct (same_env_generate_vars s) as (_ & He & Hod & _).
  unfold _generate_vars in He, Hod. simpl in *.
  rewrite He, Hod. exact Hin.
Qed.

Lemma vars_ready_only_model (s s' : SOSolver) :
  only_model s s' -> vars_ready s -> vars_ready s'.
Proof.
  intros [(_ & He & Hod & _) (Hp & Hx & Hl)] H.
  unfold vars_ready. rewrite He, Hod, Hp, Hx, Hl. exact H.
Qed.

Lemma vars_ready_objective (s : SOSolver) :
  vars_ready s -> vars_ready (_generate_objective_function s).
Proof. intros H; exact H. Qed.

(** Looking up [x_{e,k}] for a list of edges succeeds. *)
Lemma x_lookup_all (s : SOSolver) (k : string) (es : list Edge) :
  (forall e, In e es -> Dict.get (x_vars s) (e_name e ++ k) <> None) ->
  exists xs,
    mapM (fun e => Dict.getitem (x_vars s) (e_name e ++ k)) es = Ok xs /\
    x_of s k es xs.
Proof.
  unfold x_of. induction es as [|e es IH]; intros H; simpl.
  - exists []; split; [reflexivity | constructor].
  - destruct IH as (xs & Hxs & Hall); [intros e' He'; apply H; right; exact He'|].
    unfold Dict.getitem at 1.
    destruct (Dict.get (x_vars s) (e_name e ++ k)) as [x|] eqn:Hx;
      [|exfalso; apply (H e); [left; reflexivity | exact Hx]].
    simpl. rewrite Hxs. simpl.
    exists (x :: xs); split; [reflexivity | constructor; assumption].
Qed.

(** *** The edges at a node *)

Lemma leaving_arriving_from (n : Node) (es leaving arriving : list Edge) :
  fold_left
    (fun '(leaving, arriving) edge =>
       if String.eqb (e_start edge) (n_name n)
       then ((leaving ++ [edge])%list, arriving)
       else if String.eqb (e_end edge) (n_name n)
            then (leaving, (arriving ++ [edge])%list)
            else (leaving, arriving))
    es (leaving, arriving)
  = ((leaving ++ leaving_from (n_name n) es)%list,
     (arriving ++ filter (fun e => negb (String.eqb (e_start e) (n_name n))
                                   && String.eqb (e_end e) (n_name n)) es)%list).
Proof.
  revert leaving arriving; induction es as [|e es IH]; intros leaving arriving; simpl.
  - rewrite !app_nil_r; reflexivity.
  - unfold leaving_from in *. simpl.
    destruct (String.eqb (e_start e) (n_name n)); simpl.
    + rewrite IH, <- app_assoc. reflexivity.
    + destruct (String.eqb (e_end e) (n_name n)); simpl.
      * rewrite IH, <- app_assoc. reflexivity.
      * apply IH.
Qed.

(** Without self-loops the two lists of the code are those of the
    formulation. *)
Lemma leaving_arriving_formulation (n : Node) (es : list Edge) :
  forallb (fun e => negb (is_self_loop e)) es = true ->
  leaving_arriving n es = (leaving_from (n_name n) es, arriving_at (n_name n) es).
Proof.
  intros Hloops. unfold leaving_arriving. rewrite leaving_arriving_from. simpl.
  f_equal. unfold arriving_at.
  induction es as [|e es IH]; simpl in *; [reflexivity|].
  apply andb_prop in Hloops. destruct Hloops as [He Hes].
  rewrite (IH Hes).
  unfold is_self_loop in He. apply negb_true_iff in He.
  destruct (String.eqb (e_end e) (n_name n)) eqn:Hend; simpl.
  - apply String.eqb_eq in Hend. rewrite <- Hend, He. reflexivity.
  - rewrite andb_false_r. reflexivity.
Qed.

Lemma filter_In_sub {A : Type} (p : A -> bool) (l : list A) (a : A) :
  In a (filter p l) -> In a l.
Proof. intros H; apply filter_In in H; tauto. Qed.

(** A node no edge touches has no leaving and no arriving edge, and
    conversely. *)
Lemma leaving_arriving_untouched (n : Node) (es : list Edge) :
  touched (n_name n) es = false -> leaving_arriving n es = ([], []).
Proof.
  intros H. unfold leaving_arriving. rewrite leaving_arriving_from. simpl.
  unfold leaving_from. unfold touched in H.
  induction es as [|e es IH]; simpl in *; [reflexivity|].
  apply orb_false_elim in H. destruct H as [He Hes].
  apply orb_false_elim in He. destruct He as [Hs Hd].
  rewrite Hs, Hd. simpl. apply IH. exact Hes.
Qed.

Lemma leaving_arriving_touched (n : Node) (es : list Edge) :
  touched (n_name n) es = true ->
  fst (leaving_arriving n es) <> [] \/ snd (leaving_arriving n es) <> [].
Proof.
  intros H. unfold leaving_arriving. rewrite leaving_arriving_from. simpl.
  unfold leaving_from. unfold touched in H.
  induction es as [|e es IH]; simpl in *; [discriminate|].
  destruct (String.eqb (e_start e) (n_name n)); simpl in *.
  - left; discriminate.
  - destruct (String.eqb (e_end e) (n_name n)); simpl in *.
    + right; discriminate.
    + apply IH. exact H.
Qed.

End BuilderFacts.

(** *** Which constraints each step adds *)

Section ConstraintFamilies.

Context {lib : ExprLib}.

Lemma adds_refl (P : Constraint -> Prop) (m : Model) : adds P m m.
Proof. exists []; split; [rewrite app_nil_r; reflexivity | constructor]. Qed.

Lemma adds_trans (P : Constraint -> Prop) (m1 m2 m3 : Model) :
  adds P m1 m2 -> adds P m2 m3 -> adds P m1 m3.
Proof.
  intros (x1 & H1 & F1) (x2 & H2 & F2). exists (x1 ++ x2)%list. split.
  - rewrite H2, H1, app_assoc. reflexivity.
  - apply Forall_app; auto.
Qed.

Lemma adds_post (P : Constraint -> Prop) (s : SOSolver) (c : Constraint) :
  P c -> adds P (model s) (model (post s c)).
Proof. intros H; exists [c]; split; [reflexivity | repeat constructor; exact H]. Qed.

Lemma foldM_adds {A : Type} (P : Constraint -> Prop)
    (f : SOSolver -> A -> result SOSolver) :
  (forall s a s', f s a = Ok s' -> adds P (model s) (model s')) ->
  forall l s s', foldM f l s = Ok s' -> adds P (model s) (model s').
Proof.
  intros Hstep l s s'.
  apply foldM_preserves with (R := fun s s' => adds P (model s) (model s')).
  - intros s0; apply adds_refl.
  - intros s1 s2 s3; apply adds_trans.
  - exact Hstep.
Qed.

Lemma total_flow_adds (s s' : SOSolver) :
  _generate_total_flow_constraint s = Ok s' -> adds plain (model s) (model s').
Proof.
  apply foldM_adds. intros s0 e s1 H. unfold total_flow_edge in H.
  bind_inv H. bind_inv H. injection H as <-.
  apply adds_post. split; reflexivity.
Qed.

Lemma domain_adds (s s' : SOSolver) :
  _generate_domain_constraint s = Ok s' -> adds plain (model s) (model s').
Proof.
  apply foldM_adds. intros s0 e s1 H. unfold domain_edge in H.
  apply bind_Ok in H. destruct H as (l & _ & H).
  apply bind_Ok in H. destruct H as (phi & _ & H).
  eapply adds_trans; [apply (adds_post plain s0 (nonnegative l)); split; reflexivity|].
  eapply adds_trans;
    [apply (adds_post plain (post s0 (nonnegative l)) (nonnegative phi));
     split; reflexivity|].
  revert H. apply foldM_adds. intros s2 k s3 H.
  bind_inv H. injection H as <-. apply adds_post. split; reflexivity.
Qed.

Lemma flow_conservation_adds (s s' : SOSolver) :
  _generate_flow_conservation_constraint s = Ok s' ->
  adds (fun ct => is_epigraph ct = false /\ is_labelled ct = true)
       (model s) (model s').
Proof.
  apply foldM_adds. intros s0 k s1. apply foldM_adds. intros s2 n s3 H.
  unfold flow_conservation_node in H.
  destruct (leaving_arriving n (edges s2)) as [leaving arriving].
  bind_inv H. bind_inv H. bind_inv H.
  destruct a0 as [|y ys]; [destruct a1 as [|x xs]|].
  - destruct (PyNum.is_zero a); [|discriminate].
    injection H as <-. apply adds_refl.
  - injection H as <-. apply adds_post. split; reflexivity.
  - injection H as <-. apply adds_post. split; reflexivity.
Qed.

Lemma filter_none {A : Type} (p : A -> bool) (l : list A) :
  Forall (fun a => p a = false) l -> filter p l = [].
Proof.
  induction 1 as [|a l Ha Hl IH]; simpl; [reflexivity|]. rewrite Ha; exact IH.
Qed.

Lemma filter_all {A : Type} (p : A -> bool) (l : list A) :
  Forall (fun a => p a = true) l -> filter p l = l.
Proof.
  induction 1 as [|a l Ha Hl IH]; simpl; [reflexivity|]. rewrite Ha, IH; reflexivity.
Qed.

(** *** The cost constraints *)

Lemma epigraph_of_only_model (s s' : SOSolver) (e : Edge) (ct : Constraint) :
  only_model s s' -> epigraph_of s e ct -> epigraph_of s' e ct.
Proof.
  intros [(_ & _ & _ & _ & _ & _ & Hst & _) (Hp & _ & Hl)]
         (m & n & l & phi & H1 & H2 & H3 & H4).
  exists m, n, l, phi. rewrite Hst, Hp, Hl. auto.
Qed.

Lemma cost_constraints_added (es : list Edge) :
  forall (s : SOSolver) (mns : list (pynum * pynum)),
    (forall e, In e es -> Dict.get (phi_vars s) (e_name e) <> None /\
                          Dict.get (l_vars s) (e_name e) <> None) ->
    mapM (_get_cost_function_parameters (store s)) es = Ok mns ->
    forallb finite_parameters mns = true ->
    exists s' cts,
      foldM cost_constraint_edge es s = Ok s' /\
      only_model s s' /\
      m_constraints (model s') = (m_constraints (model s) ++ cts)%list /\
      Forall2 (epigraph_of s) es cts.
Proof.
  induction es as [|e es IH]; intros s mns Hready Hlin Hfin; simpl in *.
  - exists s, []. split; [reflexivity|]. split; [apply only_model_refl|].
    split; [rewrite app_nil_r; reflexivity | constructor].
  - apply bind_Ok in Hlin. destruct Hlin as ([m n] & Ha & Hlin).
    apply bind_Ok in Hlin. destruct Hlin as (a0 & Ha0 & Hlin).
    injection Hlin as <-.
    cbn [forallb] in Hfin. apply andb_prop in Hfin. destruct Hfin as [Hmn Hfin].
    unfold finite_parameters in Hmn. cbn [fst snd] in Hmn.
    destruct (Hready e (or_introl eq_refl)) as [Hphi Hl].
    destruct (Dict.get (phi_vars s) (e_name e)) as [phi|] eqn:Ephi; [|contradiction].
    destruct (Dict.get (l_vars s) (e_name e)) as [l|] eqn:El; [|contradiction].
    unfold cost_constraint_edge at 1. rewrite Ha. cbn [bind].
    unfold Dict.getitem. rewrite El, Ephi. cbn [bind]. rewrite Hmn.
    set (ct := cost_constraint m n l phi).
    destruct (IH (post s ct) a0) as (s' & cts & Hfold & Hom & Hcts & Hall).
    + intros e' He'. apply Hready. right; exact He'.
    + exact Ha0.
    + exact Hfin.
    + exists s', (ct :: cts). split; [exact Hfold|].
      split; [eapply only_model_trans; [apply only_model_post | exact Hom]|].
      split.
      * rewrite Hcts. simpl. rewrite <- app_assoc. reflexivity.
      * constructor.
        -- exists m, n, l, phi. auto.
        -- revert Hall. apply Forall2_impl. intros e' ct' (m' & n' & l' & phi' & H).
           exists m', n', l', phi'. exact H.
Qed.

End ConstraintFamilies.

(** *** The flow-conservation constraints *)

Section ConservationFacts.

Context {lib : ExprLib}.

Lemma Dict_get_keys {A : Type} (d : Dict.t A) (k : string) :
  In k (Dict.keys d) -> Dict.get d k <> None.
Proof.
  induction d as [|[k' v] d IH]; simpl; intros H; [contradiction|].
  destruct (String.eqb k' k) eqn:E; [discriminate|].
  destruct H as [H|H]; [apply String.eqb_neq in E; contradiction | auto].
Qed.

Lemma node_demand_formulation (od : Dict.t pynum) (k : string) (n : Node)
    (o d : string) (rest : list string) (dem : pynum) :
  PyStr.split "|" k = o :: d :: rest ->
  Dict.get od k = Some dem ->
  node_demand od k n = Ok (formulation_rhs o d dem (n_name n)).
Proof.
  intros Hsplit Hget. unfold node_demand, formulation_rhs, Dict.getitem.
  rewrite Hsplit, Hget. simpl.
  destruct (String.eqb (n_name n) o); [reflexivity|].
  destruct (String.eqb (n_name n) d); reflexivity.
Qed.

Lemma conservation_of_same (s s0 : SOSolver) (k : string) (n : Node)
    (ct : Constraint) :
  x_vars s = x_vars s0 -> od_matrix s = od_matrix s0 -> edges s = edges s0 ->
  conservation_of s k n ct -> conservation_of s0 k n ct.
Proof.
  intros Hx Hod He (o & d & rest & dem & ys & xs & H1 & H2 & H3 & H4 & H5).
  exists o, d, rest, dem, ys, xs. unfold x_of in *.
  rewrite <- Hx, <- Hod, <- He. auto.
Qed.

Lemma flow_conservation_node_ok (s : SOSolver) (k : string) (n : Node) :
  vars_ready s ->
  forallb (fun e => negb (is_self_loop e)) (edges s) = true ->
  touched (n_name n) (edges s) = true ->
  In k (Dict.keys (od_matrix s)) ->
  (exists o d rest, PyStr.split "|" k = o :: d :: rest) ->
  exists ct,
    flow_conservation_node k s n = Ok (post s ct) /\ conservation_of s k n ct.
Proof.
  intros Hready Hloops Htouched Hk (o & d & rest & Hsplit).
  apply leaving_arriving_touched in Htouched.
  rewrite (leaving_arriving_formulation n (edges s) Hloops) in Htouched.
  cbn [fst snd] in Htouched.
  unfold flow_conservation_node.
  rewrite (leaving_arriving_formulation n (edges s) Hloops).
  destruct (Dict.get (od_matrix s) k) as [dem|] eqn:Hget;
    [|exfalso; apply (Dict_get_keys _ _ Hk); exact Hget].
  rewrite (node_demand_formulation _ k n o d rest dem Hsplit Hget).
  cbn [bind].
  destruct (x_lookup_all s k (arriving_at (n_name n) (edges s)))
    as (ys & Hys & Hyall).
  { intros e He. apply filter_In_sub in He.
    destruct (Hready e He) as (_ & _ & Hx). apply Hx, Hk. }
  destruct (x_lookup_all s k (leaving_from (n_name n) (edges s)))
    as (xs & Hxs & Hxall).
  { intros e He. apply filter_In_sub in He.
    destruct (Hready e He) as (_ & _ & Hx). apply Hx, Hk. }
  rewrite Hys. cbn [bind]. rewrite Hxs. cbn [bind].
  assert (Hpost :
    match ys, xs with
    | [], [] => if PyNum.is_zero (formulation_rhs o d dem (n_name n))
                then Ok s else Raise DOcplexException
    | _, _ =>
        Ok (post s {| ct_lhs := ESub (ESum ys) (ESum xs); ct_rel := RelEq;
                      ct_rhs := ENum (formulation_rhs o d dem (n_name n));
                      ct_name := Some (n_name n ++ k) |})
    end
    = Ok (post s {| ct_lhs := ESub (ESum ys) (ESum xs); ct_rel := RelEq;
                    ct_rhs := ENum (formulation_rhs o d dem (n_name n));
                    ct_name := Some (n_name n ++ k) |})).
  { destruct ys as [|y ys]; [|reflexivity].
    destruct xs as [|x xs]; [|reflexivity].
    exfalso. unfold x_of in Hyall, Hxall.
    apply Forall2_length in Hyall. apply Forall2_length in Hxall.
    destruct Htouched as [H|H]; apply H; apply length_zero_iff_nil; assumption. }
  rewrite Hpost.
  eexists; split; [reflexivity|].
  exists o, d, rest, dem, ys, xs. auto.
Qed.

Lemma flow_conservation_nodes_ok (s0 : SOSolver) (k : string)
    (ns : list Node) :
  vars_ready s0 ->
  forallb (fun e => negb (is_self_loop e)) (edges s0) = true ->
  forallb (fun n => touched (n_name n) (edges s0)) ns = true ->
  In k (Dict.keys (od_matrix s0)) ->
  (exists o d rest, PyStr.split "|" k = o :: d :: rest) ->
  forall s, only_model s0 s ->
  exists s' row,
    foldM (flow_conservation_node k) ns s = Ok s' /\
    only_model s0 s' /\
    m_constraints (model s') = (m_constraints (model s) ++ row)%list /\
    Forall2 (conservation_of s0 k) ns row.
Proof.
  intros Hready Hloops Htouched Hk Hwf.
  induction ns as [|n ns IH]; intros s Hom; simpl.
  - exists s, []. split; [reflexivity|]. split; [exact Hom|].
    split; [rewrite app_nil_r; reflexivity | constructor].
  - pose proof Hom as [(_ & He & Hod & _) (_ & Hx & _)].
    cbn [forallb] in Htouched. apply andb_prop in Htouched.
    destruct Htouched as [Hn Hns].
    destruct (flow_conservation_node_ok s k n) as (ct & Hstep & Hct).
    + eapply vars_ready_only_model; eassumption.
    + rewrite He; exact Hloops.
    + rewrite He; exact Hn.
    + rewrite Hod; exact Hk.
    + exact Hwf.
    + rewrite Hstep. cbn [bind].
      destruct (IH Hns (post s ct)) as (s' & row & Hfold & Hom' & Hcts & Hall).
      { eapply only_model_trans; [exact Hom | apply only_model_post]. }
      exists s', (ct :: row). split; [exact Hfold|]. split; [exact Hom'|].
      split.
      * rewrite Hcts. simpl. rewrite <- app_assoc. reflexivity.
      * constructor; [|exact Hall].
        eapply conservation_of_same; eassumption.
Qed.

Lemma flow_conservation_keys_ok (s0 : SOSolver) (ks : list string) :
  vars_ready s0 ->
  forallb (fun e => negb (is_self_loop e)) (edges s0) = true ->
  forallb (fun n => touched (n_name n) (edges s0)) (nodes s0) = true ->
  (forall k, In k ks ->
     In k (Dict.keys (od_matrix s0)) /\
     exists o d rest, PyStr.split "|" k = o :: d :: rest) ->
  forall s, only_model s0 s ->
  exists s' rows,
    foldM (fun s k => foldM (flow_conservation_node k) (nodes s) s) ks s
    = Ok s' /\
    only_model s0 s' /\
    m_constraints (model s') = (m_constraints (model s) ++ concat rows)%list /\
    Forall2 (fun k row => Forall2 (conservation_of s0 k) (nodes s0) row) ks rows.
Proof.
  intros Hready Hloops Htouched.
  induction ks as [|k ks IH]; intros Hks s Hom; simpl.
  - exists s, []. split; [reflexivity|]. split; [exact Hom|].
    split; [simpl; rewrite app_nil_r; reflexivity | constructor].
  - destruct (Hks k (or_introl eq_refl)) as [Hk Hwf].
    pose proof Hom as [(Hn & _) _].
    assert (Htn : forallb (fun n => touched (n_name n) (edges s0)) (nodes s) = true)
      by (rewrite Hn; exact Htouched).
    destruct (flow_conservation_nodes_ok s0 k (nodes s) Hready Hloops Htn Hk Hwf s Hom)
      as (s1 & row & Hfold & Hom1 & Hcts & Hall).
    rewrite Hfold. cbn [bind].
    destruct (IH (fun k' H => Hks k' (or_intror H)) s1 Hom1)
      as (s' & rows & Hfold' & Hom' & Hcts' & Hall').
    exists s', (row :: rows). split; [exact Hfold'|]. split; [exact Hom'|].
    split.
    + rewrite Hcts', Hcts. simpl. rewrite <- app_assoc. reflexivity.
    + constructor; [|exact Hall']. rewrite <- Hn. exact Hall.
Qed.

(** The right-hand sides of a row are those of the formulation. *)
Lemma conservation_row_rhs (s : SOSolver) (k o d : string)
    (rest : list string) (dem : pynum) (ns : list Node)
    (row : list Constraint) :
  PyStr.split "|" k = o :: d :: rest ->
  Dict.get (od_matrix s) k = Some dem ->
  Forall2 (conservation_of s k) ns row ->
  map rhs_number row = map (formulation_rhs o d dem) (map n_name ns).
Proof.
  intros Hsplit Hget Hall.
  induction Hall as [|n ct ns row Hct _ IH]; simpl; [reflexivity|].
  rewrite IH. f_equal.
  destruct Hct as (o' & d' & rest' & dem' & ys & xs & H1 & H2 & _ & _ & ->).
  rewrite Hsplit in H1. injection H1 as <- <- <-.
  rewrite Hget in H2. injection H2 as <-. reflexivity.
Qed.

End ConservationFacts.

(** ** Demands cancel over the nodes *)

Lemma zeroish_is_zero (a : pynum) : zeroish a -> PyNum.is_zero a = true.
Proof. intros [-> | ->]; reflexivity. Qed.

Lemma zeroish_add_zero (a : pynum) :
  zeroish a -> exists a', PyNum.add a (PyInt 0) = Ok a' /\ zeroish a'.
Proof.
  intros [-> | ->]; eexists; (split; [reflexivity|]); [left | right]; reflexivity.
Qed.

Lemma SFadd_opp_l (s : bool) (m : positive) (e : Z) :
  SFadd prec emax (S754_finite (negb s) m e) (S754_finite s m e)
  = S754_zero false.
Proof.
  unfold SFadd. rewrite Z.min_id. unfold shl_align. rewrite Z.sub_diag. simpl.
  destruct s; simpl; rewrite Z.pos_sub_diag; reflexivity.
Qed.

Lemma SFadd_opp_r (s : bool) (m : positive) (e : Z) :
  SFadd prec emax (S754_finite s m e) (S754_finite (negb s) m e)
  = S754_zero false.
Proof.
  unfold SFadd. rewrite Z.min_id. unfold shl_align. rewrite Z.sub_diag. simpl.
  destruct s; simpl; rewrite Z.pos_sub_diag; reflexivity.
Qed.

(** The partial sums met while adding [-d], [d] and zeros. *)
Lemma cancel_facts (d : pynum) :
  finite_number d = true ->
  exists a1 a2,
    PyNum.add (PyInt 0) (PyNum.neg d) = Ok a1 /\
    PyNum.add (PyInt 0) d = Ok a2 /\
    PyNum.add a1 (PyInt 0) = Ok a1 /\
    PyNum.add a2 (PyInt 0) = Ok a2 /\
    (exists z, PyNum.add a1 d = Ok z /\ zeroish z) /\
    (exists z, PyNum.add a2 (PyNum.neg d) = Ok z /\ zeroish z).
Proof.
  destruct d as [z | [sg | sg | | sg m e]]; simpl; intros Hfin; try discriminate.
  - exists (PyInt (- z)), (PyInt z). simpl.
    repeat split; try (f_equal; f_equal; lia).
    + exists (PyInt 0); split; [f_equal; f_equal; lia | left; reflexivity].
    + exists (PyInt 0); split; [f_equal; f_equal; lia | left; reflexivity].
  - exists (PyFloat (S754_zero false)), (PyFloat (S754_zero false)).
    destruct sg; simpl; repeat split;
      try (eexists; split; [reflexivity | right; reflexivity]).
  - exists (PyFloat (S754_finite (negb sg) m e)), (PyFloat (S754_finite sg m e)).
    split; [reflexivity|]. split; [reflexivity|].
    split; [reflexivity|]. split; [reflexivity|]. split.
    + exists (PyFloat (S754_zero false)). split; [|right; reflexivity].
      change (Ok (PyFloat (SFadd prec emax (S754_finite (negb sg) m e)
                                           (S754_finite sg m e)))
              = Ok (PyFloat (S754_zero false))).
      rewrite SFadd_opp_l. reflexivity.
    + exists (PyFloat (S754_zero false)). split; [|right; reflexivity].
      change (Ok (PyFloat (SFadd prec emax (S754_finite sg m e)
                                           (S754_finite (negb sg) m e)))
              = Ok (PyFloat (S754_zero false))).
      rewrite SFadd_opp_r. reflexivity.
Qed.

Section Cancel.

Variables (o d : string) (dem : pynum).
Hypothesis Hod : o <> d.

Let rhs := formulation_rhs o d dem.

Lemma rhs_origin : rhs o = PyNum.neg dem.
Proof. unfold rhs, formulation_rhs. rewrite String.eqb_refl. reflexivity. Qed.

Lemma rhs_destination : rhs d = dem.
Proof.
  unfold rhs, formulation_rhs. rewrite String.eqb_refl.
  destruct (String.eqb d o) eqn:E; [|reflexivity].
  apply String.eqb_eq in E. congruence.
Qed.

Lemma rhs_elsewhere (x : string) : x <> o -> x <> d -> rhs x = PyInt 0.
Proof.
  intros Ho Hd. unfold rhs, formulation_rhs.
  apply String.eqb_neq in Ho. apply String.eqb_neq in Hd.
  rewrite Ho, Hd. reflexivity.
Qed.

Lemma sum_no_endpoint (l : list string) :
  count_occ string_dec l o = 0%nat -> count_occ string_dec l d = 0%nat ->
  forall acc, zeroish acc ->
  exists t, PyNum.sum_from acc (map rhs l) = Ok t /\ zeroish t.
Proof.
  induction l as [|x l IH]; simpl; intros Ho Hd acc Hacc.
  - exists acc; auto.
  - destruct (string_dec x o) as [|Hxo]; [discriminate|].
    destruct (string_dec x d) as [|Hxd]; [discriminate|].
    rewrite rhs_elsewhere by assumption.
    destruct (zeroish_add_zero acc Hacc) as (acc' & Hadd & Hacc').
    rewrite Hadd. simpl. apply IH; assumption.
Qed.

Lemma sum_one_endpoint (a other : pynum) (p q : string) (l : list string) :
  p <> q -> (p = o /\ q = d \/ p = d /\ q = o) ->
  PyNum.add a (PyInt 0) = Ok a ->
  (exists z, PyNum.add a (rhs p) = Ok z /\ zeroish z) ->
  count_occ string_dec l p = 1%nat -> count_occ string_dec l q = 0%nat ->
  exists t, PyNum.sum_from a (map rhs l) = Ok t /\ zeroish t.
Proof.
  intros Hpq Hwhich Hstay (z & Hz & Hzz).
  induction l as [|x l IH]; simpl; intros Hp Hq; [discriminate|].
  destruct (string_dec x q) as [|Hxq]; [discriminate|].
  destruct (string_dec x p) as [->|Hxp].
  - rewrite Hz. simpl. injection Hp as Hp.
    destruct Hwhich as [[-> ->] | [-> ->]]; apply sum_no_endpoint; assumption.
  - rewrite rhs_elsewhere.
    + rewrite Hstay. simpl. apply IH; assumption.
    + destruct Hwhich as [[-> ->] | [-> ->]]; assumption.
    + destruct Hwhich as [[-> ->] | [-> ->]]; assumption.
Qed.

(** When origin and destination are distinct and each names exactly
    one node, the right-hand sides add up to zero. *)
Lemma demands_cancel (l : list string) :
  finite_number dem = true ->
  count_occ string_dec l o = 1%nat -> count_occ string_dec l d = 1%nat ->
  exists t, PyNum.sum (map rhs l) = Ok t /\ PyNum.is_zero t = true.
Proof.
  intros Hfin.
  destruct (cancel_facts dem Hfin) as (a1 & a2 & H1 & H2 & S1 & S2 & Z1 & Z2).
  unfold PyNum.sum.
  induction l as [|x l IH]; cbn [map PyNum.sum_from count_occ]; intros Ho Hd;
    [discriminate|].
  destruct (string_dec x o) as [->|Hxo].
  - destruct (string_dec o d) as [|_]; [contradiction|].
    injection Ho as Ho. rewrite rhs_origin, H1. cbn [bind].
    destruct (sum_one_endpoint a1 dem d o l) as (t & Ht & Hz); auto.
    + rewrite rhs_destination. exact Z1.
    + exists t; split; [exact Ht | apply zeroish_is_zero; exact Hz].
  - destruct (string_dec x d) as [->|Hxd].
    + injection Hd as Hd. rewrite rhs_destination, H2. cbn [bind].
      destruct (sum_one_endpoint a2 dem o d l) as (t & Ht & Hz); auto.
      * rewrite rhs_origin. exact Z2.
      * exists t; split; [exact Ht | apply zeroish_is_zero; exact Hz].
    + rewrite rhs_elsewhere by assumption. simpl. apply IH; assumption.
Qed.

End Cancel.

(** ** The claims about the model builder *)

Section BuilderClaims.

Context {lib : ExprLib}.

Lemma generate_vars_constraints (s : SOSolver) :
  m_constraints (model (_generate_vars s)) = m_constraints (model s).
Proof.
  unfold _generate_vars.
  apply fold_left_preserves
    with (R := fun s s' => m_constraints (model s') = m_constraints (model s)).
  - reflexivity.
  - intros s1 s2 s3 H1 H2; congruence.
  - intros s0 e. unfold generate_vars_edge, new_var, continuous_var; simpl.
    match goal with
    | |- context [fold_left ?f ?ks ?s1] =>
        transitivity (m_constraints (model s1)); [|reflexivity];
        apply (fold_left_preserves
                 (fun s s' => m_constraints (model s') = m_constraints (model s)) f)
    end.
    + reflexivity.
    + intros s1 s2 s3 H1 H2; congruence.
    + intros s1 k. reflexivity.
Qed.

(** X19.  When the Cost Linearizer returns a finite slope and a finite
    intercept for every edge, the cost step of the builder succeeds and
    adds, after the constraints already present, exactly one constraint
    per edge, in the order of the edges: for edge [e] with linearizer
    result (m, n) the constraint [m*l_e^2 + l_e*n <= phi_e], where [l_e]
    and [phi_e] are the variables stored under [e.name].  In the
    assembled model these are exactly the constraints with relation
    [<=]. *)
Theorem cost_epigraph_per_edge :
  forall (s : SOSolver) (mns : list (pynum * pynum)),
    mapM (_get_cost_function_parameters (store s)) (edges s) = Ok mns ->
    forallb finite_parameters mns = true ->
    exists s1 s2 cts,
      s1 = _generate_objective_function (_generate_vars s) /\
      _generate_cost_constraint s1 = Ok s2 /\
      m_constraints (model s2) = (m_constraints (model s) ++ cts)%list /\
      Forall2 (epigraph_of s1) (edges s) cts /\
      forall sf, build s = Ok sf ->
        filter is_epigraph (m_constraints (model sf)) =
        (filter is_epigraph (m_constraints (model s)) ++ cts)%list.
Proof.
  intros s mns Hlin Hfin.
  set (s1 := _generate_objective_function (_generate_vars s)).
  destruct (same_env_generate_vars s) as (_ & He & _ & _ & _ & _ & Hst & _).
  assert (He1 : edges s1 = edges s) by exact He.
  assert (Hst1 : store s1 = store s) by exact Hst.
  assert (Hc1 : m_constraints (model s1) = m_constraints (model s))
    by apply generate_vars_constraints.
  pose proof (generate_vars_ready s) as Hready.
  destruct (cost_constraints_added (edges s1) s1 mns) as (s2 & cts & Hfold & Hom & Hcts & Hall).
  { intros e He'. destruct (Hready e) as (Hphi & Hl & _); [exact He'|]. auto. }
  { rewrite Hst1, He1. exact Hlin. }
  { exact Hfin. }
  exists s1, s2, cts. split; [reflexivity|].
  split; [exact Hfold|].
  split; [rewrite Hcts, Hc1; reflexivity|].
  split; [rewrite <- He1; exact Hall|].
  intros sf Hb. unfold build in Hb. fold s1 in Hb.
  unfold _generate_cost_constraint in Hb. rewrite Hfold in Hb. simpl in Hb.
  apply bind_Ok in Hb. destruct Hb as (s3 & H3 & Hb).
  apply bind_Ok in Hb. destruct Hb as (s4 & H4 & Hb).
  apply total_flow_adds in H3. apply flow_conservation_adds in H4.
  apply domain_adds in Hb.
  destruct H3 as (x3 & E3 & F3). destruct H4 as (x4 & E4 & F4).
  destruct Hb as (x5 & E5 & F5).
  rewrite E5, E4, E3, Hcts, Hc1. rewrite !filter_app.
  rewrite (filter_none is_epigraph x3), (filter_none is_epigraph x4),
          (filter_none is_epigraph x5).
  - rewrite !app_nil_r. f_equal. apply filter_all.
    clear - Hall. induction Hall as [|e ct es cts' (m & n & l & phi & _ & _ & _ & ->) _ IH];
      constructor; auto.
  - revert F5; apply Forall_impl; intros ct [H _]; exact H.
  - revert F4; apply Forall_impl; intros ct [H _]; exact H.
  - revert F3; apply Forall_impl; intros ct [H _]; exact H.
Qed.

(** X20.  On a solver whose variables have just been generated, whose
    edges contain no self-loop, whose every node has an edge starting
    or ending at it, whose edges of the same name have the same end
    points, whose demands are finite and whose OD keys split on [|]
    into at least an origin and a destination, the flow-conservation
    step succeeds and adds, after the constraints already present,
    exactly one equality constraint for every OD key [k] and every node
    [n], keys outermost, labelled [n.name + k]: its left side is the sum
    of [x_{e,k}] over the edges ending at [n] minus the sum over the
    edges starting at [n], its right side is minus the demand of [k] at
    the origin, otherwise the demand at the destination, otherwise 0.
    For a key whose origin and destination differ and each name exactly
    one node these right sides add up to zero. *)
Theorem flow_conservation_per_node_and_pair :
  forall s0 s : SOSolver,
    s = _generate_vars s0 ->
    forallb (fun e => negb (is_self_loop e)) (edges s) = true ->
    forallb (fun n => touched (n_name n) (edges s)) (nodes s) = true ->
    names_tell_arcs (edges s) = true ->
    forallb PyNum.is_finite (Dict.values (od_matrix s)) = true ->
    (forall k, In k (Dict.keys (od_matrix s)) ->
               exists o d rest, PyStr.split "|" k = o :: d :: rest) ->
    exists s' rows,
      _generate_flow_conservation_constraint s = Ok s' /\
      m_constraints (model s') = (m_constraints (model s) ++ concat rows)%list /\
      Forall2
        (fun k row =>
           Forall2 (conservation_of s k) (nodes s) row /\
           forall o d rest dem,
             PyStr.split "|" k = o :: d :: rest ->
             o <> d ->
             Dict.get (od_matrix s) k = Some dem ->
             count_occ string_dec (map n_name (nodes s)) o = 1%nat ->
             count_occ string_dec (map n_name (nodes s)) d = 1%nat ->
             exists t, PyNum.sum (map rhs_number row) = Ok t /\
                       PyNum.is_zero t = true)
        (Dict.keys (od_matrix s)) rows.
Proof.
  intros s0 s Hs Hloops Htouched _ Hfinite Hwf.
  assert (Hready : vars_ready s) by (subst s; apply generate_vars_ready).
  destruct (flow_conservation_keys_ok s (Dict.keys (od_matrix s)) Hready Hloops
              Htouched)
    with (s := s) as (s' & rows & Hfold & _ & Hcts & Hall).
  - intros k Hk. split; [exact Hk | apply Hwf; exact Hk].
  - apply only_model_refl.
  - exists s', rows. split; [exact Hfold|]. split; [exact Hcts|].
    revert Hall. apply Forall2_impl. intros k row Hrow. split; [exact Hrow|].
    intros o d rest dem Hsplit Hod Hget Ho Hd.
    rewrite (conservation_row_rhs s k o d rest dem (nodes s) row Hsplit Hget Hrow).
    apply demands_cancel; try assumption.
    rewrite forallb_forall in Hfinite.
    assert (Hin : In dem (Dict.values (od_matrix s))).
    { clear - Hget. unfold Dict.values.
      induction (od_matrix s) as [|[k' v'] l IH]; simpl in *; [discriminate|].
      destruct (String.eqb k' k); [injection Hget as ->; left; reflexivity|].
      right; apply IH; exact Hget. }
    specialize (Hfinite dem Hin). destruct dem; exact Hfinite.
Qed.

End BuilderClaims.

(** ** Solving: no solution, and zero total demand *)

Section SolveFacts.

Context {lib : ExprLib}.

(** C10. When every demand of the OD mapping is zero (in particular
    when the mapping is empty), the solver can be constructed with a
    zero [sum_flows], and whenever the model is assembled and the
    backend returns a solution, [solve] raises [ZeroDivisionError]
    instead of producing a System-Optimal value. *)
Theorem zero_demand_solve_raises :
  forall (backend : Model -> option Solution) (nodes_ : list Node)
         (edges_ : list Edge) (od : Dict.t pynum) (name_ : string)
         (h : Store.t),
    Forall (fun v => PyNum.is_zero v = true) (Dict.values od) ->
    (exists s, SOSolver_init nodes_ edges_ od name_ h = Ok s /\
               PyNum.is_zero (sum_flows s) = true) /\
    forall (s s' : SOSolver) (solution : Solution)
           (verbose generate_lp : bool),
      SOSolver_init nodes_ edges_ od name_ h = Ok s ->
      build s = Ok s' ->
      backend (model s') = Some solution ->
      solve backend verbose generate_lp s = Raise ZeroDivisionError.
Proof.
  intros backend nodes_ edges_ od name_ h Hz.
  destruct (SOSolver_init_zero nodes_ edges_ od name_ h Hz) as (s0 & Hs0 & Hzero).
  split; [exists s0; auto|].
  intros s s' solution verbose generate_lp Hs Hb Hsol.
  assert (s = s0) by congruence. subst s0.
  unfold solve. rewrite Hb; simpl. rewrite Hsol.
  destruct (same_env_build s s' Hb) as (_ & _ & _ & _ & _ & Hsum & _).
  unfold PyNum.truediv. rewrite Hsum, Hzero. reflexivity.
Qed.

(** C6, as the code has it.  When the model is assembled and the
    backend returns no solution, [solve] returns normally: it prints
    the message [Error calculating System Optimum!] and leaves
    [system_optimum] as it was, so that on a freshly constructed solver
    [get_system_optimum] returns the initial value [-1]. *)
Theorem no_solution_keeps_initial_optimum :
  forall (backend : Model -> option Solution) (nodes_ : list Node)
         (edges_ : list Edge) (od : Dict.t pynum) (name_ : string)
         (h : Store.t) (s s' : SOSolver) (verbose generate_lp : bool),
    SOSolver_init nodes_ edges_ od name_ h = Ok s ->
    build s = Ok s' ->
    backend (model s') = None ->
    exists s'',
      solve backend verbose generate_lp s = Ok s'' /\
      out s'' = [Print "Error calculating System Optimum!"] /\
      get_system_optimum s'' = get_system_optimum s /\
      get_system_optimum s'' = PyInt (-1).
Proof.
  intros backend nodes_ edges_ od name_ h s s' verbose generate_lp Hs Hb Hnone.
  exists (emit s' [Print "Error calculating System Optimum!"]).
  destruct (same_env_build s s' Hb) as (_ & _ & _ & _ & Hopt & _ & _ & Hout).
  unfold SOSolver_init in Hs. bind_inv Hs. bind_inv Hs. injection Hs as <-.
  unfold solve. rewrite Hb; simpl. rewrite Hnone.
  split; [reflexivity|]. simpl in *. rewrite Hout, Hopt. auto.
Qed.

End SolveFacts.

(** ** The claims on concrete networks *)

Lemma zero_demand_solve_raises_witness :
  exists s,
    Examples.solver_of Examples.net_no_demand "nets/two.net" = Ok s /\
    solve Examples.backend_zero true false s = Raise ZeroDivisionError.
Proof.
  destruct (zero_demand_solve_raises (lib := RefLib.lib) Examples.backend_zero
              [Node_init "A"; Node_init "B"] []
              [("A|B", PyFloat PyFloat.zero)] "nets/two.net" [])
    as [_ H].
  - repeat constructor.
  - eexists; split; [reflexivity|].
    eapply H; reflexivity.
Defined.

Lemma many_parameters_abort_witness :
  generateGraph (lib := RefLib.lib) Examples.net_two_params_second
                (PyFloat PyFloat.zero)
  = Raise (ExcManyParameters ["a"; "b"]).
Proof.
  destruct (many_parameters_abort (lib := RefLib.lib) (PyFloat PyFloat.zero)
              ["node A"] "function fb (a,b) b+f # other" ["node B"]
              "fb" "(a,b)" ["b+f"]) as (e & He & Hwhich).
  - reflexivity.
  - simpl. lia.
  - rewrite (Hwhich _ eq_refl) in He. exact He.
Defined.

(** C8 as stated fails: the two files below break the rule on line 1
    and on line 2, with different texts, and raise the same exception;
    it says which parameters were declared, not where. *)
Lemma many_parameters_error_has_no_line :
  generateGraph (lib := RefLib.lib) Examples.net_two_params_first
                (PyFloat PyFloat.zero)
  = Raise (ExcManyParameters ["a"; "b"]) /\
  generateGraph (lib := RefLib.lib) Examples.net_two_params_second
                (PyFloat PyFloat.zero)
  = Raise (ExcManyParameters ["a"; "b"]).
Proof. split; reflexivity. Qed.

Lemma undeclared_function_fails_witness :
  generateGraph (lib := RefLib.lib) Examples.net_late_function
                (PyFloat PyFloat.zero)
  = Raise (KeyError "fn").
Proof.
  destruct (undeclared_function_fails (lib := RefLib.lib) (PyFloat PyFloat.zero)
              ["node A"; "node B"] "dedge AB A B fn" ["function fn (f) 2*f+1"]
              "dedge" "AB" "A" "B" "fn" []) as (e & He & Hwhich).
  - reflexivity.
  - left; reflexivity.
  - reflexivity.
  - rewrite (Hwhich _ eq_refl) in He. exact He.
Defined.

(** C9 as stated fails for node names: the edge below runs between two
    nodes that no line declares, and the file parses, with no node and
    one edge. *)
Lemma undeclared_nodes_are_accepted :
  exists e h,
    generateGraph (lib := RefLib.lib) Examples.net_undeclared_nodes
                  (PyFloat PyFloat.zero)
    = Ok ([], [e], [], h) /\
    e_start e = "A" /\ e_end e = "B".
Proof. eexists; eexists; split; [reflexivity|]. split; reflexivity. Qed.

Lemma od_mapping_keyed_by_name_witness :
  exists OD_,
    generateGraph (lib := RefLib.lib) Examples.net_od_names
                  (PyFloat PyFloat.zero)
    = Ok ([], [], OD_, []) /\
    Dict.get OD_ "trip" = Some (PyFloat Examples.five).
Proof.
  exists [("trip", PyFloat Examples.five)]. split; [reflexivity|].
  destruct (od_mapping_keyed_by_name (lib := RefLib.lib) (PyFloat PyFloat.zero)
              Examples.net_od_names [] [] [("trip", PyFloat Examples.five)] []
              eq_refl) as [H1 _].
  destruct (H1 [] "od trip A B 5" ["od loop C C 7"] "trip" "A" "B" "5" []
              eq_refl eq_refl) as [_ H2].
  - discriminate.
  - destruct H2 as (x & Hx & Hget).
    + repeat constructor. discriminate.
    + vm_compute in Hx. injection Hx as <-. exact Hget.
Defined.

(** C3 as stated fails: the line [od trip A B 5] leaves an entry under
    its name [trip] and none under ["A|B"]. *)
Lemma od_key_is_the_name_token :
  exists OD_,
    generateGraph (lib := RefLib.lib) Examples.net_od_names
                  (PyFloat PyFloat.zero)
    = Ok ([], [], OD_, []) /\
    Dict.keys OD_ = ["trip"] /\
    Dict.get OD_ "A|B" = None.
Proof. eexists; split; [reflexivity|]. split; reflexivity. Qed.

Lemma edge_line_shares_parameters_witness :
  exists V_ e1 e2 OD_ h,
    generateGraph (lib := RefLib.lib) Examples.net_undirected
                  (PyFloat PyFloat.zero)
    = Ok (V_, [e1; e2], OD_, h) /\
    e_params e1 = e_params e2 /\
    forall v e1' h',
      update_cost (set_flow e1 v) h = Ok (e1', h') ->
      Dict.get (Store.read h' (e_params e2)) (e_var e2) = Some v.
Proof.
  edestruct (edge_line_shares_parameters (lib := RefLib.lib)
               (PyFloat PyFloat.zero) 4 "edge AB A B fn"
               Examples.st_two_nodes)
    as (e1 & e2 & HE & _ & _ & _ & _ & _ & Hp & Hshare).
  - reflexivity.
  - reflexivity.
  - simpl in HE. injection HE as <- <-.
    do 5 eexists. split; [reflexivity|]. split; [exact Hp | exact Hshare].
Defined.

(** C5 as stated fails: after the [edge] line the two edges hold the
    same dictionary, and setting the flow of the first to 5.0 and
    updating its cost changes the entry the second one reads, from 0
    to 5.0. *)
Lemma edge_line_parameters_are_aliased :
  exists V_ e1 e2 OD_ h e1' h',
    generateGraph (lib := RefLib.lib) Examples.net_undirected
                  (PyFloat PyFloat.zero)
    = Ok (V_, [e1; e2], OD_, h) /\
    update_cost (set_flow e1 (PyFloat Examples.five)) h = Ok (e1', h') /\
    Dict.get (Store.read h (e_params e2)) (e_var e2) = Some (PyInt 0) /\
    Dict.get (Store.read h' (e_params e2)) (e_var e2)
    = Some (PyFloat Examples.five).
Proof.
  do 7 eexists. split; [reflexivity|]. split; [reflexivity|].
  split; reflexivity.
Qed.

Lemma constant_literal_parameters_witness :
  exists V_ e OD_ h,
    generateGraph (lib := RefLib.lib) Examples.net_constant
                  (PyFloat PyFloat.zero)
    = Ok (V_, [e], OD_, h) /\
    _get_cost_function_parameters h e = Ok (PyInt 0, PyFloat Examples.five).
Proof.
  do 4 eexists. split; [reflexivity|].
  apply (constant_literal_parameters (lib := RefLib.lib)) with (f := "5.0").
  - reflexivity.
  - reflexivity.
  - reflexivity.
Defined.

(** C7 as stated fails: the cost function [a+b] with a = 2 and b = 3 is
    rendered as [(2.0+3.0)], which does not contain the flow parameter;
    the linearizer does not return (0, 5.0), it raises [ValueError]. *)
Lemma constant_sum_is_not_evaluated :
  exists V_ e OD_ h,
    generateGraph (lib := RefLib.lib) Examples.net_constant_sum
                  (PyFloat PyFloat.zero)
    = Ok (V_, [e], OD_, h) /\
    render h e = Ok "(2.0+3.0)" /\
    PyStr.find (e_var e) "(2.0+3.0)" = -1 /\
    cost_parameters_of_text (e_var e) "(2.0+3.0)" = Raise ValueError /\
    _get_cost_function_parameters h e = Raise ValueError.
Proof.
  do 4 eexists. split; [reflexivity|].
  split; [reflexivity|]. split; [reflexivity|]. split; reflexivity.
Qed.

(** C1: the code at the failing input.  The cost function [m*f+n] with
    m = 1e20 and n = 3 is rendered as [((1e+20*f)+3.0)]; the text splits
    on [+] into three pieces and the linearizer raises [ValueError]
    instead of returning (1e20, 3.0). *)
Theorem exponent_sign_breaks_linearizer :
  exists V_ e OD_ h,
    generateGraph (lib := RefLib.lib) Examples.net_large_slope
                  (PyFloat PyFloat.zero)
    = Ok (V_, [e], OD_, h) /\
    render h e = Ok "((1e+20*f)+3.0)" /\
    PyStr.split "+" "1e+20*f+3.0" = ["1e"; "20*f"; "3.0"] /\
    cost_parameters_of_text "f" "((1e+20*f)+3.0)" = Raise ValueError /\
    _get_cost_function_parameters h e = Raise ValueError.
Proof.
  do 4 eexists. split; [reflexivity|].
  split; [reflexivity|]. split; [reflexivity|]. split; reflexivity.
Qed.

Lemma cost_epigraph_per_edge_witness :
  exists s2 cts,
    _generate_cost_constraint
      (_generate_objective_function
         (_generate_vars (Examples.the_solver Examples.net_affine))) = Ok s2 /\
    m_constraints (model s2) = cts /\
    List.length cts = 1%nat.
Proof.
  destruct (cost_epigraph_per_edge (lib := RefLib.lib)
              (Examples.the_solver Examples.net_affine)
              [(PyFloat Examples.two, PyFloat PyFloat.one)] eq_refl eq_refl)
    as (s1 & s2 & cts & -> & Hcost & Hcts & Hall & _).
  exists s2, cts. split; [exact Hcost|]. split; [exact Hcts|].
  apply Forall2_length in Hall. rewrite <- Hall. reflexivity.
Defined.

(** * Further properties of the program *)

(** ** The store *)

Lemma Dict_set_set {A : Type} (d : Dict.t A) (k : string) (a b : A) :
  Dict.set (Dict.set d k a) k b = Dict.set d k b.
Proof.
  induction d as [|[k' v'] d IH]; simpl.
  - rewrite String.eqb_refl; reflexivity.
  - destruct (String.eqb k' k) eqn:Hk; simpl; rewrite Hk; [reflexivity|].
    f_equal; exact IH.
Qed.

Lemma Store_write_write (h : Store.t) (l : Store.loc) (d1 d2 : Dict.t pynum) :
  Store.write (Store.write h l d1) l d2 = Store.write h l d2.
Proof.
  revert l; induction h as [|d0 h IH]; intros l; simpl; [destruct l; reflexivity|].
  destruct l as [|l]; simpl; [reflexivity|]. f_equal; apply IH.
Qed.

Lemma Store_write_outside (h : Store.t) (l : Store.loc) (d : Dict.t pynum) :
  (List.length h <= l)%nat -> Store.write h l d = h.
Proof.
  revert l; induction h as [|d0 h IH]; intros l Hl; simpl; [destruct l; reflexivity|].
  destruct l as [|l]; simpl in *; [lia|]. f_equal; apply IH; lia.
Qed.

Lemma Store_read_write_other (h : Store.t) (l l' : Store.loc) (d : Dict.t pynum) :
  l <> l' -> Store.read (Store.write h l d) l' = Store.read h l'.
Proof.
  unfold Store.read.
  revert l l'; induction h as [|d0 h IH]; intros l l' Hne; simpl; [destruct l; reflexivity|].
  destruct l as [|l]; destruct l' as [|l']; simpl; try reflexivity; try congruence.
  apply IH; congruence.
Qed.

Lemma Store_read_app (h : Store.t) (d : Dict.t pynum) (l : Store.loc) :
  (l < List.length h)%nat -> Store.read (h ++ [d])%list l = Store.read h l.
Proof. intros Hl. unfold Store.read. apply app_nth1; assumption. Qed.

Lemma Store_setitem_end (h : Store.t) (d : Dict.t pynum) (k : string) (v : pynum) :
  Store.setitem (h ++ [d])%list (List.length h) k v = (h ++ [Dict.set d k v])%list.
Proof.
  unfold Store.setitem, Store.read. rewrite nth_middle.
  induction h as [|d0 h IH]; simpl; [reflexivity|]. f_equal; exact IH.
Qed.

(** Assigning twice to one entry leaves what the second assignment alone
    leaves. *)
Lemma Store_setitem_setitem (h : Store.t) (l : Store.loc) (k : string)
    (a b : pynum) :
  Store.setitem (Store.setitem h l k a) l k b = Store.setitem h l k b.
Proof.
  destruct (Nat.lt_ge_cases l (List.length h)) as [Hl|Hl].
  - unfold Store.setitem. rewrite Store_read_write by assumption.
    rewrite Store_write_write, Dict_set_set. reflexivity.
  - unfold Store.setitem at 2. rewrite Store_write_outside by assumption.
    reflexivity.
Qed.

(** ** The network parser, line by line *)

Section ParserShape.

Context {lib : ExprLib}.

Lemma Store_read_end (h : Store.t) (d : Dict.t pynum) :
  Store.read (h ++ [d])%list (List.length h) = d.
Proof. unfold Store.read. apply nth_middle. Qed.

(** [Edge(...)] writes flow 0 under the function's parameter and
    evaluates the cost there. *)
Lemma Edge_init_eq (a b : string) (fn : CostFunction) (l : Store.loc)
    (h : Store.t) :
  Edge_init a b fn l (cf_param fn) h =
  (c <- evaluate (cf_expr fn)
          (Store.read (Store.setitem h l (cf_param fn) (PyInt 0)) l) ;;
   Ok (edge_at a b fn l c, Store.setitem h l (cf_param fn) (PyInt 0))).
Proof. reflexivity. Qed.

(** The [dedge]/[edge] branch, with the writes to the new dictionary
    carried out: the value of [flow] is overwritten before it is read. *)
Lemma do_edge_eq (flow : pynum) (taglist : list string) (st : pstate) :
  do_edge flow taglist st =
  (t4 <- index taglist 4 ;;
   function <- Dict.getitem (F st) t4 ;;
   pairs <- zip_float (cf_constants function) (skipn 5 taglist) ;;
   let d := Dict.set (Dict.of_pairs pairs) (cf_param function) (PyInt 0) in
   let l := List.length (heap st) in
   t2 <- index taglist 2 ;;
   t3 <- index taglist 3 ;;
   c <- evaluate (cf_expr function) d ;;
   t0 <- index taglist 0 ;;
   Ok {| V := V st;
         E := (E st ++ edge_at t2 t3 function l c ::
                 (if String.eqb t0 "edge"
                  then [edge_at t3 t2 function l c] else []))%list;
         F := F st; OD := OD st; heap := (heap st ++ [d])%list |}).
Proof.
  unfold do_edge.
  destruct (index taglist 4) as [t4|]; [|reflexivity]. cbn [bind].
  destruct (Dict.getitem (F st) t4) as [fn|]; [|reflexivity]. cbn [bind].
  destruct (zip_float (cf_constants fn) (skipn 5 taglist)) as [pairs|];
    [|reflexivity]. cbn [bind].
  unfold Store.alloc. cbv zeta.
  destruct (index taglist 2) as [t2|]; [|reflexivity]. cbn [bind].
  destruct (index taglist 3) as [t3|]; [|reflexivity]. cbn [bind].
  rewrite !Edge_init_eq.
  rewrite !Store_setitem_end, !Dict_set_set, Store_read_end.
  destruct (evaluate (cf_expr fn) _) as [c|] eqn:Hc; [|reflexivity]. cbn [bind].
  destruct (index taglist 0) as [t0|]; [|reflexivity]. cbn [bind].
  destruct (String.eqb t0 "edge"); [|reflexivity].
  rewrite Edge_init_eq.
  rewrite !Store_setitem_end, !Dict_set_set, Store_read_end, Hc.
  reflexivity.
Qed.

Lemma process_line_flow (f1 f2 : pynum) (lineid : nat) (raw : string)
    (st : pstate) :
  process_line f1 lineid raw st = process_line f2 lineid raw st.
Proof.
  unfold process_line.
  destruct (PyStr.split_ws (clean_line raw)) as [|t0 tl]; [reflexivity|].
  destruct (String.eqb t0 "function"); [reflexivity|].
  destruct (String.eqb t0 "node"); [reflexivity|].
  destruct (String.eqb t0 "dedge" || String.eqb t0 "edge"); [|reflexivity].
  rewrite !do_edge_eq. reflexivity.
Qed.

Lemma parse_lines_flow (f1 f2 : pynum) (lines : list string) (k : nat)
    (st : pstate) :
  parse_lines f1 k lines st = parse_lines f2 k lines st.
Proof.
  revert k st; induction lines as [|raw lines IH]; intros k st; simpl; [reflexivity|].
  rewrite (process_line_flow f1 f2).
  destruct (process_line f2 (S k) raw st); simpl; auto.
Qed.

(** The line number matters to the error message only. *)
Lemma process_line_lineid (flow : pynum) (k k' : nat) (raw : string)
    (st st' : pstate) :
  process_line flow k raw st = Ok st' -> process_line flow k' raw st = Ok st'.
Proof.
  unfold process_line.
  destruct (PyStr.split_ws (clean_line raw)) as [|t0 tl]; [auto|].
  destruct (String.eqb t0 "function"); [auto|].
  destruct (String.eqb t0 "node"); [auto|].
  destruct (String.eqb t0 "dedge" || String.eqb t0 "edge"); [auto|].
  destruct (String.eqb t0 "od"); [auto|discriminate].
Qed.

Lemma parse_lines_lineid (flow : pynum) (lines : list string) (k k' : nat)
    (st st' : pstate) :
  parse_lines flow k lines st = Ok st' -> parse_lines flow k' lines st = Ok st'.
Proof.
  revert k k' st; induction lines as [|raw lines IH]; intros k k' st H; simpl in *.
  - exact H.
  - apply bind_Ok in H. destruct H as (st1 & H1 & H).
    rewrite (process_line_lineid flow (S k) (S k') raw st st1 H1). simpl.
    eapply IH; exact H.
Qed.

(** What a line that parses appends to [V] and to [E]. *)
Lemma process_line_V (flow : pynum) (lineid : nat) (raw : string)
    (st st' : pstate) :
  process_line flow lineid raw st = Ok st' ->
  V st' = (V st ++ map Node_init (node_of_line raw))%list.
Proof.
  unfold process_line, node_of_line; intros H.
  destruct (PyStr.split_ws (clean_line raw)) as [|t0 tl] eqn:Htag.
  - injection H as <-. rewrite app_nil_r; reflexivity.
  - destruct (String.eqb t0 "function") eqn:T0.
    { apply String.eqb_eq in T0; subst t0.
      unfold do_function in H. bind_inv H.
      destruct (1 <? _)%nat; [discriminate|].
      bind_inv H. bind_inv H. bind_inv H. bind_inv H. injection H as <-. simpl.
      destruct tl; rewrite app_nil_r; reflexivity. }
    destruct (String.eqb t0 "node") eqn:T1.
    { unfold do_node in H. bind_inv H. injection H as <-. simpl.
      destruct tl as [|t1 tl]; [discriminate|]. simpl in Ha.
      injection Ha as <-. reflexivity. }
    destruct (String.eqb t0 "dedge" || String.eqb t0 "edge") eqn:T2.
    { rewrite do_edge_eq in H.
      bind_inv H. bind_inv H. bind_inv H. cbv zeta in H.
      bind_inv H. bind_inv H. bind_inv H. bind_inv H. injection H as <-. simpl.
      destruct tl; rewrite app_nil_r; reflexivity. }
    destruct (String.eqb t0 "od") eqn:T3; [|discriminate].
    unfold do_od in H. bind_inv H. bind_inv H.
    assert (HV : V st' = V st).
    { destruct (negb (String.eqb a a0)).
      - bind_inv H. bind_inv H. bind_inv H. injection H as <-. reflexivity.
      - injection H as <-. reflexivity. }
    rewrite HV. destruct tl; rewrite app_nil_r; reflexivity.
Qed.

Lemma edge_ok_app (h ds : Store.t) (e : Edge) :
  edge_ok h e -> edge_ok (h ++ ds)%list e.
Proof.
  unfold edge_ok, Store.read.
  intros (H1 & H2 & H3 & H4 & H5 & H6 & H7).
  rewrite app_nth1 by assumption. rewrite length_app.
  repeat (split; [assumption|]). split; [lia|]. split; assumption.
Qed.

Lemma edge_at_ok (h : Store.t) (d : Dict.t pynum) (a b : string)
    (fn : CostFunction) (c : pynum) :
  Dict.get d (cf_param fn) = Some (PyInt 0) ->
  evaluate (cf_expr fn) d = Ok c ->
  edge_ok (h ++ [d])%list (edge_at a b fn (List.length h) c).
Proof.
  intros Hd Hc. unfold edge_ok. simpl. rewrite Store_read_end, length_app. simpl.
  repeat (split; [reflexivity|]). split; [lia|]. split; assumption.
Qed.

Lemma process_line_E (flow : pynum) (lineid : nat) (raw : string)
    (st st' : pstate) :
  process_line flow lineid raw st = Ok st' ->
  exists new ds,
    E st' = (E st ++ new)%list /\ heap st' = (heap st ++ ds)%list /\
    map arc new = arcs_of_line raw /\
    Forall (edge_ok (heap st')) new.
Proof.
  unfold process_line, arcs_of_line; intros H.
  destruct (PyStr.split_ws (clean_line raw)) as [|t0 tl] eqn:Htag.
  - injection H as <-. exists [], []. rewrite !app_nil_r. auto.
  - destruct (String.eqb t0 "function") eqn:T0.
    { apply String.eqb_eq in T0; subst t0.
      unfold do_function in H. bind_inv H.
      destruct (1 <? _)%nat; [discriminate|].
      bind_inv H. bind_inv H. bind_inv H. bind_inv H. injection H as <-. simpl.
      exists [], []. rewrite !app_nil_r.
      destruct tl as [|? [|? [|? ?]]]; auto. }
    destruct (String.eqb t0 "node") eqn:T1.
    { apply String.eqb_eq in T1; subst t0.
      unfold do_node in H. bind_inv H. injection H as <-. simpl.
      exists [], []. rewrite !app_nil_r.
      destruct tl as [|? [|? [|? ?]]]; auto. }
    destruct (String.eqb t0 "dedge" || String.eqb t0 "edge") eqn:T2.
    { rewrite do_edge_eq in H.
      bind_inv H. rename a into t4. bind_inv H. rename a into fn.
      bind_inv H. rename a into pairs. cbv zeta in H.
      bind_inv H. rename a into t2, Ha2 into H2.
      bind_inv H. rename a into t3, Ha2 into H3.
      bind_inv H. rename a into c, Ha2 into Hc.
      bind_inv H. rename a into t0', Ha2 into H0.
      injection H as <-. simpl.
      simpl in H0. injection H0 as <-.
      destruct tl as [|t1 [|a [|b tl]]]; try discriminate.
      simpl in H2, H3. injection H2 as <-. injection H3 as <-.
      eexists; eexists. split; [reflexivity|]. split; [reflexivity|].
      assert (Hd : Dict.get (Dict.set (Dict.of_pairs pairs) (cf_param fn) (PyInt 0))
                            (cf_param fn) = Some (PyInt 0))
        by apply Dict_get_set_eq.
      destruct (String.eqb t0 "dedge") eqn:Td.
      - apply String.eqb_eq in Td; subst t0. simpl.
        split; [reflexivity|].
        repeat (apply Forall_cons; [apply edge_at_ok; assumption|]); apply Forall_nil.
      - simpl in T2. rewrite T2. simpl.
        split; [reflexivity|].
        repeat (apply Forall_cons; [apply edge_at_ok; assumption|]); apply Forall_nil. }
    destruct (String.eqb t0 "od") eqn:T3; [|discriminate].
    apply orb_false_elim in T2. destruct T2 as [Td Te].
    unfold do_od in H. bind_inv H. bind_inv H.
    assert (HE : E st' = E st /\ heap st' = heap st).
    { destruct (negb (String.eqb a a0)).
      - bind_inv H. bind_inv H. bind_inv H. injection H as <-. auto.
      - injection H as <-. auto. }
    destruct HE as [HE Hh]. rewrite HE, Hh, Td, Te.
    exists [], []. rewrite !app_nil_r.
    destruct tl as [|? [|? [|? ?]]]; auto.
Qed.

Lemma parse_lines_E (flow : pynum) (lines : list string) (k : nat)
    (st st' : pstate) :
  parse_lines flow k lines st = Ok st' ->
  exists new ds,
    E st' = (E st ++ new)%list /\ heap st' = (heap st ++ ds)%list /\
    map arc new = flat_map arcs_of_line lines /\
    Forall (edge_ok (heap st')) new.
Proof.
  revert k st; induction lines as [|raw lines IH]; intros k st H; simpl in *.
  - injection H as <-. exists [], []. rewrite !app_nil_r. auto.
  - apply bind_Ok in H. destruct H as (st1 & H1 & H).
    apply process_line_E in H1. destruct H1 as (n1 & d1 & HE1 & Hh1 & Ha1 & Hok1).
    apply IH in H. destruct H as (n2 & d2 & HE2 & Hh2 & Ha2 & Hok2).
    exists (n1 ++ n2)%list, (d1 ++ d2)%list.
    split; [rewrite HE2, HE1, <- app_assoc; reflexivity|].
    split; [rewrite Hh2, Hh1, <- app_assoc; reflexivity|].
    split; [rewrite map_app, Ha1, Ha2; reflexivity|].
    apply Forall_app; split; [|exact Hok2].
    revert Hok1; apply Forall_impl; intros e He.
    rewrite Hh2. apply edge_ok_app; exact He.
Qed.

Lemma parse_lines_V (flow : pynum) (lines : list string) (k : nat)
    (st st' : pstate) :
  parse_lines flow k lines st = Ok st' ->
  V st' = (V st ++ map Node_init (flat_map node_of_line lines))%list.
Proof.
  revert k st; induction lines as [|raw lines IH]; intros k st H; simpl in *.
  - injection H as <-. rewrite app_nil_r; reflexivity.
  - apply bind_Ok in H. destruct H as (st1 & H1 & H).
    rewrite (IH _ _ H), (process_line_V _ _ _ _ _ H1), map_app, app_assoc.
    reflexivity.
Qed.

End ParserShape.

(** ** The network parser: what a file leads to *)

Section ParserProperties.

Context {lib : ExprLib}.

(** X1. The [flow] argument of [generateGraph] has no effect on what is
    returned: the value written under the function's parameter (line
    136) is overwritten with the new edge's flow 0 by [Edge.__init__]
    (lines 57, 61, 67) before anything reads it. *)
Theorem flow_argument_is_overwritten :
  forall (lines : list string) (flow1 flow2 : pynum),
    generateGraph lines flow1 = generateGraph lines flow2.
Proof.
  intros lines flow1 flow2. unfold generateGraph.
  rewrite (parse_lines_flow flow1 flow2). reflexivity.
Qed.

(** X2. A line whose first token is none of [function], [node],
    [dedge], [edge], [od] stops the parse, when the lines before it
    parse, with the exception that carries the line's number (counted
    from 1, blank and comment lines included) and the line's text
    without trailing blanks and comment. *)
Theorem unknown_keyword_reports_line :
  forall (flow : pynum) (pre : list string) (raw : string)
         (post : list string) (t0 : string) (rest : list string)
         (st : pstate),
    parse_lines flow 0 pre pstate_init = Ok st ->
    PyStr.split_ws (clean_line raw) = t0 :: rest ->
    ~ In t0 keywords ->
    generateGraph (pre ++ raw :: post) flow
    = Raise (ExcNotCompliant (S (List.length pre)) (clean_line raw)).
Proof.
  intros flow pre raw post t0 rest st Hpre Htag Hkw.
  unfold generateGraph. rewrite parse_lines_app, Hpre. simpl.
  unfold process_line. rewrite Htag.
  assert (Hne : forall kw, In kw keywords -> String.eqb t0 kw = false).
  { intros kw Hin. apply String.eqb_neq. intros ->. contradiction. }
  rewrite !Hne by (simpl; auto 6). reflexivity.
Qed.

(** X3. A line that holds no token once trailing blanks and the comment
    are removed (an empty line, blanks only, a comment only) changes
    nothing in the graph returned: the file parses with it exactly when
    it parses without it, to the same result. *)
Theorem blank_lines_are_skipped :
  forall (flow : pynum) (pre : list string) (raw : string)
         (post : list string)
         (r : list Node * list Edge * Dict.t pynum * Store.t),
    PyStr.split_ws (clean_line raw) = [] ->
    generateGraph (pre ++ raw :: post) flow = Ok r <->
    generateGraph (pre ++ post) flow = Ok r.
Proof.
  intros flow pre raw post r Htag.
  unfold generateGraph. rewrite !parse_lines_app.
  destruct (parse_lines flow 0 pre pstate_init) as [st|e]; simpl; [|tauto].
  unfold process_line. rewrite Htag. simpl.
  destruct (parse_lines flow (S (List.length pre)) post st) as [st1|e1] eqn:H1.
  - rewrite (parse_lines_lineid _ _ _ (List.length pre) _ _ H1). tauto.
  - destruct (parse_lines flow (List.length pre) post st) as [st2|e2] eqn:H2.
    + rewrite (parse_lines_lineid _ _ _ (S (List.length pre)) _ _ H2) in H1.
      discriminate.
    + simpl. split; discriminate.
Qed.

(** X4. The nodes returned are the names of the [node] lines, in file
    order, one node per line (a name declared twice gives two nodes),
    each with the initial distance 1000000, no predecessor and flag 0. *)
Theorem nodes_in_file_order :
  forall (flow : pynum) (lines : list string) (V_ : list Node)
         (E_ : list Edge) (OD_ : Dict.t pynum) (h : Store.t),
    generateGraph lines flow = Ok (V_, E_, OD_, h) ->
    V_ = map Node_init (flat_map node_of_line lines).
Proof.
  intros flow lines V_ E_ OD_ h H.
  unfold generateGraph in H. apply bind_Ok in H. destruct H as (st & Hst & H).
  injection H as <- _ _ _. apply parse_lines_V in Hst. exact Hst.
Qed.

(** X5. The edges returned follow the [dedge] and [edge] lines in file
    order: a [dedge] line gives the one edge start->end, an [edge] line
    the edge start->end followed by the edge end->start. *)
Theorem edges_in_file_order :
  forall (flow : pynum) (lines : list string) (V_ : list Node)
         (E_ : list Edge) (OD_ : Dict.t pynum) (h : Store.t),
    generateGraph lines flow = Ok (V_, E_, OD_, h) ->
    map arc E_ = flat_map arcs_of_line lines.
Proof.
  intros flow lines V_ E_ OD_ h H.
  unfold generateGraph in H. apply bind_Ok in H. destruct H as (st & Hst & H).
  injection H as _ <- _ _. apply parse_lines_E in Hst.
  destruct Hst as (new & ds & HE & _ & Harc & _). rewrite HE. exact Harc.
Qed.

(** X6. Every edge returned is consistent with the store returned with
    it: it is named [start-end] (what [__repr__] prints), its flow and
    auxiliary flow are 0, its variable is its function's parameter, its
    parameter dictionary exists and holds 0 under that variable, and
    its cost is its cost function evaluated on that dictionary, i.e. at
    flow 0. *)
Theorem edges_consistent_with_store :
  forall (flow : pynum) (lines : list string) (V_ : list Node)
         (E_ : list Edge) (OD_ : Dict.t pynum) (h : Store.t),
    generateGraph lines flow = Ok (V_, E_, OD_, h) ->
    Forall (edge_ok h) E_.
Proof.
  intros flow lines V_ E_ OD_ h H.
  unfold generateGraph in H. apply bind_Ok in H. destruct H as (st & Hst & H).
  injection H as _ <- _ <-. apply parse_lines_E in Hst.
  destruct Hst as (new & ds & HE & _ & _ & Hok). rewrite HE. exact Hok.
Qed.

(** X7. A line that holds a keyword and nothing else stops the parse
    with [IndexError], when the lines before it parse: each branch
    reads a token the line does not have. *)
Theorem keyword_alone_raises_IndexError :
  forall (flow : pynum) (pre : list string) (raw : string)
         (post : list string) (t0 : string) (st : pstate),
    parse_lines flow 0 pre pstate_init = Ok st ->
    PyStr.split_ws (clean_line raw) = [t0] ->
    In t0 keywords ->
    generateGraph (pre ++ raw :: post) flow = Raise IndexError.
Proof.
  intros flow pre raw post t0 st Hpre Htag Hkw.
  unfold generateGraph. rewrite parse_lines_app, Hpre. simpl.
  unfold process_line. rewrite Htag.
  simpl in Hkw.
  destruct Hkw as [<-|[<-|[<-|[<-|[<-|[]]]]]]; reflexivity.
Qed.

End ParserProperties.

Lemma unknown_keyword_reports_line_witness :
  generateGraph (lib := RefLib.lib)
    (["node A"; ""] ++ "arc A B   # not a keyword" :: ["node B"])
    (PyFloat PyFloat.zero)
  = Raise (ExcNotCompliant 3 "arc A B   ").
Proof.
  apply (unknown_keyword_reports_line (lib := RefLib.lib) (PyFloat PyFloat.zero)
           ["node A"; ""] "arc A B   # not a keyword" ["node B"] "arc" ["A"; "B"]
           {| V := [Node_init "A"]; E := []; F := []; OD := []; heap := [] |}).
  - reflexivity.
  - reflexivity.
  - simpl. intros [H|[H|[H|[H|[H|[]]]]]]; discriminate.
Defined.

Lemma blank_lines_are_skipped_witness :
  generateGraph (lib := RefLib.lib)
    (["node A"] ++ "   # nothing here" :: ["node B"]) (PyFloat PyFloat.zero)
  = Ok ([Node_init "A"; Node_init "B"], [], [], []).
Proof.
  apply (blank_lines_are_skipped (lib := RefLib.lib) (PyFloat PyFloat.zero)
           ["node A"] "   # nothing here" ["node B"]).
  - reflexivity.
  - reflexivity.
Defined.

Lemma nodes_in_file_order_witness :
  [Node_init "A"; Node_init "B"]
  = map Node_init (flat_map node_of_line Examples.net_disconnected).
Proof.
  apply (nodes_in_file_order (lib := RefLib.lib) (PyFloat PyFloat.zero)
           Examples.net_disconnected [Node_init "A"; Node_init "B"] []
           [("A|B", PyFloat (S754_finite false 5629499534213120 (-49)))] []).
  reflexivity.
Defined.

Lemma edges_in_file_order_witness :
  map arc [edge_at "A" "B" Examples.fn_2f1 0%nat (PyInt 1);
           edge_at "B" "A" Examples.fn_2f1 0%nat (PyInt 1)]
  = flat_map arcs_of_line Examples.net_undirected.
Proof.
  apply (edges_in_file_order (lib := RefLib.lib) (PyFloat PyFloat.zero)
           Examples.net_undirected [Node_init "A"; Node_init "B"]
           [edge_at "A" "B" Examples.fn_2f1 0%nat (PyInt 1);
            edge_at "B" "A" Examples.fn_2f1 0%nat (PyInt 1)]
           [] [[("f", PyInt 0)]]).
  reflexivity.
Defined.

Lemma edges_consistent_with_store_witness :
  Forall (edge_ok [[("f", PyInt 0)]])
         [edge_at "A" "B" Examples.fn_2f1 0%nat (PyInt 1);
          edge_at "B" "A" Examples.fn_2f1 0%nat (PyInt 1)].
Proof.
  apply (edges_consistent_with_store (lib := RefLib.lib) (PyFloat PyFloat.zero)
           Examples.net_undirected [Node_init "A"; Node_init "B"]
           [edge_at "A" "B" Examples.fn_2f1 0%nat (PyInt 1);
            edge_at "B" "A" Examples.fn_2f1 0%nat (PyInt 1)]
           [] [[("f", PyInt 0)]]).
  reflexivity.
Defined.

Lemma keyword_alone_raises_IndexError_witness :
  generateGraph (lib := RefLib.lib)
    (["node A"] ++ "node  # the name is missing" :: []) (PyFloat PyFloat.zero)
  = Raise IndexError.
Proof.
  apply (keyword_alone_raises_IndexError (lib := RefLib.lib) (PyFloat PyFloat.zero)
           ["node A"] "node  # the name is missing" [] "node"
           {| V := [Node_init "A"]; E := []; F := []; OD := []; heap := [] |}).
  - reflexivity.
  - reflexivity.
  - simpl; auto.
Defined.

(** ** [Edge.update_cost] *)

Section EdgeProperties.

Context {lib : ExprLib}.

(** X8. When [update_cost] returns it has changed the edge's cost
    only, kept the number of dictionaries and left every other
    dictionary as it was; in the edge's own dictionary (when the edge
    points at one) it has assigned the flow to the edge's variable and
    nothing else, and the new cost is the cost function evaluated on
    that dictionary. *)
Theorem update_cost_writes_flow_only :
  forall (e e' : Edge) (h h' : Store.t),
    update_cost e h = Ok (e', h') ->
    e' = set_cost e (e_cost e') /\
    List.length h' = List.length h /\
    (forall l, l <> e_params e -> Store.read h' l = Store.read h l) /\
    evaluate (cf_expr (e_function e)) (Store.read h' (e_params e))
    = Ok (e_cost e') /\
    ((e_params e < List.length h)%nat ->
     Dict.get (Store.read h' (e_params e)) (e_var e) = Some (e_flow e) /\
     forall k, k <> e_var e ->
       Dict.get (Store.read h' (e_params e)) k
       = Dict.get (Store.read h (e_params e)) k).
Proof.
  intros e e' h h' H. unfold update_cost in H.
  apply bind_Ok in H. destruct H as (c & Hc & H). injection H as <- <-.
  split; [reflexivity|]. split; [apply Store_setitem_length|].
  split; [intros l Hl; apply Store_read_write_other; congruence|].
  split; [exact Hc|].
  intros Hlt. split; [apply Store_setitem_get; exact Hlt|].
  intros k Hk. unfold Store.setitem. rewrite Store_read_write by exact Hlt.
  apply Dict_get_set_neq. congruence.
Qed.

End EdgeProperties.

Lemma update_cost_writes_flow_only_witness :
  exists e' h',
    update_cost (lib := RefLib.lib)
      (set_flow (edge_at "A" "B" Examples.fn_2f1 0%nat (PyInt 1)) (PyInt 3))
      [[("f", PyInt 0)]] = Ok (e', h') /\
    e_cost e' = PyInt 7 /\
    Dict.get (Store.read h' 0%nat) "f" = Some (PyInt 3).
Proof.
  exists (set_cost (set_flow (edge_at "A" "B" Examples.fn_2f1 0%nat (PyInt 1))
                             (PyInt 3)) (PyInt 7)),
         [[("f", PyInt 3)]].
  assert (H : update_cost (lib := RefLib.lib)
                (set_flow (edge_at "A" "B" Examples.fn_2f1 0%nat (PyInt 1)) (PyInt 3))
                [[("f", PyInt 0)]]
              = Ok (set_cost (set_flow (edge_at "A" "B" Examples.fn_2f1 0%nat (PyInt 1))
                                       (PyInt 3)) (PyInt 7),
                    [[("f", PyInt 3)]])) by reflexivity.
  split; [exact H|]. split; [reflexivity|].
  destruct (update_cost_writes_flow_only _ _ _ _ H) as (_ & _ & _ & _ & Hw).
  destruct Hw as [Hw _]; [simpl; lia|]. exact Hw.
Defined.

(** ** The variables of the model *)

Section VariableProperties.

Context {lib : ExprLib}.

Lemma generate_x_var_names (e : Edge) (vn : string) (s : SOSolver) (k : string) :
  let s' := generate_x_var e vn s k in
  map var_name (m_vars (model s'))
  = (map var_name (m_vars (model s)) ++ [("x_" ++ vn ++ "_{" ++ k ++ "}")%string])%list /\
  m_constraints (model s') = m_constraints (model s) /\
  m_objective (model s') = m_objective (model s) /\
  od_matrix s' = od_matrix s /\ edges s' = edges s.
Proof.
  unfold generate_x_var, new_var, continuous_var. simpl.
  rewrite map_app. repeat split.
Qed.

Lemma generate_x_vars_names (e : Edge) (vn : string) (ks : list string) :
  forall s,
    let s' := fold_left (generate_x_var e vn) ks s in
    map var_name (m_vars (model s'))
    = (map var_name (m_vars (model s))
         ++ map (fun k => ("x_" ++ vn ++ "_{" ++ k ++ "}")%string) ks)%list /\
    m_constraints (model s') = m_constraints (model s) /\
    m_objective (model s') = m_objective (model s) /\
    od_matrix s' = od_matrix s /\ edges s' = edges s.
Proof.
  induction ks as [|k ks IH]; intros s; simpl.
  - rewrite app_nil_r. repeat split.
  - destruct (IH (generate_x_var e vn s k)) as (H1 & H2 & H3 & H4 & H5).
    destruct (generate_x_var_names e vn s k) as (G1 & G2 & G3 & G4 & G5).
    rewrite H1, H2, H3, H4, H5, G1, G2, G3, G4, G5, <- app_assoc.
    repeat split.
Qed.

Lemma generate_vars_edge_names (s : SOSolver) (e : Edge) :
  let s' := generate_vars_edge s e in
  map var_name (m_vars (model s'))
  = (map var_name (m_vars (model s))
       ++ var_names_of (Dict.keys (od_matrix s)) e)%list /\
  m_constraints (model s') = m_constraints (model s) /\
  m_objective (model s') = m_objective (model s) /\
  od_matrix s' = od_matrix s /\ edges s' = edges s.
Proof.
  unfold generate_vars_edge, var_names_of.
  set (vn := PyStr.replace "-" "" (e_name e)).
  unfold new_var, continuous_var. cbn [fst snd model with_model with_phi_vars
    with_l_vars od_matrix].
  match goal with
  | |- context [fold_left (generate_x_var e vn) ?ks ?s0] =>
      destruct (generate_x_vars_names e vn ks s0) as (H1 & H2 & H3 & H4 & H5)
  end.
  rewrite H1, H2, H3, H4, H5. simpl. rewrite !map_app. simpl.
  rewrite <- !app_assoc. repeat split.
Qed.

Lemma generate_vars_names_from (es : list Edge) :
  forall s,
    let s' := fold_left generate_vars_edge es s in
    map var_name (m_vars (model s'))
    = (map var_name (m_vars (model s))
         ++ flat_map (var_names_of (Dict.keys (od_matrix s))) es)%list /\
    m_constraints (model s') = m_constraints (model s) /\
    m_objective (model s') = m_objective (model s) /\
    od_matrix s' = od_matrix s.
Proof.
  induction es as [|e es IH]; intros s; simpl.
  - rewrite app_nil_r. repeat split.
  - destruct (IH (generate_vars_edge s e)) as (H1 & H2 & H3 & H4).
    destruct (generate_vars_edge_names s e) as (G1 & G2 & G3 & G4 & G5).
    rewrite H1, H2, H3, H4, G1, G2, G3, G4, <- app_assoc.
    repeat split.
Qed.

(** X9. [_generate_vars] registers, after the variables the model
    holds, the variables [phi_<e>], [l_<e>] and [x_<e>_{k}] for every OD
    key [k], edge by edge in the order of the edge list, where [<e>] is
    the edge's name without its dashes: two variables per edge plus one
    per edge and OD key.  It adds no constraint and sets no objective. *)
Theorem generate_vars_names :
  forall s : SOSolver,
    map var_name (m_vars (model (_generate_vars s)))
    = (map var_name (m_vars (model s))
         ++ flat_map (var_names_of (Dict.keys (od_matrix s))) (edges s))%list /\
    List.length (m_vars (model (_generate_vars s)))
    = (List.length (m_vars (model s))
       + List.length (edges s) * (2 + List.length (od_matrix s)))%nat /\
    m_constraints (model (_generate_vars s)) = m_constraints (model s) /\
    m_objective (model (_generate_vars s)) = m_objective (model s).
Proof.
  intros s. unfold _generate_vars.
  destruct (generate_vars_names_from (edges s) s) as (H1 & H2 & H3 & _).
  split; [exact H1|]. split; [|split; assumption].
  apply (f_equal (@List.length string)) in H1.
  rewrite length_app, !length_map in H1. rewrite H1. f_equal.
  clear. induction (edges s) as [|e es IH]; simpl; [reflexivity|].
  rewrite length_app, IH. simpl. unfold Dict.keys. rewrite !length_map. lia.
Qed.

End VariableProperties.

(** ** The total-flow and domain constraints *)

Section FamilyProperties.

Context {lib : ExprLib}.

(** A loop whose every step posts a row of constraints posts the rows
    one after the other. *)
Lemma foldM_rows {A : Type} (f : SOSolver -> A -> result SOSolver)
    (P : A -> list Constraint -> Prop) (s0 : SOSolver) (l : list A) :
  (forall s a, In a l -> only_model s0 s ->
     exists s' row,
       f s a = Ok s' /\ only_model s s' /\
       m_constraints (model s') = (m_constraints (model s) ++ row)%list /\
       P a row) ->
  forall s, only_model s0 s ->
    exists s' rows,
      foldM f l s = Ok s' /\ only_model s0 s' /\
      m_constraints (model s') = (m_constraints (model s) ++ concat rows)%list /\
      Forall2 P l rows.
Proof.
  induction l as [|a l IH]; intros Hstep s Hom; simpl.
  - exists s, []. simpl. rewrite app_nil_r. repeat split; [apply Hom.. | constructor].
  - destruct (Hstep s a (or_introl eq_refl) Hom) as (s1 & row & Hf & Hom1 & Hc1 & HP).
    rewrite Hf. simpl.
    destruct (IH (fun s a Hin => Hstep s a (or_intror Hin)) s1)
      as (s' & rows & Hfold & Hom' & Hc' & Hall).
    { eapply only_model_trans; eassumption. }
    exists s', (row :: rows). split; [exact Hfold|]. split; [exact Hom'|].
    split; [rewrite Hc', Hc1; simpl; rewrite <- app_assoc; reflexivity|].
    constructor; assumption.
Qed.

Lemma singleton_rows {A : Type} (Q : A -> Constraint -> Prop) (l : list A)
    (rows : list (list Constraint)) :
  Forall2 (fun a row => exists ct, row = [ct] /\ Q a ct) l rows ->
  Forall2 Q l (concat rows).
Proof.
  induction 1 as [|a row l rows (ct & -> & HQ) _ IH]; simpl; constructor; assumption.
Qed.

Lemma x_along_lookup (s : SOSolver) (e : Edge) (ks : list string) :
  (forall k, In k ks -> Dict.get (x_vars s) (e_name e ++ k) <> None) ->
  exists xs,
    mapM (fun k => Dict.getitem (x_vars s) (e_name e ++ k)) ks = Ok xs /\
    x_along s e ks xs.
Proof.
  unfold x_along. induction ks as [|k ks IH]; intros H; simpl.
  - exists []; split; [reflexivity | constructor].
  - destruct IH as (xs & Hxs & Hall); [intros k' Hk'; apply H; right; exact Hk'|].
    unfold Dict.getitem at 1.
    destruct (Dict.get (x_vars s) (e_name e ++ k)) as [x|] eqn:Hx;
      [|exfalso; apply (H k); [left; reflexivity | exact Hx]].
    simpl. rewrite Hxs. simpl.
    exists (x :: xs); split; [reflexivity | constructor; assumption].
Qed.

Lemma total_flow_edge_ok (s : SOSolver) (e : Edge) :
  vars_ready s -> In e (edges s) ->
  exists ct, total_flow_edge s e = Ok (post s ct) /\ total_flow_of s e ct.
Proof.
  intros Hready He. destruct (Hready e He) as (_ & Hl & Hx).
  unfold total_flow_edge.
  destruct (x_along_lookup s e (Dict.keys (od_matrix s)) Hx) as (xs & Hxs & Hall).
  rewrite Hxs. cbn [bind]. unfold Dict.getitem.
  destruct (Dict.get (l_vars s) (e_name e)) as [l|] eqn:El; [|contradiction].
  cbn [bind]. eexists; split; [reflexivity|].
  exists l, xs. auto.
Qed.

Lemma total_flow_of_only_model (s s' : SOSolver) (e : Edge) (ct : Constraint) :
  only_model s s' -> total_flow_of s' e ct -> total_flow_of s e ct.
Proof.
  intros [(_ & _ & Hod & _) (_ & Hx & Hl)] (l & xs & H1 & H2 & H3).
  exists l, xs. unfold x_along in *. rewrite <- Hl, <- Hx, <- Hod. auto.
Qed.

(** The inner loop of [_generate_domain_constraint]. *)
Lemma domain_keys_ok (s0 : SOSolver) (e : Edge) (ks : list string) :
  (forall k, In k ks -> Dict.get (x_vars s0) (e_name e ++ k) <> None) ->
  forall s, only_model s0 s ->
    exists s' xs,
      foldM (fun s k =>
               x <- Dict.getitem (x_vars s) (e_name e ++ k) ;;
               Ok (post s (nonnegative x))) ks s = Ok s' /\
      only_model s0 s' /\
      m_constraints (model s')
      = (m_constraints (model s) ++ map nonnegative xs)%list /\
      x_along s0 e ks xs.
Proof.
  unfold x_along. induction ks as [|k ks IH]; intros H s Hom; simpl.
  - exists s, []. simpl. rewrite app_nil_r. repeat split; [apply Hom.. | constructor].
  - pose proof Hom as [_ (_ & Hx & _)].
    unfold Dict.getitem at 1. rewrite Hx.
    destruct (Dict.get (x_vars s0) (e_name e ++ k)) as [x|] eqn:Ex;
      [|exfalso; apply (H k); [left; reflexivity | exact Ex]].
    cbn [bind].
    destruct (IH (fun k' Hk' => H k' (or_intror Hk')) (post s (nonnegative x)))
      as (s' & xs & Hfold & Hom' & Hc & Hall).
    { eapply only_model_trans; [exact Hom | apply only_model_post]. }
    exists s', (x :: xs). split; [exact Hfold|]. split; [exact Hom'|].
    split; [rewrite Hc; simpl; rewrite <- app_assoc; reflexivity|].
    constructor; assumption.
Qed.

Lemma domain_edge_ok (s : SOSolver) (e : Edge) :
  vars_ready s -> In e (edges s) ->
  exists s' cts,
    domain_edge s e = Ok s' /\ only_model s s' /\
    m_constraints (model s') = (m_constraints (model s) ++ cts)%list /\
    domain_of s e cts.
Proof.
  intros Hready He. destruct (Hready e He) as (Hphi & Hl & Hx).
  unfold domain_edge, Dict.getitem.
  destruct (Dict.get (l_vars s) (e_name e)) as [l|] eqn:El; [|contradiction].
  cbn [bind].
  change (phi_vars (post s (nonnegative l))) with (phi_vars s).
  destruct (Dict.get (phi_vars s) (e_name e)) as [phi|] eqn:Ephi; [|contradiction].
  cbn [bind].
  change (od_matrix (post (post s (nonnegative l)) (nonnegative phi)))
    with (od_matrix s).
  destruct (domain_keys_ok s e (Dict.keys (od_matrix s)) Hx
              (post (post s (nonnegative l)) (nonnegative phi)))
    as (s' & xs & Hfold & Hom & Hc & Hall).
  { eapply only_model_trans; apply only_model_post. }
  exists s', (nonnegative l :: nonnegative phi :: map nonnegative xs).
  split; [exact Hfold|]. split; [exact Hom|].
  split; [rewrite Hc; simpl; rewrite <- !app_assoc; reflexivity|].
  exists l, phi, xs. auto.
Qed.

Lemma domain_of_only_model (s s' : SOSolver) (e : Edge) (cts : list Constraint) :
  only_model s s' -> domain_of s' e cts -> domain_of s e cts.
Proof.
  intros [(_ & _ & Hod & _) (Hp & Hx & Hl)] (l & phi & xs & H1 & H2 & H3 & H4).
  exists l, phi, xs. unfold x_along in *. rewrite <- Hl, <- Hp, <- Hx, <- Hod. auto.
Qed.

Lemma total_flow_rows (s : SOSolver) :
  vars_ready s ->
  exists s' cts,
    _generate_total_flow_constraint s = Ok s' /\ only_model s s' /\
    m_constraints (model s') = (m_constraints (model s) ++ cts)%list /\
    Forall2 (total_flow_of s) (edges s) cts.
Proof.
  intros Hready. unfold _generate_total_flow_constraint.
  destruct (foldM_rows total_flow_edge
              (fun e row => exists ct, row = [ct] /\ total_flow_of s e ct)
              s (edges s)) with (s := s) as (s' & rows & Hfold & Hom & Hc & Hall).
  - intros s1 e He Hom.
    destruct (total_flow_edge_ok s1 e) as (ct & Hstep & Hct).
    + eapply vars_ready_only_model; eassumption.
    + destruct Hom as [(_ & -> & _) _]. exact He.
    + exists (post s1 ct), [ct]. split; [exact Hstep|].
      split; [apply only_model_post|]. split; [reflexivity|].
      exists ct. split; [reflexivity|].
      eapply total_flow_of_only_model; eassumption.
  - apply only_model_refl.
  - exists s', (concat rows). split; [exact Hfold|]. split; [exact Hom|].
    split; [exact Hc|]. apply singleton_rows. exact Hall.
Qed.

Lemma domain_rows (s : SOSolver) :
  vars_ready s ->
  exists s' rows,
    _generate_domain_constraint s = Ok s' /\ only_model s s' /\
    m_constraints (model s') = (m_constraints (model s) ++ concat rows)%list /\
    Forall2 (domain_of s) (edges s) rows.
Proof.
  intros Hready. unfold _generate_domain_constraint.
  destruct (foldM_rows domain_edge (domain_of s) s (edges s)) with (s := s)
    as (s' & rows & Hfold & Hom & Hc & Hall).
  - intros s1 e He Hom.
    destruct (domain_edge_ok s1 e) as (s2 & cts & Hstep & Hom2 & Hc2 & Hd).
    + eapply vars_ready_only_model; eassumption.
    + destruct Hom as [(_ & -> & _) _]. exact He.
    + exists s2, cts. repeat (split; [assumption|]).
      eapply domain_of_only_model; eassumption.
  - apply only_model_refl.
  - exists s', rows. auto.
Qed.

(** X10. On a solver whose variables have been generated, the
    total-flow step succeeds and adds, after the constraints already
    present, exactly one unlabelled equality per edge, in the order of
    the edge list: [l_e == sum of x_{e,k} over the OD keys k], the keys
    in the order of the OD mapping. *)
Theorem total_flow_per_edge :
  forall s : SOSolver,
    vars_ready s ->
    exists s' cts,
      _generate_total_flow_constraint s = Ok s' /\
      m_constraints (model s') = (m_constraints (model s) ++ cts)%list /\
      Forall2 (total_flow_of s) (edges s) cts.
Proof.
  intros s Hready.
  destruct (total_flow_rows s Hready) as (s' & cts & H1 & _ & H2 & H3).
  exists s', cts. auto.
Qed.

(** X11. On a solver whose variables have been generated, the domain
    step succeeds and adds, after the constraints already present, for
    every edge in the order of the edge list the unlabelled constraints
    [l_e >= 0], [phi_e >= 0] and [x_{e,k} >= 0] for every OD key [k]:
    two constraints per edge plus one per edge and OD key. *)
Theorem domain_constraints_per_edge :
  forall s : SOSolver,
    vars_ready s ->
    exists s' rows,
      _generate_domain_constraint s = Ok s' /\
      m_constraints (model s') = (m_constraints (model s) ++ concat rows)%list /\
      Forall2 (domain_of s) (edges s) rows /\
      List.length (concat rows)
      = (List.length (edges s) * (2 + List.length (od_matrix s)))%nat.
Proof.
  intros s Hready.
  destruct (domain_rows s Hready) as (s' & rows & Hfold & _ & Hc & Hall).
  exists s', rows. repeat (split; [assumption|]).
  clear -Hall. induction Hall as [|e row es rows Hrow _ IH]; simpl; [reflexivity|].
  rewrite length_app, IH.
  destruct Hrow as (l & phi & xs & _ & _ & Hx & ->).
  apply Forall2_length in Hx. simpl. rewrite length_map, <- Hx.
  unfold Dict.keys. rewrite length_map. lia.
Qed.

End FamilyProperties.

Lemma total_flow_per_edge_witness :
  exists s' cts,
    _generate_total_flow_constraint
      (_generate_vars (Examples.the_solver Examples.net_affine)) = Ok s' /\
    m_constraints (model s') = cts /\ List.length cts = 1%nat.
Proof.
  destruct (total_flow_per_edge (lib := RefLib.lib)
              (_generate_vars (Examples.the_solver Examples.net_affine))
              (generate_vars_ready _))
    as (s' & cts & Hrun & Hcts & Hall).
  exists s', cts. split; [exact Hrun|]. split; [exact Hcts|].
  apply Forall2_length in Hall. rewrite <- Hall. reflexivity.
Defined.

Lemma domain_constraints_per_edge_witness :
  exists s' cts,
    _generate_domain_constraint
      (_generate_vars (Examples.the_solver Examples.net_affine)) = Ok s' /\
    m_constraints (model s') = cts /\ List.length cts = 3%nat.
Proof.
  destruct (domain_constraints_per_edge (lib := RefLib.lib)
              (_generate_vars (Examples.the_solver Examples.net_affine))
              (generate_vars_ready _))
    as (s' & rows & Hrun & Hcts & _ & Hlen).
  exists s', (concat rows). split; [exact Hrun|]. split; [exact Hcts|].
  rewrite Hlen. reflexivity.
Defined.

(** ** Assembling the model *)

Section BuildProperties.

Context {lib : ExprLib}.

Lemma grows_by_refl (m : Model) : grows_by 0 m m.
Proof. unfold grows_by. repeat split. lia. Qed.

Lemma grows_by_post (s : SOSolver) (ct : Constraint) :
  grows_by 1 (model s) (model (post s ct)).
Proof. unfold grows_by. simpl. rewrite length_app. simpl. repeat split. Qed.

Lemma grows_by_trans (a b : nat) (m1 m2 m3 : Model) :
  grows_by a m1 m2 -> grows_by b m2 m3 -> grows_by (a + b) m1 m3.
Proof.
  unfold grows_by. intros (L1 & V1 & O1) (L2 & V2 & O2).
  rewrite L2, L1, V2, V1, O2, O1. repeat split. lia.
Qed.

(** A loop whose step for [a] adds [c a] constraints adds their sum;
    [Inv] is what the steps may rely on. *)
Lemma foldM_count {A : Type} (Inv : SOSolver -> Prop)
    (f : SOSolver -> A -> result SOSolver) (c : A -> nat) :
  (forall s a s', Inv s -> f s a = Ok s' ->
     grows_by (c a) (model s) (model s') /\ Inv s') ->
  forall l s s', Inv s -> foldM f l s = Ok s' ->
     grows_by (list_sum (map c l)) (model s) (model s') /\ Inv s'.
Proof.
  intros Hstep l; induction l as [|a l IH]; intros s s' Hs H; simpl in H.
  - injection H as <-. split; [apply grows_by_refl | exact Hs].
  - apply bind_Ok in H. destruct H as (s1 & H1 & H).
    destruct (Hstep _ _ _ Hs H1) as (G1 & Hs1).
    destruct (IH _ _ Hs1 H) as (G2 & Hs2).
    split; [|exact Hs2]. simpl. eapply grows_by_trans; eassumption.
Qed.

Lemma list_sum_const {A : Type} (c : nat) (l : list A) :
  list_sum (map (fun _ => c) l) = (List.length l * c)%nat.
Proof. induction l as [|a l IH]; simpl; [reflexivity | rewrite IH; reflexivity]. Qed.

Lemma list_sum_filter {A : Type} (p : A -> bool) (l : list A) :
  list_sum (map (fun a => if p a then 1%nat else 0%nat) l)
  = List.length (filter p l).
Proof.
  induction l as [|a l IH]; simpl; [reflexivity|].
  destruct (p a); simpl; rewrite IH; reflexivity.
Qed.

Lemma cost_constraint_edge_count (s : SOSolver) (e : Edge) (s' : SOSolver) :
  cost_constraint_edge s e = Ok s' -> grows_by 1 (model s) (model s').
Proof.
  unfold cost_constraint_edge; intros H.
  apply bind_Ok in H. destruct H as ([m n] & _ & H).
  apply bind_Ok in H. destruct H as (l & _ & H).
  apply bind_Ok in H. destruct H as (phi & _ & H).
  destruct (PyNum.is_finite m && PyNum.is_finite n); [|discriminate].
  injection H as <-. apply grows_by_post.
Qed.

Lemma total_flow_edge_count (s : SOSolver) (e : Edge) (s' : SOSolver) :
  total_flow_edge s e = Ok s' -> grows_by 1 (model s) (model s').
Proof.
  unfold total_flow_edge; intros H.
  apply bind_Ok in H. destruct H as (xs & _ & H).
  apply bind_Ok in H. destruct H as (l & _ & H).
  injection H as <-. apply grows_by_post.
Qed.

(** A node that an edge touches gets a constraint, a node that no edge
    touches gets none. *)
Lemma flow_conservation_node_count (k : string) (s : SOSolver) (n : Node)
    (s' : SOSolver) :
  flow_conservation_node k s n = Ok s' ->
  grows_by (if touched (n_name n) (edges s) then 1 else 0) (model s) (model s').
Proof.
  unfold flow_conservation_node; intros H.
  destruct (touched (n_name n) (edges s)) eqn:Ht.
  - apply leaving_arriving_touched in Ht.
    destruct (leaving_arriving n (edges s)) as [leaving arriving].
    cbn [fst snd] in Ht.
    apply bind_Ok in H. destruct H as (d & _ & H).
    apply bind_Ok in H. destruct H as (ys & Hys & H).
    apply bind_Ok in H. destruct H as (xs & Hxs & H).
    apply mapM_length in Hys. apply mapM_length in Hxs.
    destruct ys as [|y ys]; [destruct xs as [|x xs]|].
    + exfalso. destruct Ht as [Ht|Ht]; apply Ht; apply length_zero_iff_nil;
        symmetry; assumption.
    + injection H as <-. apply grows_by_post.
    + injection H as <-. apply grows_by_post.
  - rewrite (leaving_arriving_untouched n (edges s) Ht) in H.
    apply bind_Ok in H. destruct H as (d & _ & H). cbn [mapM bind] in H.
    destruct (PyNum.is_zero d); [|discriminate].
    injection H as <-. apply grows_by_refl.
Qed.

Lemma domain_edge_count (s : SOSolver) (e : Edge) (s' : SOSolver) :
  domain_edge s e = Ok s' ->
  grows_by (2 + List.length (od_matrix s)) (model s) (model s').
Proof.
  unfold domain_edge; intros H.
  apply bind_Ok in H. destruct H as (l & _ & H).
  apply bind_Ok in H. destruct H as (phi & _ & H).
  apply (foldM_count (fun _ => True) _ (fun _ => 1%nat)) in H; [|
    intros s0 k s1 _ H1; apply bind_Ok in H1; destruct H1 as (x & _ & H1);
    injection H1 as <-; split; [apply grows_by_post | exact I] | exact I].
  destruct H as [H _]. rewrite list_sum_const in H. simpl in H.
  unfold Dict.keys in H. rewrite length_map, Nat.mul_1_r in H.
  change (2 + List.length (od_matrix s))%nat
    with (1 + (1 + List.length (od_matrix s)))%nat.
  eapply grows_by_trans; [apply grows_by_post|].
  eapply grows_by_trans; [apply grows_by_post|]. exact H.
Qed.

(** X12. Whenever [solve] gets as far as calling the backend, on edges
    of which those of the same name have the same end points, the model
    it hands over holds, after what the model held before: the variables
    [phi_<e>], [l_<e>], [x_<e>_{k}] of every edge; the objective
    [sum(phi_vars.values())]; and, for E edges, K OD entries and T nodes
    at which an edge starts or ends, E cost constraints, E total-flow
    constraints, K*T flow-conservation constraints (a node without edges
    gets none) and E*(2+K) domain constraints. *)
Theorem build_model_shape :
  forall s s' : SOSolver,
    names_tell_arcs (edges s) = true ->
    build s = Ok s' ->
    map var_name (m_vars (model s'))
    = (map var_name (m_vars (model s))
         ++ flat_map (var_names_of (Dict.keys (od_matrix s))) (edges s))%list /\
    m_objective (model s') = Some (ESum (Dict.values (phi_vars s'))) /\
    List.length (m_constraints (model s'))
    = (List.length (m_constraints (model s))
       + List.length (edges s) + List.length (edges s)
       + List.length (od_matrix s)
         * List.length (filter (fun n => touched (n_name n) (edges s)) (nodes s))
       + List.length (edges s) * (2 + List.length (od_matrix s)))%nat.
Proof.
  intros s s' _ H. unfold build in H.
  destruct (generate_vars_names_from (edges s) s) as (Hn & Hc0 & _).
  fold (_generate_vars s) in Hn, Hc0.
  pose proof (same_env_generate_vars s) as (Hnodes & Hedges & Hod & _).
  set (s0 := _generate_objective_function (_generate_vars s)) in *.
  set (T := List.length (filter (fun n => touched (n_name n) (edges s)) (nodes s))).
  apply bind_Ok in H. destruct H as (s1 & H1 & H).
  apply bind_Ok in H. destruct H as (s2 & H2 & H).
  apply bind_Ok in H. destruct H as (s3 & H3 & H).
  pose proof (only_model_cost _ _ H1) as Hom1.
  pose proof (only_model_total_flow _ _ H2) as Hom2.
  pose proof (only_model_flow_conservation _ _ H3) as Hom3.
  pose proof (only_model_domain _ _ H) as Hom4.
  pose proof (only_model_trans _ _ _ Hom1 Hom2) as Hom12.
  pose proof (only_model_trans _ _ _ Hom12 Hom3) as Hom13.
  pose proof (only_model_trans _ _ _ Hom13 Hom4) as Hom14.
  apply (foldM_count (fun _ => True) _ (fun _ => 1%nat)) in H1;
    [|intros sa e sb _ Hs; split; [eapply cost_constraint_edge_count; exact Hs | exact I]
     | exact I].
  apply (foldM_count (fun _ => True) _ (fun _ => 1%nat)) in H2;
    [|intros sa e sb _ Hs; split; [eapply total_flow_edge_count; exact Hs | exact I]
     | exact I].
  unfold _generate_flow_conservation_constraint in H3.
  apply (foldM_count (only_model s0) _ (fun _ => T)) in H3;
    [| | exact Hom12].
  2:{ intros sa k sb Hsa Hk.
      pose proof Hk as Hk'.
      apply (foldM_preserves only_model) in Hk';
        [| apply only_model_refl | apply only_model_trans
         | intros sc n sd; apply only_model_flow_conservation_node].
      split; [|eapply only_model_trans; eassumption].
      apply (foldM_count (only_model s0) _
               (fun n => if touched (n_name n) (edges s) then 1%nat else 0%nat))
        in Hk; [| | exact Hsa].
      - destruct Hk as [Hk _]. rewrite list_sum_filter in Hk.
        destruct Hsa as [(Hsn & _) _]. rewrite Hsn in Hk.
        change (nodes s0) with (nodes (_generate_vars s)) in Hk.
        rewrite Hnodes in Hk. exact Hk.
      - intros sc n sd Hsc Hs.
        split; [|eapply only_model_trans;
                 [exact Hsc | eapply only_model_flow_conservation_node; exact Hs]].
        apply flow_conservation_node_count in Hs.
        destruct Hsc as [(_ & Hse & _) _]. rewrite Hse in Hs.
        change (edges s0) with (edges (_generate_vars s)) in Hs.
        rewrite Hedges in Hs. exact Hs. }
  unfold _generate_domain_constraint in H.
  apply (foldM_count (only_model s0) _
           (fun _ => (2 + List.length (od_matrix s))%nat)) in H;
    [| | exact Hom13].
  2:{ intros sa e sb Hsa He.
      split; [|eapply only_model_trans;
               [exact Hsa | eapply only_model_domain_edge; exact He]].
      apply domain_edge_count in He.
      destruct Hsa as [(_ & _ & Hso & _) _]. rewrite Hso in He.
      change (od_matrix s0) with (od_matrix (_generate_vars s)) in He.
      rewrite Hod in He. exact He. }
  rewrite list_sum_const in H1. rewrite list_sum_const in H2.
  rewrite list_sum_const in H3. rewrite list_sum_const in H.
  destruct H1 as [(L1 & V1 & O1) _]. destruct H2 as [(L2 & V2 & O2) _].
  destruct H3 as [(L3 & V3 & O3) _]. destruct H as [(L4 & V4 & O4) _].
  destruct Hom1 as [(_ & He1 & _) _].
  destruct Hom12 as [(_ & _ & Hod2 & _) _].
  destruct Hom13 as [(_ & He3 & Hod3 & _) _].
  destruct Hom14 as [_ (Hphi & _)].
  change (edges s0) with (edges (_generate_vars s)) in *.
  change (od_matrix s0) with (od_matrix (_generate_vars s)) in *.
  change (phi_vars s0) with (phi_vars (_generate_vars s)) in *.
  rewrite He3, Hedges in L4. rewrite He1, Hedges in L2.
  rewrite Hedges in L1. rewrite Hod2, Hod in L3.
  unfold Dict.keys in L3. rewrite length_map in L3.
  split; [|split].
  - rewrite V4, V3, V2, V1. exact Hn.
  - rewrite O4, O3, O2, O1, Hphi. reflexivity.
  - rewrite L4, L3, L2, L1.
    change (m_constraints (model s0)) with (m_constraints (model (_generate_vars s))).
    rewrite Hc0. fold T. lia.
Qed.

End BuildProperties.

(** ** When the model can be assembled *)

Section BuildRuns.

Context {lib : ExprLib}.

Lemma leaving_arriving_sub (n : Node) (es : list Edge) (e : Edge) :
  In e (fst (leaving_arriving n es)) \/ In e (snd (leaving_arriving n es)) ->
  In e es.
Proof.
  unfold leaving_arriving. rewrite leaving_arriving_from. simpl.
  unfold leaving_from. intros [H|H]; apply filter_In_sub in H; exact H.
Qed.

Lemma flow_conservation_node_runs (s : SOSolver) (k : string) (n : Node) :
  vars_ready s ->
  touched (n_name n) (edges s) = true ->
  In k (Dict.keys (od_matrix s)) ->
  (exists o d rest, PyStr.split "|" k = o :: d :: rest) ->
  exists ct, flow_conservation_node k s n = Ok (post s ct).
Proof.
  intros Hready Htouched Hk (o & d & rest & Hsplit).
  apply leaving_arriving_touched in Htouched.
  unfold flow_conservation_node.
  pose proof (leaving_arriving_sub n (edges s)) as Hsub.
  destruct (leaving_arriving n (edges s)) as [leaving arriving].
  cbn [fst snd] in Hsub, Htouched.
  destruct (Dict.get (od_matrix s) k) as [dem|] eqn:Hget;
    [|exfalso; apply (Dict_get_keys _ _ Hk); exact Hget].
  rewrite (node_demand_formulation _ k n o d rest dem Hsplit Hget).
  cbn [bind].
  destruct (x_lookup_all s k arriving) as (ys & Hys & _).
  { intros e He. destruct (Hready e (Hsub e (or_intror He))) as (_ & _ & Hx).
    apply Hx, Hk. }
  destruct (x_lookup_all s k leaving) as (xs & Hxs & _).
  { intros e He. destruct (Hready e (Hsub e (or_introl He))) as (_ & _ & Hx).
    apply Hx, Hk. }
  rewrite Hys. cbn [bind]. rewrite Hxs. cbn [bind].
  apply mapM_length in Hys. apply mapM_length in Hxs.
  destruct ys as [|y ys]; [destruct xs as [|x xs]|].
  - exfalso. destruct Htouched as [Ht|Ht]; apply Ht; apply length_zero_iff_nil;
      symmetry; assumption.
  - eexists; reflexivity.
  - eexists; reflexivity.
Qed.

Lemma flow_conservation_runs (s : SOSolver) :
  vars_ready s ->
  forallb (fun n => touched (n_name n) (edges s)) (nodes s) = true ->
  (forall k, In k (Dict.keys (od_matrix s)) ->
             exists o d rest, PyStr.split "|" k = o :: d :: rest) ->
  exists s', _generate_flow_conservation_constraint s = Ok s' /\ only_model s s'.
Proof.
  intros Hready Htouched Hwf. unfold _generate_flow_conservation_constraint.
  rewrite forallb_forall in Htouched.
  destruct (foldM_rows
              (fun s k => foldM (flow_conservation_node k) (nodes s) s)
              (fun _ _ => True) s (Dict.keys (od_matrix s))) with (s := s)
    as (s' & rows & Hfold & Hom & _).
  - intros s1 k Hk Hom1.
    destruct (foldM_rows (flow_conservation_node k) (fun _ _ => True)
                s (nodes s1)) with (s := s1)
      as (s2 & rows & Hfold & Hom2 & Hc & _).
    + intros s2 n Hn Hom2.
      destruct (flow_conservation_node_runs s2 k n) as (ct & Hct).
      * eapply vars_ready_only_model; eassumption.
      * destruct Hom2 as [(_ & -> & _) _]. apply Htouched.
        destruct Hom1 as [(<- & _) _]. exact Hn.
      * destruct Hom2 as [(_ & _ & -> & _) _]. exact Hk.
      * apply Hwf, Hk.
      * exists (post s2 ct), [ct]. split; [exact Hct|].
        split; [apply only_model_post|]. split; [reflexivity | exact I].
    + exact Hom1.
    + exists s2, (concat rows). split; [exact Hfold|].
      split; [|split; [exact Hc | exact I]].
      apply (foldM_preserves only_model) in Hfold;
        [exact Hfold | apply only_model_refl | apply only_model_trans
         | intros sc n sd; apply only_model_flow_conservation_node].
  - apply only_model_refl.
  - exists s'. split; assumption.
Qed.

(** The first two steps after the variables. *)
Lemma cost_and_total_flow_run (s : SOSolver) (mns : list (pynum * pynum)) :
  mapM (_get_cost_function_parameters (store s)) (edges s) = Ok mns ->
  forallb finite_parameters mns = true ->
  exists s1 s2,
    _generate_cost_constraint
      (_generate_objective_function (_generate_vars s)) = Ok s1 /\
    _generate_total_flow_constraint s1 = Ok s2 /\
    only_model (_generate_objective_function (_generate_vars s)) s2 /\
    vars_ready s2.
Proof.
  intros Hlin Hfin.
  pose proof (same_env_generate_vars s) as (_ & Hedges & _ & _ & _ & _ & Hstore & _).
  set (s0 := _generate_objective_function (_generate_vars s)).
  assert (Hready : vars_ready s0)
    by (apply vars_ready_objective, generate_vars_ready).
  destruct (cost_constraints_added (edges s0) s0 mns) as (s1 & cts & H1 & Hom1 & _).
  { intros e He. destruct (Hready e He) as (Hp & Hl & _). split; assumption. }
  { change (store s0) with (store (_generate_vars s)).
    change (edges s0) with (edges (_generate_vars s)).
    rewrite Hstore, Hedges. exact Hlin. }
  { exact Hfin. }
  assert (Hready1 : vars_ready s1) by (eapply vars_ready_only_model; eassumption).
  destruct (total_flow_rows s1 Hready1) as (s2 & cts2 & H2 & Hom2 & _).
  exists s1, s2. split; [exact H1|]. split; [exact H2|].
  split; [eapply only_model_trans; eassumption|].
  eapply vars_ready_only_model; eassumption.
Qed.

Lemma build_runs (s : SOSolver) (mns : list (pynum * pynum)) :
  mapM (_get_cost_function_parameters (store s)) (edges s) = Ok mns ->
  forallb finite_parameters mns = true ->
  forallb (fun n => touched (n_name n) (edges s)) (nodes s) = true ->
  (forall k, In k (Dict.keys (od_matrix s)) ->
             exists o d rest, PyStr.split "|" k = o :: d :: rest) ->
  exists s', build s = Ok s'.
Proof.
  intros Hlin Hfin Htouched Hwf.
  destruct (cost_and_total_flow_run s mns Hlin Hfin)
    as (s1 & s2 & H1 & H2 & Hom & Hready).
  pose proof (same_env_generate_vars s) as (Hn & He & Hod & _).
  pose proof Hom as [(Hn2 & He2 & Hod2 & _) _]. simpl in Hn2, He2, Hod2.
  destruct (flow_conservation_runs s2 Hready) as (s3 & H3 & Hom3).
  { rewrite Hn2, He2, Hn, He. exact Htouched. }
  { intros k Hk. apply Hwf. rewrite Hod2, Hod in Hk. exact Hk. }
  destruct (domain_rows s3) as (s4 & rows & H4 & _).
  { eapply vars_ready_only_model; eassumption. }
  exists s4. unfold build. rewrite H1. cbn [bind]. rewrite H2. cbn [bind].
  rewrite H3. cbn [bind]. exact H4.
Qed.

(** X13. The model can be assembled, so that no step of [solve] before
    the call of the backend raises, whenever the Cost Linearizer returns
    a finite slope and a finite intercept for every edge, every node has
    an edge starting or ending at it, edges of the same name have the
    same end points, the demands are finite and every OD key splits on
    [|] into at least two parts. *)
Theorem build_succeeds :
  forall (s : SOSolver) (mns : list (pynum * pynum)),
    mapM (_get_cost_function_parameters (store s)) (edges s) = Ok mns ->
    forallb finite_parameters mns = true ->
    forallb (fun n => touched (n_name n) (edges s)) (nodes s) = true ->
    names_tell_arcs (edges s) = true ->
    forallb PyNum.is_finite (Dict.values (od_matrix s)) = true ->
    (forall k, In k (Dict.keys (od_matrix s)) ->
               exists o d rest, PyStr.split "|" k = o :: d :: rest) ->
    exists s', build s = Ok s'.
Proof.
  intros s mns Hlin Hfin Htouched _ _ Hwf.
  exact (build_runs s mns Hlin Hfin Htouched Hwf).
Qed.

(** X14. When the Cost Linearizer raises on an edge and returns a
    finite slope and a finite intercept on the edges before it, [solve]
    raises that exception, whatever the backend: the backend is not
    consulted. *)
Theorem solve_stops_at_bad_cost_function :
  forall (backend : Model -> option Solution) (verbose generate_lp : bool)
         (s : SOSolver) (es1 : list Edge) (e : Edge) (es2 : list Edge)
         (mns : list (pynum * pynum)) (x : exn),
    edges s = (es1 ++ e :: es2)%list ->
    mapM (_get_cost_function_parameters (store s)) es1 = Ok mns ->
    forallb finite_parameters mns = true ->
    _get_cost_function_parameters (store s) e = Raise x ->
    solve backend verbose generate_lp s = Raise x.
Proof.
  intros backend verbose generate_lp s es1 e es2 mns x Hedges Hlin Hfin Hbad.
  pose proof (same_env_generate_vars s) as (_ & Hed & _ & _ & _ & _ & Hstore & _).
  unfold solve, build. set (s0 := _generate_objective_function (_generate_vars s)).
  assert (Hready : vars_ready s0)
    by (apply vars_ready_objective, generate_vars_ready).
  assert (He0 : edges s0 = (es1 ++ e :: es2)%list).
  { change (edges s0) with (edges (_generate_vars s)). rewrite Hed. exact Hedges. }
  destruct (cost_constraints_added es1 s0 mns) as (s1 & cts & H1 & Hom1 & _).
  { intros e' He'. destruct (Hready e') as (Hp & Hl & _).
    - rewrite He0. apply in_or_app. left; exact He'.
    - split; assumption. }
  { change (store s0) with (store (_generate_vars s)). rewrite Hstore. exact Hlin. }
  { exact Hfin. }
  unfold _generate_cost_constraint. rewrite He0, foldM_app, H1. cbn [bind foldM].
  unfold cost_constraint_edge at 1.
  destruct Hom1 as [(_ & _ & _ & _ & _ & _ & Hst1 & _) _].
  rewrite Hst1. change (store s0) with (store (_generate_vars s)).
  rewrite Hstore, Hbad. reflexivity.
Qed.

(** X15. An OD entry whose key holds no [|] stops [solve] with
    [IndexError] at the first node whose name is not the whole key,
    when the Cost Linearizer returns a finite slope and a finite
    intercept for every edge: the key's second part does not exist. *)
Theorem od_key_without_bar_raises_IndexError :
  forall (backend : Model -> option Solution) (verbose generate_lp : bool)
         (s : SOSolver) (mns : list (pynum * pynum))
         (k : string) (ks : list string) (n : Node) (ns : list Node),
    mapM (_get_cost_function_parameters (store s)) (edges s) = Ok mns ->
    forallb finite_parameters mns = true ->
    Dict.keys (od_matrix s) = k :: ks ->
    nodes s = n :: ns ->
    PyStr.split "|" k = [k] ->
    n_name n <> k ->
    solve backend verbose generate_lp s = Raise IndexError.
Proof.
  intros backend verbose generate_lp s mns k ks n ns Hlin Hfin Hkeys Hnodes
         Hsplit Hne.
  destruct (cost_and_total_flow_run s mns Hlin Hfin)
    as (s1 & s2 & H1 & H2 & Hom & _).
  pose proof (same_env_generate_vars s) as (Hn & _ & Hod & _).
  destruct Hom as [(Hn2 & _ & Hod2 & _) _]. simpl in Hn2, Hod2.
  unfold solve, build. rewrite H1. cbn [bind]. rewrite H2. cbn [bind].
  unfold _generate_flow_conservation_constraint.
  rewrite Hod2, Hod, Hkeys. cbn [foldM]. rewrite Hn2, Hn, Hnodes. cbn [foldM].
  unfold flow_conservation_node at 1.
  destruct (leaving_arriving n (edges s2)) as [leaving arriving].
  unfold node_demand. rewrite Hsplit. cbn [index nth_error bind].
  apply String.eqb_neq in Hne. rewrite Hne. reflexivity.
Qed.

End BuildRuns.

(** ** Solving *)

Section SolveProperties.

Context {lib : ExprLib}.

(** X16. A [solve] that returns leaves the network as it was: nodes,
    edges, OD mapping, name, total demand and the edges' parameter
    dictionaries are unchanged. *)
Theorem solve_keeps_network :
  forall (backend : Model -> option Solution) (verbose generate_lp : bool)
         (s s' : SOSolver),
    solve backend verbose generate_lp s = Ok s' ->
    nodes s' = nodes s /\ edges s' = edges s /\ od_matrix s' = od_matrix s /\
    name s' = name s /\ sum_flows s' = sum_flows s /\ store s' = store s.
Proof.
  intros backend verbose generate_lp s s' H. unfold solve in H.
  apply bind_Ok in H. destruct H as (s1 & Hb & H).
  apply same_env_build in Hb.
  destruct Hb as (B1 & B2 & B3 & B4 & _ & B6 & B7 & _).
  destruct (backend (model s1)) as [solution|].
  - apply bind_Ok in H. destruct H as (so & _ & H).
    injection H as <-.
    destruct verbose, generate_lp; simpl; repeat split; assumption.
  - injection H as <-. simpl. repeat split; assumption.
Qed.

(** X17. When the model is assembled, the backend returns a solution
    and the division succeeds, [solve] returns with the System Optimum
    set to the objective value divided by the total demand; it prints
    the solution and the System Optimum when [verbose] is set and writes
    the model to [<name>.lp] when [generate_lp] is set, in this order,
    and nothing else. *)
Theorem solve_reports_average_cost :
  forall (backend : Model -> option Solution) (verbose generate_lp : bool)
         (s s1 : SOSolver) (solution : Solution) (so : pynum),
    build s = Ok s1 ->
    backend (model s1) = Some solution ->
    PyNum.truediv (objective_value solution) (sum_flows s) = Ok so ->
    exists s2,
      solve backend verbose generate_lp s = Ok s2 /\
      get_system_optimum s2 = so /\
      model s2 = model s1 /\
      out s2 = (out s
                ++ (if verbose
                    then [PrintDisplay solution; PrintSystemOptimum so] else [])
                ++ (if generate_lp
                    then [WriteFile (name s ++ ".lp") (model s1)] else []))%list.
Proof.
  intros backend verbose generate_lp s s1 solution so Hb Hsol Hdiv.
  unfold solve. rewrite Hb. cbn [bind]. rewrite Hsol.
  apply same_env_build in Hb.
  destruct Hb as (_ & _ & _ & B4 & _ & B6 & _ & B8).
  rewrite B6, Hdiv. cbn [bind].
  eexists. split; [reflexivity|].
  destruct verbose, generate_lp; simpl; rewrite ?B4, ?B8, ?app_nil_r;
    repeat split; rewrite <- ?app_assoc; reflexivity.
Qed.

(** X18. The script prints exactly one of two things when it returns:
    the solution followed by the System Optimum, or the message
    [Error calculating System Optimum!].  It writes the LP file only
    with the [-lp] flag and only in the first case, after printing; in
    the second case the System Optimum it holds is the initial -1. *)
Theorem main_output :
  forall (backend : Model -> option Solution) (file : string)
         (lines : list string) (lp : bool) (s : SOSolver),
    main backend file lines lp = Ok s ->
    (exists solution,
        out s = PrintDisplay solution :: PrintSystemOptimum (system_optimum s)
                  :: (if lp then [WriteFile (name s ++ ".lp") (model s)] else [])) \/
    (out s = [Print "Error calculating System Optimum!"] /\
     system_optimum s = PyInt (-1)).
Proof.
  intros backend file lines lp s H. unfold main in H.
  apply bind_Ok in H. destruct H as ([[[v e] od] h] & _ & H). cbv zeta in H.
  apply bind_Ok in H. destruct H as (so & Hinit & H).
  assert (Hout : out so = [] /\ system_optimum so = PyInt (-1)).
  { unfold SOSolver_init in Hinit.
    apply bind_Ok in Hinit. destruct Hinit as (n & _ & Hinit).
    apply bind_Ok in Hinit. destruct Hinit as (t & _ & Hinit).
    injection Hinit as <-. split; reflexivity. }
  destruct Hout as [Hout Hopt].
  unfold solve in H. apply bind_Ok in H. destruct H as (s1 & Hb & H).
  apply same_env_build in Hb.
  destruct Hb as (_ & _ & _ & _ & B5 & _ & _ & B8).
  destruct (backend (model s1)) as [solution|].
  - apply bind_Ok in H. destruct H as (q & _ & H). injection H as <-.
    left. exists solution. destruct lp; simpl; rewrite B8, Hout; reflexivity.
  - injection H as <-. right. simpl. rewrite B8, Hout, B5, Hopt. split; reflexivity.
Qed.

End SolveProperties.

(** ** The model builder and [solve] on concrete networks *)

(** The OD keys of the example networks split into origin and
    destination. *)
Lemma key_A_B :
  forall k, In k ["A|B"] ->
            exists o d rest, PyStr.split "|" k = o :: d :: rest.
Proof. intros k [<-|[]]. exists "A", "B", []. reflexivity. Qed.

Lemma build_succeeds_witness :
  exists s', build (Examples.the_solver Examples.net_affine) = Ok s'.
Proof.
  exact (build_succeeds (lib := RefLib.lib)
           (Examples.the_solver Examples.net_affine)
           [(PyFloat Examples.two, PyFloat PyFloat.one)]
           eq_refl eq_refl eq_refl eq_refl eq_refl key_A_B).
Defined.

Lemma build_model_shape_witness :
  exists s',
    build (Examples.the_solver Examples.net_affine) = Ok s' /\
    List.length (m_constraints (model s')) = 7%nat /\
    map var_name (m_vars (model s')) = ["phi_AB"; "l_AB"; "x_AB_{A|B}"].
Proof.
  destruct (build_runs (lib := RefLib.lib)
              (Examples.the_solver Examples.net_affine)
              [(PyFloat Examples.two, PyFloat PyFloat.one)]
              eq_refl eq_refl eq_refl key_A_B)
    as (s' & Hb).
  exists s'. split; [exact Hb|].
  destruct (build_model_shape (Examples.the_solver Examples.net_affine) s'
              eq_refl Hb) as (Hv & _ & Hc).
  split; [rewrite Hc; reflexivity | rewrite Hv; reflexivity].
Defined.

Lemma solve_stops_at_bad_cost_function_witness :
  solve Examples.backend_zero true false
        (Examples.the_solver Examples.net_second_edge_bad)
  = Raise ValueError.
Proof.
  apply (solve_stops_at_bad_cost_function (lib := RefLib.lib)
           Examples.backend_zero true false
           (Examples.the_solver Examples.net_second_edge_bad)
           (firstn 1 (edges (Examples.the_solver Examples.net_second_edge_bad)))
           (nth 1 (edges (Examples.the_solver Examples.net_second_edge_bad))
                (edge_at "A" "B" Examples.fn_2f1 0%nat (PyInt 0)))
           []
           [(PyFloat Examples.two, PyFloat PyFloat.one)]).
  - reflexivity.
  - reflexivity.
  - reflexivity.
  - reflexivity.
Defined.

Lemma od_key_without_bar_raises_IndexError_witness :
  solve Examples.backend_zero true false
        (Examples.the_solver Examples.net_od_trip)
  = Raise IndexError.
Proof.
  apply (od_key_without_bar_raises_IndexError (lib := RefLib.lib)
           Examples.backend_zero true false
           (Examples.the_solver Examples.net_od_trip)
           [(PyFloat Examples.two, PyFloat PyFloat.one)]
           "trip" [] (Node_init "A") [Node_init "B"]).
  - reflexivity.
  - reflexivity.
  - reflexivity.
  - reflexivity.
  - reflexivity.
  - discriminate.
Defined.

(** The model of [net_wrong_way] is assembled. *)
Lemma wrong_way_builds :
  exists s1, build (Examples.the_solver Examples.net_wrong_way) = Ok s1.
Proof.
  exact (build_runs (lib := RefLib.lib)
           (Examples.the_solver Examples.net_wrong_way)
           [(PyFloat Examples.two, PyFloat PyFloat.one)]
           eq_refl eq_refl eq_refl key_A_B).
Qed.

Lemma solve_keeps_network_witness :
  exists s',
    solve Examples.backend_none true false
          (Examples.the_solver Examples.net_wrong_way) = Ok s' /\
    edges s' = edges (Examples.the_solver Examples.net_wrong_way) /\
    store s' = [[("f", PyInt 0)]].
Proof.
  destruct wrong_way_builds as (s1 & Hb).
  assert (H : solve Examples.backend_none true false
                (Examples.the_solver Examples.net_wrong_way)
              = Ok (emit s1 [Print "Error calculating System Optimum!"])).
  { unfold solve. rewrite Hb. reflexivity. }
  eexists. split; [exact H|].
  destruct (solve_keeps_network _ _ _ _ _ H) as (_ & He & _ & _ & _ & Hst).
  split; [exact He|]. rewrite Hst. reflexivity.
Defined.

Lemma solve_reports_average_cost_witness :
  exists s2,
    solve Examples.backend_zero true false
          (Examples.the_solver Examples.net_affine) = Ok s2 /\
    get_system_optimum s2 = PyFloat PyFloat.zero.
Proof.
  destruct (build_runs (lib := RefLib.lib)
              (Examples.the_solver Examples.net_affine)
              [(PyFloat Examples.two, PyFloat PyFloat.one)]
              eq_refl eq_refl eq_refl key_A_B)
    as (s1 & Hb).
  destruct (solve_reports_average_cost (lib := RefLib.lib)
              Examples.backend_zero true false
              (Examples.the_solver Examples.net_affine) s1
              {| objective_value := PyFloat PyFloat.zero |}
              (PyFloat PyFloat.zero) Hb eq_refl eq_refl)
    as (s2 & Hs & Hopt & _).
  exists s2. split; assumption.
Defined.

Lemma main_output_witness :
  exists s,
    main (lib := RefLib.lib) Examples.backend_none "nets/example.net"
         Examples.net_wrong_way true = Ok s /\
    out s = [Print "Error calculating System Optimum!"].
Proof.
  destruct wrong_way_builds as (s1 & Hb).
  assert (H : main (lib := RefLib.lib) Examples.backend_none "nets/example.net"
                Examples.net_wrong_way true
              = Ok (emit s1 [Print "Error calculating System Optimum!"])).
  { change (solve Examples.backend_none true true
              (Examples.the_solver Examples.net_wrong_way)
            = Ok (emit s1 [Print "Error calculating System Optimum!"])).
    unfold solve. rewrite Hb. reflexivity. }
  eexists. split; [exact H|].
  pose proof (same_env_build _ _ Hb) as (_ & _ & _ & _ & _ & _ & _ & Hout1).
  destruct (main_output _ _ _ _ _ H) as [(solution & Hout) | [Hout _]];
    [|exact Hout].
  cbn [out emit] in Hout. rewrite Hout1 in Hout. discriminate Hout.
Defined.

Lemma flow_conservation_per_node_and_pair_witness :
  exists s' rows,
    _generate_flow_conservation_constraint
      (_generate_vars (Examples.the_solver Examples.net_affine)) = Ok s' /\
    m_constraints (model s') = concat rows /\
    map (@List.length Constraint) rows = [2%nat].
Proof.
  destruct (flow_conservation_per_node_and_pair (lib := RefLib.lib)
              (Examples.the_solver Examples.net_affine)
              (_generate_vars (Examples.the_solver Examples.net_affine))
              eq_refl eq_refl eq_refl eq_refl eq_refl key_A_B)
    as (s' & rows & Hrun & Hcts & Hall).
  exists s', rows. split; [exact Hrun|]. split; [exact Hcts|].
  change (Dict.keys (od_matrix
            (_generate_vars (Examples.the_solver Examples.net_affine))))
    with ["A|B"] in Hall.
  inversion Hall as [|k row ks rs [Hrow _] Hrest]; subst.
  inversion Hrest; subst.
  apply Forall2_length in Hrow. simpl. rewrite <- Hrow. reflexivity.
Defined.

(** ** No solution *)

Lemma no_solution_keeps_initial_optimum_witness :
  exists s'',
    solve Examples.backend_none true false
          (Examples.the_solver Examples.net_wrong_way) = Ok s'' /\
    out s'' = [Print "Error calculating System Optimum!"] /\
    get_system_optimum s'' = PyInt (-1).
Proof.
  destruct wrong_way_builds as (s1 & Hb).
  destruct (no_solution_keeps_initial_optimum (lib := RefLib.lib)
              Examples.backend_none
              [Node_init "A"; Node_init "B"]
              [edge_at "B" "A" Examples.fn_2f1 0%nat (PyInt 1)]
              [("A|B", PyFloat Examples.ten)]
              "nets/example.net" [[("f", PyInt 0)]]
              (Examples.the_solver Examples.net_wrong_way) s1 true false
              eq_refl Hb eq_refl)
    as (s'' & Hsolve & Hout & _ & Hopt).
  exists s''. split; [exact Hsolve|]. split; [exact Hout | exact Hopt].
Defined.

(** C6 as stated fails: the only edge of the network runs from B to A,
    so the demand from A to B cannot be routed and the backend has no
    solution; [solve] returns, and [get_system_optimum] then returns
    the number [-1], the very value it returns before any solve. *)
Lemma no_solution_reports_a_number :
  exists s',
    Examples.solver_of Examples.net_wrong_way "nets/example.net"
    = Ok (Examples.the_solver Examples.net_wrong_way) /\
    solve Examples.backend_none false false
          (Examples.the_solver Examples.net_wrong_way) = Ok s' /\
    get_system_optimum s' = PyInt (-1) /\
    get_system_optimum s'
    = get_system_optimum (Examples.the_solver Examples.net_wrong_way).
Proof.
  destruct wrong_way_builds as (s1 & Hb).
  exists (emit s1 [Print "Error calculating System Optimum!"]).
  pose proof (same_env_build _ _ Hb) as (_ & _ & _ & _ & Hopt & _).
  split; [reflexivity|].
  split; [unfold solve; rewrite Hb; reflexivity|].
  unfold get_system_optimum. cbn [system_optimum emit].
  rewrite Hopt. split; reflexivity.
Qed.

(** ** The cost linearizer on linear texts *)

(** *** Characters, [find], [replace] and [split] *)

Lemma mentions_app (c : ascii) (a b : string) :
  mentions c (a ++ b) = mentions c a || mentions c b.
Proof.
  induction a as [|d a IH]; simpl; [reflexivity|].
  rewrite IH, orb_assoc. reflexivity.
Qed.

Lemma without_app (c : ascii) (a b : string) :
  without c (a ++ b) = without c a ++ without c b.
Proof.
  induction a as [|d a IH]; simpl; [reflexivity|].
  destruct (Ascii.eqb d c); simpl; rewrite IH; reflexivity.
Qed.

Lemma without_absent (c : ascii) (s : string) :
  mentions c s = false -> without c s = s.
Proof.
  induction s as [|d s IH]; simpl; [reflexivity|].
  intros H. apply orb_false_elim in H. destruct H as [Hd Hs].
  rewrite Hd, (IH Hs). reflexivity.
Qed.

Lemma append_empty_r (s : string) : s ++ "" = s.
Proof. induction s as [|d s IH]; simpl; [reflexivity | rewrite IH; reflexivity]. Qed.

Lemma append_assoc (a b c : string) : (a ++ b) ++ c = a ++ (b ++ c).
Proof. induction a as [|d a IH]; simpl; [reflexivity | rewrite IH; reflexivity]. Qed.

Lemma length_append (a b : string) :
  String.length (a ++ b) = (String.length a + String.length b)%nat.
Proof. induction a as [|d a IH]; simpl; [reflexivity | rewrite IH; reflexivity]. Qed.

Lemma prefix_head (c d : ascii) (v s : string) :
  Ascii.eqb d c = false -> prefix (String c v) (String d s) = false.
Proof.
  intros H. simpl. destruct (ascii_dec c d) as [->|_]; [|reflexivity].
  rewrite Ascii.eqb_refl in H. discriminate.
Qed.

Lemma prefix_append (s t : string) : prefix s (s ++ t) = true.
Proof.
  induction s as [|c s IH]; simpl; [destruct t; reflexivity|].
  destruct (ascii_dec c c) as [_|H]; [exact IH | contradiction].
Qed.

Lemma find_from_prefix (sub s : string) (i : Z) :
  prefix sub s = true -> PyStr.find_from sub s i = i.
Proof. intros H. destruct s; cbn [PyStr.find_from]; rewrite H; reflexivity. Qed.

(** A string that holds [sub] is found to hold it. *)
Lemma find_from_occurs (sub pre post : string) (i : Z) :
  0 <= i -> (PyStr.find_from sub (pre ++ sub ++ post) i =? -1) = false.
Proof.
  revert i; induction pre as [|d pre IH]; intros i Hi.
  - cbn [append].
    rewrite find_from_prefix by apply prefix_append. apply Z.eqb_neq. lia.
  - cbn [append PyStr.find_from].
    destruct (prefix sub (String d (pre ++ sub ++ post))).
    + apply Z.eqb_neq. lia.
    + apply IH. lia.
Qed.

Lemma find_occurs (sub pre post : string) :
  (PyStr.find sub (pre ++ sub ++ post) =? -1) = false.
Proof. apply find_from_occurs. lia. Qed.

(** A string that does not mention the first character of [sub] does
    not hold [sub]. *)
Lemma find_from_absent (c : ascii) (v s : string) (i : Z) :
  mentions c s = false -> PyStr.find_from (String c v) s i = -1.
Proof.
  revert i; induction s as [|d s IH]; intros i H; [reflexivity|].
  simpl in H. apply orb_false_elim in H. destruct H as [Hd Hs].
  cbn [PyStr.find_from]. rewrite (prefix_head c d v s Hd). apply IH. exact Hs.
Qed.

Lemma find_absent (c : ascii) (v s : string) :
  mentions c s = false -> (PyStr.find (String c v) s =? -1) = true.
Proof. intros H. unfold PyStr.find. rewrite find_from_absent by exact H. reflexivity. Qed.

(** Replacing one character by nothing removes it. *)
Lemma replace_char (c : ascii) (s : string) :
  PyStr.replace (String c "") "" s = without c s.
Proof.
  unfold PyStr.replace.
  induction s as [|d s IH]; [reflexivity|].
  cbn [PyStr.replace_go without].
  destruct (Ascii.eqb d c) eqn:Hd.
  - apply Ascii.eqb_eq in Hd. subst d.
    assert (Hp : prefix (String c "") (String c s) = true).
    { simpl. destruct (ascii_dec c c); [destruct s; reflexivity | contradiction]. }
    rewrite Hp. simpl. exact IH.
  - rewrite (prefix_head c d "" s Hd). rewrite IH. reflexivity.
Qed.

(** The characters of a match still to be dropped are dropped. *)
Lemma replace_go_skip (old new a b : string) :
  PyStr.replace_go old new (String.length a) (a ++ b)
  = PyStr.replace_go old new 0 b.
Proof.
  induction a as [|d a IH]; [destruct b; reflexivity|]. simpl. exact IH.
Qed.

Lemma replace_go_absent (c : ascii) (v new a b : string) :
  mentions c a = false ->
  PyStr.replace_go (String c v) new 0 (a ++ b)
  = a ++ PyStr.replace_go (String c v) new 0 b.
Proof.
  induction a as [|d a IH]; intros H; [reflexivity|].
  simpl in H. apply orb_false_elim in H. destruct H as [Hd Ha].
  cbn [append PyStr.replace_go]. rewrite (prefix_head c d v (a ++ b) Hd).
  rewrite (IH Ha). reflexivity.
Qed.

Lemma replace_go_match (c : ascii) (v b : string) :
  PyStr.replace_go (String c v) "" 0 (String c v ++ b)
  = PyStr.replace_go (String c v) "" 0 b.
Proof.
  cbn [append PyStr.replace_go].
  rewrite (prefix_append (String c v) b : prefix (String c v) (String c (v ++ b)) = true).
  cbn [String.length Nat.pred append].
  apply replace_go_skip.
Qed.

(** [split] at a separator, and of a string without one. *)
Lemma split_absent (sep : ascii) (s : string) :
  mentions sep s = false -> PyStr.split sep s = [s].
Proof.
  induction s as [|d s IH]; intros H; [reflexivity|].
  simpl in H. apply orb_false_elim in H. destruct H as [Hd Hs].
  cbn [PyStr.split]. rewrite (IH Hs), Hd. reflexivity.
Qed.

Lemma split_nonempty (sep : ascii) (s : string) : PyStr.split sep s <> [].
Proof.
  destruct s as [|d s]; simpl; [discriminate|].
  destruct (PyStr.split sep s); [discriminate|].
  destruct (Ascii.eqb d sep); discriminate.
Qed.

Lemma split_app_sep (sep : ascii) (a b : string) :
  PyStr.split sep (a ++ String sep b)
  = (PyStr.split sep a ++ PyStr.split sep b)%list.
Proof.
  induction a as [|d a IH].
  - simpl. pose proof (split_nonempty sep b) as Hb.
    destruct (PyStr.split sep b) as [|p ps]; [contradiction|].
    rewrite Ascii.eqb_refl. reflexivity.
  - cbn [append PyStr.split]. rewrite IH.
    pose proof (split_nonempty sep a) as Ha.
    destruct (PyStr.split sep a) as [|p ps]; [contradiction|].
    simpl. destruct (Ascii.eqb d sep); reflexivity.
Qed.

Lemma replace_go_absent_all (c : ascii) (v new a : string) :
  mentions c a = false -> PyStr.replace_go (String c v) new 0 a = a.
Proof.
  intros H. rewrite <- (append_empty_r a) at 1.
  rewrite replace_go_absent by exact H. cbn [PyStr.replace_go].
  apply append_empty_r.
Qed.

Lemma replace_go_match_end (c : ascii) (v : string) :
  PyStr.replace_go (String c v) "" 0 (String c v) = "".
Proof.
  pose proof (replace_go_match c v "") as H.
  rewrite append_empty_r in H. exact H.
Qed.

(** *** The slope term *)

Section SlopeTerm.

Variables (c : ascii) (v m : string).

Let var : string := String c v.

Hypothesis var_plus : mentions "+" var = false.
Hypothesis var_star : mentions "*" var = false.
Hypothesis var_slash : mentions "/" var = false.
Hypothesis m_plain : plain_literal c m = true.

Lemma m_facts :
  mentions c m = false /\ mentions "+" m = false /\
  mentions "*" m = false /\ mentions "/" m = false.
Proof.
  unfold plain_literal in m_plain.
  apply andb_prop in m_plain. destruct m_plain as [H H4].
  apply andb_prop in H. destruct H as [H H3].
  apply andb_prop in H. destruct H as [H1 H2].
  repeat split; apply negb_true_iff; assumption.
Qed.

Lemma c_facts :
  Ascii.eqb "*"%char c = false /\ Ascii.eqb "/"%char c = false.
Proof.
  unfold var in *. simpl in var_star, var_slash.
  apply orb_false_elim in var_star. apply orb_false_elim in var_slash.
  destruct var_star as [H1 _]. destruct var_slash as [H2 _].
  rewrite Ascii.eqb_sym in H1. rewrite Ascii.eqb_sym in H2. auto.
Qed.

Lemma slope_no_plus (form : slope_form) :
  mentions "+" (slope_text form var m) = false.
Proof.
  destruct m_facts as (_ & Hm & _).
  destruct form; unfold slope_text; rewrite !mentions_app, Hm, var_plus;
    reflexivity.
Qed.

Lemma slope_var (form : slope_form) :
  (PyStr.find var (slope_text form var m) =? -1) = false.
Proof.
  destruct form; unfold slope_text.
  - rewrite <- (append_empty_r var) at 2. rewrite <- append_assoc.
    apply find_occurs.
  - apply (find_occurs var "" ("*" ++ m)).
  - apply (find_occurs var "" ("/" ++ m)).
Qed.

Lemma slope_star (form : slope_form) :
  (PyStr.find "*" (slope_text form var m) =? -1)
  = match form with Over_literal => true | _ => false end.
Proof.
  destruct m_facts as (_ & _ & Hm & _).
  destruct form; unfold slope_text.
  - apply (find_occurs "*" m var).
  - apply (find_occurs "*" var m).
  - apply find_absent. rewrite !mentions_app, Hm, var_star. reflexivity.
Qed.

Lemma slope_literal_times :
  PyStr.replace "*" "" (PyStr.replace var "" (slope_text Literal_times var m)) = m.
Proof.
  destruct m_facts as (Hc & _ & Hs & _). destruct c_facts as (Hstar & _).
  unfold slope_text, var. rewrite replace_char. cbn [PyStr.replace].
  rewrite replace_go_absent by exact Hc.
  rewrite (replace_go_absent c v "" "*" (String c v))
    by (cbn [mentions]; rewrite Hstar; reflexivity).
  rewrite replace_go_match_end.
  rewrite without_app, (without_absent _ _ Hs). simpl.
  apply append_empty_r.
Qed.

Lemma slope_times_literal :
  PyStr.replace "*" "" (PyStr.replace var "" (slope_text Times_literal var m)) = m.
Proof.
  destruct m_facts as (Hc & _ & Hs & _). destruct c_facts as (Hstar & _).
  unfold slope_text, var. rewrite replace_char. cbn [PyStr.replace].
  rewrite replace_go_match.
  rewrite replace_go_absent_all
    by (rewrite mentions_app; cbn [mentions]; rewrite Hstar, Hc; reflexivity).
  rewrite without_app, (without_absent _ _ Hs). reflexivity.
Qed.

Lemma slope_over_literal :
  PyStr.replace "/" "" (PyStr.replace var "" (slope_text Over_literal var m)) = m.
Proof.
  destruct m_facts as (Hc & _ & _ & Hs). destruct c_facts as (_ & Hslash).
  unfold slope_text, var. rewrite replace_char. cbn [PyStr.replace].
  rewrite replace_go_match.
  rewrite replace_go_absent_all
    by (rewrite mentions_app; cbn [mentions]; rewrite Hslash, Hc; reflexivity).
  rewrite without_app, (without_absent _ _ Hs). reflexivity.
Qed.

End SlopeTerm.

(** *** The linearizer *)

Lemma strip_parens_replace (text : string) :
  PyStr.replace ")" "" (PyStr.replace "(" "" text) = strip_parens text.
Proof. rewrite !replace_char. reflexivity. Qed.

Lemma plain_layout_facts (c : ascii) (n : string) :
  plain_literal c n = true -> mentions c n = false /\ mentions "+" n = false.
Proof.
  unfold plain_literal. intros H.
  apply andb_prop in H. destruct H as [H _].
  apply andb_prop in H. destruct H as [H _].
  apply andb_prop in H. destruct H as [H1 H2].
  split; apply negb_true_iff; assumption.
Qed.

(** The linearizer on the text of a linear function. *)
Lemma cost_parameters_of_linear_text (c : ascii) (v m text : string)
    (form : slope_form) (l : layout) :
  mentions "+" (String c v) = false ->
  mentions "*" (String c v) = false ->
  mentions "/" (String c v) = false ->
  plain_literal c m = true ->
  plain_layout c l = true ->
  PyStr.find (String c v) text <> -1 ->
  strip_parens text = linear_text form (String c v) m l ->
  cost_parameters_of_text (String c v) text
  = (x <- PyFloat.of_string m ;;
     slope <- slope_value form x ;;
     y <- intercept_value l ;;
     Ok (PyFloat slope, PyFloat y)).
Proof.
  intros Hp Hs Hd Hm Hl Hfind Hshape.
  unfold cost_parameters_of_text.
  apply Z.eqb_neq in Hfind. rewrite Hfind.
  rewrite strip_parens_replace, Hshape. cbv zeta.
  pose proof (slope_no_plus c v m Hp Hm form) as Hnoplus.
  pose proof (slope_var c v m form) as Hvar.
  pose proof (slope_star c v m Hs Hm form) as Hstar.
  assert (Htail :
    forall nv : strnum,
      (j <- sn_find "*" (SStr (slope_text form (String c v) m)) ;;
       m0 <- (if j =? -1
              then t <- sn_replace (String c v) ""
                          (SStr (slope_text form (String c v) m)) ;;
                   d <- PyFloat.of_string (PyStr.replace "/" "" t) ;;
                   PyFloat.div PyFloat.one d
              else t <- sn_replace (String c v) ""
                          (SStr (slope_text form (String c v) m)) ;;
                   PyFloat.of_string (PyStr.replace "*" "" t)) ;;
       n0 <- sn_float nv ;; Ok (PyFloat m0, PyFloat n0))
      = (x <- PyFloat.of_string m ;;
         slope <- slope_value form x ;;
         y <- sn_float nv ;;
         Ok (PyFloat slope, PyFloat y))).
  { intros nv. cbn [sn_find sn_replace bind]. rewrite Hstar.
    destruct form; cbn [bind].
    - rewrite (slope_literal_times c v m Hs Hd Hm).
      destruct (PyFloat.of_string m); reflexivity.
    - rewrite (slope_times_literal c v m Hs Hd Hm).
      destruct (PyFloat.of_string m); reflexivity.
    - rewrite (slope_over_literal c v m Hs Hd Hm).
      destruct (PyFloat.of_string m); reflexivity. }
  destruct l as [|n|n]; cbn [linear_text intercept_value plain_layout] in *.
  - rewrite (find_absent "+" "" _ Hnoplus). cbn [bind sn_find].
    rewrite Hvar. apply (Htail (SFloat PyFloat.zero)).
  - destruct (plain_layout_facts c n Hl) as (Hcn & Hpn).
    rewrite (find_occurs "+" (slope_text form (String c v) m) n).
    change ("+" ++ n) with (String "+" n).
    rewrite split_app_sep, (split_absent _ _ Hnoplus), (split_absent _ _ Hpn).
    cbn [app bind sn_find]. rewrite Hvar. apply (Htail (SStr n)).
  - destruct (plain_layout_facts c n Hl) as (Hcn & Hpn).
    rewrite (find_occurs "+" n (slope_text form (String c v) m)).
    change ("+" ++ slope_text form (String c v) m)
      with (String "+" (slope_text form (String c v) m)).
    rewrite split_app_sep, (split_absent _ _ Hnoplus), (split_absent _ _ Hpn).
    cbn [app bind sn_find]. rewrite (find_absent c v n Hcn).
    apply (Htail (SStr n)).
Qed.

Section LinearizerProperties.

Context {lib : ExprLib}.

(** X21. The Cost Linearizer on a linear cost function.  Let the
    rendered text of the edge's cost function contain the flow
    parameter and, its parentheses removed, read [m*f], [f*m] or [f/m],
    alone or with [+n] after it or [n+] before it, where [f] is the flow
    parameter, which holds none of [+ * /], and the literals [m] and [n]
    hold neither the first character of [f] nor any of [+ * /].  Then
    the linearizer returns what [float] makes of [m] (its inverse for
    [f/m]) and what [float] makes of [n] (0.0 when there is no [n]), and
    raises exactly when one of these conversions or the division does. *)
Theorem linear_text_parameters :
  forall (h : Store.t) (edge : Edge) (text : string) (c : ascii)
         (v m : string) (form : slope_form) (l : layout),
    render h edge = Ok text ->
    e_var edge = String c v ->
    mentions "+" (e_var edge) = false ->
    mentions "*" (e_var edge) = false ->
    mentions "/" (e_var edge) = false ->
    plain_literal c m = true ->
    plain_layout c l = true ->
    PyStr.find (e_var edge) text <> -1 ->
    strip_parens text = linear_text form (e_var edge) m l ->
    _get_cost_function_parameters h edge
    = (x <- PyFloat.of_string m ;;
       slope <- slope_value form x ;;
       y <- intercept_value l ;;
       Ok (PyFloat slope, PyFloat y)).
Proof.
  intros h edge text c v m form l Hr Hvar. rewrite Hvar.
  intros Hp Hs Hd Hm Hl Hfind Hshape.
  unfold _get_cost_function_parameters. rewrite Hr, Hvar. cbn [bind].
  apply cost_parameters_of_linear_text; assumption.
Qed.

End LinearizerProperties.

Lemma linear_text_parameters_witness :
  _get_cost_function_parameters (lib := RefLib.lib)
    [[("m", PyFloat Examples.two); ("n", PyFloat PyFloat.one); ("f", PyInt 0)]]
    (edge_at "A" "B"
       (@Build_CostFunction RefLib.lib "f" ["m"; "n"]
          (RefLib.Bin "+" (RefLib.Bin "*" (RefLib.Sym "m") (RefLib.Sym "f"))
                      (RefLib.Sym "n")))
       0%nat (PyFloat PyFloat.one))
  = Ok (PyFloat Examples.two, PyFloat PyFloat.one).
Proof.
  rewrite (linear_text_parameters (lib := RefLib.lib) _ _ "((2.0*f)+1.0)"
             "f"%char "" "2.0" Literal_times (Slope_plus "1.0"));
    try reflexivity.
  discriminate.
Defined.

(** ** Constructing the solver *)

Lemma split_head (sep : ascii) (s : string) :
  exists p ps, PyStr.split sep s = p :: ps.
Proof.
  pose proof (split_nonempty sep s) as H.
  destruct (PyStr.split sep s) as [|p ps]; [contradiction|]. eauto.
Qed.

Lemma basename_of_path (d rest : string) :
  mentions "/" rest = false -> PyStr.basename (d ++ "/" ++ rest) = rest.
Proof.
  intros H. unfold PyStr.basename.
  change ("/" ++ rest) with (String "/" rest).
  rewrite split_app_sep, (split_absent _ _ H). apply last_last.
Qed.

Lemma basename_of_name (rest : string) :
  mentions "/" rest = false -> PyStr.basename rest = rest.
Proof. intros H. unfold PyStr.basename. rewrite (split_absent _ _ H). reflexivity. Qed.

Lemma Dict_set_values {A : Type} (P : A -> Prop) (d : Dict.t A) (k : string)
    (v : A) :
  Forall P (Dict.values d) -> P v -> Forall P (Dict.values (Dict.set d k v)).
Proof.
  unfold Dict.values. intros Hd Hv.
  induction d as [|[k' v'] d IH]; simpl.
  - constructor; [exact Hv | constructor].
  - inversion Hd as [|? ? Hv' Hd']; subst.
    destruct (String.eqb k' k); simpl; constructor; auto.
Qed.

Lemma od_fold_floats (lines : list string) (od : Dict.t pynum) :
  Forall (fun a => is_float a = true) (Dict.values od) ->
  Forall (fun a => is_float a = true) (Dict.values (fold_left od_put lines od)).
Proof.
  revert od; induction lines as [|raw lines IH]; intros od H; simpl; [exact H|].
  apply IH. unfold od_put.
  destruct (od_entry raw) as [[k a]|] eqn:He; [|exact H].
  apply Dict_set_values; [exact H|].
  apply od_entry_Some in He. destruct He as (? & ? & ? & ? & x & _ & _ & _ & ->).
  reflexivity.
Qed.

(** [sum] of floats does not raise. *)
Lemma sum_from_floats (l : list pynum) :
  Forall (fun a => is_float a = true) l ->
  forall acc, acc = PyInt 0 \/ is_float acc = true ->
    exists t, PyNum.sum_from acc l = Ok t.
Proof.
  induction 1 as [|a l Ha _ IH]; intros acc Hacc; simpl.
  - eexists; reflexivity.
  - destruct a as [z|x]; [discriminate|].
    destruct Hacc as [->|Hacc].
    + change (PyNum.add (PyInt 0) (PyFloat x))
        with (Ok (PyFloat (PyFloat.add (S754_zero false) x)) : result pynum).
      cbn [bind]. apply IH. right; reflexivity.
    + destruct acc as [z|y]; [discriminate|]. simpl.
      apply IH. right; reflexivity.
Qed.

Section SolverConstruction.

Context {lib : ExprLib}.

(** X22. The graph of a file that parses always makes a solver:
    [SOSolver(V, E, OD, name)] does not raise, whatever the name, and
    the new solver holds the graph as parsed, no variable, no
    constraint and no objective, the System Optimum -1 and as
    [sum_flows] the sum of the demands of the OD mapping. *)
Theorem parsed_graph_makes_a_solver :
  forall (flow : pynum) (lines : list string) (V_ : list Node)
         (E_ : list Edge) (OD_ : Dict.t pynum) (h : Store.t) (file : string),
    generateGraph lines flow = Ok (V_, E_, OD_, h) ->
    exists s,
      SOSolver_init V_ E_ OD_ file h = Ok s /\
      nodes s = V_ /\ edges s = E_ /\ od_matrix s = OD_ /\ store s = h /\
      m_vars (model s) = [] /\ m_constraints (model s) = [] /\
      m_objective (model s) = None /\
      phi_vars s = [] /\ l_vars s = [] /\ x_vars s = [] /\
      get_system_optimum s = PyInt (-1) /\
      PyNum.sum (Dict.values OD_) = Ok (sum_flows s).
Proof.
  intros flow lines V_ E_ OD_ h file H.
  unfold generateGraph in H. apply bind_Ok in H. destruct H as (st & Hst & H).
  injection H as <- <- <- <-.
  apply parse_lines_OD in Hst.
  assert (Hfl : Forall (fun a => is_float a = true) (Dict.values (OD st))).
  { rewrite Hst. apply od_fold_floats. constructor. }
  destruct (sum_from_floats _ Hfl (PyInt 0) (or_introl eq_refl)) as (t & Ht).
  destruct (split_head "." (PyStr.basename file)) as (p & ps & Hp).
  unfold SOSolver_init. rewrite Hp. cbn [index nth_error bind].
  unfold PyNum.sum. rewrite Ht. cbn [bind].
  eexists. split; [reflexivity|]. repeat split.
Qed.

(** X23. The solver, its model and the LP file are named after the
    file: for a path [dir/stem.ext] or a bare name [stem.ext], where
    [stem] holds neither [/] nor [.] and [ext] holds no [/], the name
    is [stem] (what precedes the first dot of the base name). *)
Theorem solver_name_is_the_stem :
  forall (nodes_ : list Node) (edges_ : list Edge) (od : Dict.t pynum)
         (h : Store.t) (dir stem ext : string) (s : SOSolver),
    mentions "/" stem = false ->
    mentions "." stem = false ->
    mentions "/" ext = false ->
    (SOSolver_init nodes_ edges_ od (dir ++ "/" ++ stem ++ "." ++ ext) h = Ok s \/
     SOSolver_init nodes_ edges_ od (stem ++ "." ++ ext) h = Ok s) ->
    name s = stem /\ m_name (model s) = stem.
Proof.
  intros nodes_ edges_ od h dir stem ext s Hs Hd He H.
  assert (Hrest : mentions "/" (stem ++ "." ++ ext) = false).
  { rewrite !mentions_app, Hs, He. reflexivity. }
  assert (Hname : forall file,
             PyStr.basename file = stem ++ "." ++ ext ->
             SOSolver_init nodes_ edges_ od file h = Ok s ->
             name s = stem /\ m_name (model s) = stem).
  { intros file Hb Hi. unfold SOSolver_init in Hi. rewrite Hb in Hi.
    change ("." ++ ext) with (String "." ext) in Hi.
    rewrite split_app_sep, (split_absent _ _ Hd) in Hi.
    cbn [app index nth_error bind] in Hi.
    apply bind_Ok in Hi. destruct Hi as (t & _ & Hi). injection Hi as <-.
    split; reflexivity. }
  destruct H as [H|H].
  - apply (Hname _ (basename_of_path dir _ Hrest) H).
  - apply (Hname _ (basename_of_name _ Hrest) H).
Qed.

End SolverConstruction.

Lemma parsed_graph_makes_a_solver_witness :
  exists s,
    SOSolver_init (lib := RefLib.lib) [Node_init "A"; Node_init "B"] []
      [("A|B", PyFloat (S754_finite false 5629499534213120 (-49)))]
      "nets/two.net" [] = Ok s /\
    sum_flows s = PyFloat (S754_finite false 5629499534213120 (-49)).
Proof.
  destruct (parsed_graph_makes_a_solver (lib := RefLib.lib) (PyFloat PyFloat.zero)
              Examples.net_disconnected [Node_init "A"; Node_init "B"] []
              [("A|B", PyFloat (S754_finite false 5629499534213120 (-49)))] []
              "nets/two.net" eq_refl)
    as (s & Hs & _ & _ & _ & _ & _ & _ & _ & _ & _ & _ & _ & Hsum).
  exists s. split; [exact Hs|].
  assert (E : Ok (sum_flows s)
              = Ok (PyFloat (S754_finite false 5629499534213120 (-49))))
    by (rewrite <- Hsum; reflexivity).
  injection E as ->. reflexivity.
Defined.

Lemma solver_name_is_the_stem_witness :
  name (Examples.the_solver Examples.net_affine) = "example".
Proof.
  apply (solver_name_is_the_stem (lib := RefLib.lib)
           (nodes (Examples.the_solver Examples.net_affine))
           (edges (Examples.the_solver Examples.net_affine))
           (od_matrix (Examples.the_solver Examples.net_affine))
           (store (Examples.the_solver Examples.net_affine))
           "nets" "example" "net" (Examples.the_solver Examples.net_affine));
    try reflexivity.
  left. reflexivity.
Defined.

(** ** Values on an edge line, and edges of the same name *)

Lemma Dict_keys_set {A : Type} (d : Dict.t A) (k : string) (v : A) :
  Dict.keys (Dict.set d k v) = add_key (Dict.keys d) k.
Proof.
  unfold add_key, Dict.keys.
  induction d as [|[k' v'] d IH]; simpl; [reflexivity|].
  rewrite (String.eqb_sym k k').
  destruct (String.eqb k' k); simpl; [reflexivity|].
  rewrite IH. destruct (existsb (String.eqb k) (map fst d)); reflexivity.
Qed.

Section EdgeLineValues.

Context {lib : ExprLib}.

Lemma zip_float_surplus (cs vs extra : list string) :
  (List.length cs <= List.length vs)%nat ->
  zip_float cs (vs ++ extra) = zip_float cs vs.
Proof.
  revert vs; induction cs as [|c cs IH]; intros vs H; [destruct vs; reflexivity|].
  destruct vs as [|x vs]; simpl in H; [lia|]. simpl.
  rewrite IH by lia. reflexivity.
Qed.

(** X24. On a [dedge] or [edge] line the values beyond the constants
    of the line's cost function are ignored: the line does the same
    with and without them (they are not even converted, so they need not
    be numbers). *)
Theorem surplus_values_are_ignored :
  forall (flow : pynum) (lineid : nat) (raw1 raw2 : string) (st : pstate)
         (tag t1 a b fname : string) (vals extra : list string)
         (fn : CostFunction),
    PyStr.split_ws (clean_line raw1) = tag :: t1 :: a :: b :: fname :: vals ->
    PyStr.split_ws (clean_line raw2)
    = tag :: t1 :: a :: b :: fname :: (vals ++ extra)%list ->
    tag = "dedge" \/ tag = "edge" ->
    Dict.get (F st) fname = Some fn ->
    (List.length (cf_constants fn) <= List.length vals)%nat ->
    process_line flow lineid raw2 st = process_line flow lineid raw1 st.
Proof.
  intros flow lineid raw1 raw2 st tag t1 a b fname vals extra fn H1 H2 Htag HF Hlen.
  unfold process_line. rewrite H1, H2.
  assert (Hedge : do_edge flow (tag :: t1 :: a :: b :: fname :: (vals ++ extra)%list) st
                  = do_edge flow (tag :: t1 :: a :: b :: fname :: vals) st).
  { rewrite !do_edge_eq. cbn [index nth_error bind skipn].
    unfold Dict.getitem. rewrite HF. cbn [bind].
    rewrite zip_float_surplus by exact Hlen. reflexivity. }
  destruct Htag as [-> | ->]; cbn [String.eqb Ascii.eqb Bool.eqb orb];
    exact Hedge.
Qed.

End EdgeLineValues.

Lemma surplus_values_are_ignored_witness :
  process_line (lib := RefLib.lib) (PyFloat PyFloat.zero) 4
    "edge AB A B fn 7 eight" Examples.st_two_nodes
  = process_line (PyFloat PyFloat.zero) 4 "edge AB A B fn" Examples.st_two_nodes.
Proof.
  apply (surplus_values_are_ignored (lib := RefLib.lib) (PyFloat PyFloat.zero) 4
           "edge AB A B fn" "edge AB A B fn 7 eight" Examples.st_two_nodes
           "edge" "AB" "A" "B" "fn" [] ["7"; "eight"] Examples.fn_2f1).
  - reflexivity.
  - reflexivity.
  - right; reflexivity.
  - reflexivity.
  - simpl; lia.
Defined.

Section VariableTables.

Context {lib : ExprLib}.

Lemma generate_x_vars_keys (e : Edge) (vn : string) (ks : list string) :
  forall s,
    let s' := fold_left (generate_x_var e vn) ks s in
    phi_vars s' = phi_vars s /\ l_vars s' = l_vars s.
Proof.
  induction ks as [|k ks IH]; intros s; simpl; [split; reflexivity|].
  destruct (IH (generate_x_var e vn s k)) as (H1 & H2).
  rewrite H1, H2. split; reflexivity.
Qed.

Lemma generate_vars_edge_keys (s : SOSolver) (e : Edge) :
  Dict.keys (phi_vars (generate_vars_edge s e))
  = add_key (Dict.keys (phi_vars s)) (e_name e) /\
  Dict.keys (l_vars (generate_vars_edge s e))
  = add_key (Dict.keys (l_vars s)) (e_name e).
Proof.
  unfold generate_vars_edge, new_var, continuous_var.
  cbn [fst snd model with_model with_phi_vars with_l_vars od_matrix
       phi_vars l_vars].
  match goal with
  | |- context [fold_left (generate_x_var e ?vn) ?ks ?s0] =>
      destruct (generate_x_vars_keys e vn ks s0) as (H1 & H2)
  end.
  rewrite H1, H2. simpl. rewrite !Dict_keys_set. split; reflexivity.
Qed.

Lemma generate_vars_keys_from (es : list Edge) :
  forall s,
    Dict.keys (phi_vars (fold_left generate_vars_edge es s))
    = fold_left add_key (map e_name es) (Dict.keys (phi_vars s)) /\
    Dict.keys (l_vars (fold_left generate_vars_edge es s))
    = fold_left add_key (map e_name es) (Dict.keys (l_vars s)).
Proof.
  induction es as [|e es IH]; intros s; simpl; [split; reflexivity|].
  destruct (IH (generate_vars_edge s e)) as (H1 & H2).
  destruct (generate_vars_edge_keys s e) as (G1 & G2).
  rewrite H1, H2, G1, G2. split; reflexivity.
Qed.

(** X25. The variable tables are keyed by edge name: on a solver with
    empty tables [_generate_vars] leaves in [phi_vars] and in [l_vars]
    one entry per distinct edge name, in the order of first occurrence.
    Edges with the same start and end therefore share their [phi] and
    [l] variables, and the objective built from [phi_vars] has one term
    per distinct edge name. *)
Theorem variable_tables_by_edge_name :
  forall s : SOSolver,
    phi_vars s = [] -> l_vars s = [] ->
    Dict.keys (phi_vars (_generate_vars s)) = distinct (map e_name (edges s)) /\
    Dict.keys (l_vars (_generate_vars s)) = distinct (map e_name (edges s)) /\
    exists vs,
      m_objective (model (_generate_objective_function (_generate_vars s)))
      = Some (ESum vs) /\
      List.length vs = List.length (distinct (map e_name (edges s))).
Proof.
  intros s Hp Hl. unfold _generate_vars.
  destruct (generate_vars_keys_from (edges s) s) as (H1 & H2).
  rewrite Hp in H1. rewrite Hl in H2.
  split; [exact H1|]. split; [exact H2|].
  eexists. split; [reflexivity|].
  unfold Dict.values. rewrite length_map.
  unfold Dict.keys in H1. rewrite <- (length_map fst), H1. reflexivity.
Qed.

End VariableTables.

Lemma variable_tables_by_edge_name_witness :
  Dict.keys (phi_vars (_generate_vars
     (Examples.the_solver
        ["function fn (f) 2*f+1"; "dedge e1 A B fn"; "dedge e2 A B fn"])))
  = ["A-B"].
Proof.
  destruct (variable_tables_by_edge_name (lib := RefLib.lib)
              (Examples.the_solver
                 ["function fn (f) 2*f+1"; "dedge e1 A B fn"; "dedge e2 A B fn"])
              eq_refl eq_refl) as (H & _).
  rewrite H. reflexivity.
Defined.

(** ** Which cost function an edge gets *)

Section FunctionScope.

Context {lib : ExprLib}.

Lemma process_function_line (flow : pynum) (lineid : nat) (raw fname : string)
    (fn : CostFunction) (st st' : pstate) :
  function_of_line raw = Some (fname, fn) ->
  process_line flow lineid raw st = Ok st' ->
  Dict.get (F st') fname = Some fn.
Proof.
  unfold function_of_line, process_line. intros Hf H.
  destruct (PyStr.split_ws (clean_line raw)) as [|t0 [|t1 [|t2 [|t3 tl]]]];
    try discriminate.
  destruct (String.eqb t0 "function"); [|discriminate].
  unfold do_function in H. cbn [index nth_error bind] in H.
  destruct (PyStr.split "," (PyStr.slice t2 1 (-1))) as [|p0 [|p1 ps]];
    try discriminate.
  cbn [List.length Nat.ltb Nat.leb] in H.
  destruct (parse t3) as [f|]; [|discriminate].
  cbn [index nth_error bind] in H.
  injection Hf as <- <-. injection H as <-. simpl. apply Dict_get_set_eq.
Qed.

(** X26. An edge gets the cost function declared most recently before
    its line: if a [function] line declares [fname], no line between it
    and a later [dedge] or [edge] line declares [fname] again, and the
    file parses, then the edge made of that line (start to end) is among
    the edges returned and carries the function of that declaration,
    whatever is declared after the edge's line. *)
Theorem edge_gets_latest_declaration :
  forall (flow : pynum) (pre : list string) (fline : string)
         (mid : list string) (eline : string) (post : list string)
         (fname : string) (fn : CostFunction)
         (tag t1 a b : string) (vals : list string)
         (V_ : list Node) (E_ : list Edge) (OD_ : Dict.t pynum) (h : Store.t),
    function_of_line fline = Some (fname, fn) ->
    forallb (fun l => negb (declares_function fname l)) mid = true ->
    PyStr.split_ws (clean_line eline) = tag :: t1 :: a :: b :: fname :: vals ->
    tag = "dedge" \/ tag = "edge" ->
    generateGraph (pre ++ fline :: mid ++ eline :: post) flow
    = Ok (V_, E_, OD_, h) ->
    exists e, In e E_ /\ arc e = (a, b) /\ e_function e = fn.
Proof.
  intros flow pre fline mid eline post fname fn tag t1 a b vals V_ E_ OD_ h
         Hf Hmid Htok Htag H.
  unfold generateGraph in H. apply bind_Ok in H. destruct H as (st & Hst & H).
  injection H as _ <- _ _.
  rewrite parse_lines_app in Hst. apply bind_Ok in Hst.
  destruct Hst as (st0 & _ & Hst).
  cbn [parse_lines] in Hst. apply bind_Ok in Hst. destruct Hst as (st1 & H1 & Hst).
  rewrite parse_lines_app in Hst. apply bind_Ok in Hst.
  destruct Hst as (st2 & H2 & Hst).
  cbn [parse_lines] in Hst. apply bind_Ok in Hst. destruct Hst as (st3 & H3 & Hst).
  pose proof (process_function_line _ _ _ _ _ _ _ Hf H1) as HF1.
  pose proof (parse_lines_F _ _ _ _ _ _ H2 Hmid) as HF2. rewrite HF1 in HF2.
  apply parse_lines_E in Hst. destruct Hst as (new & ds & HE & _).
  unfold process_line in H3. rewrite Htok in H3.
  assert (Hedge : do_edge flow (tag :: t1 :: a :: b :: fname :: vals) st2 = Ok st3).
  { destruct Htag as [-> | ->]; exact H3. }
  rewrite do_edge_eq in Hedge. cbn [index nth_error bind] in Hedge.
  unfold Dict.getitem in Hedge. rewrite HF2 in Hedge. cbn [bind] in Hedge.
  apply bind_Ok in Hedge. destruct Hedge as (pairs & _ & Hedge).
  cbv zeta in Hedge.
  apply bind_Ok in Hedge. destruct Hedge as (c & _ & Hedge).
  injection Hedge as <-. simpl in HE.
  exists (edge_at a b fn (List.length (heap st2)) c).
  split; [|split; reflexivity].
  rewrite HE. apply in_or_app. left. apply in_or_app. right. left. reflexivity.
Qed.

End FunctionScope.

Lemma edge_gets_latest_declaration_witness :
  exists e,
    In e [edge_at "A" "B" Examples.fn_2f1 0%nat (PyInt 1)] /\
    arc e = ("A", "B") /\ e_function e = Examples.fn_2f1.
Proof.
  apply (edge_gets_latest_declaration (lib := RefLib.lib) (PyFloat PyFloat.zero)
           [] "function fn (f) 2*f+1" ["node A"; "node B"] "dedge AB A B fn"
           ["function fn (f) f/4"]
           "fn" Examples.fn_2f1 "dedge" "AB" "A" "B" []
           [Node_init "A"; Node_init "B"]
           [edge_at "A" "B" Examples.fn_2f1 0%nat (PyInt 1)] []
           [[("f", PyInt 0)]]).
  - reflexivity.
  - reflexivity.
  - reflexivity.
  - left; reflexivity.
  - reflexivity.
Defined.
